(** * KOZOS kernel core (src/12/os/kozos.c): ready queues, system calls,
    mailboxes and the scheduler, embedded as state-passing functions.

    Pointers are addresses ([Z], [NULL] = 0).  Every kind of object the
    kernel dereferences lives in its own finite map keyed by address: the
    TCB table [threads], the message buffers [msgbufs], the system-call
    parameter blocks [params], caller variables [umem] and the stack arena
    [ustack].  A dereference of an address that holds no such object, an
    index outside an array and a read of the parameter union through the
    wrong arm are undefined behaviour in C; the embedding stops there with
    a [Fault].  [kz_sysdown] never returns; the embedding stops with
    [Down]. *)

From stdpp Require Import gmap strings list fin_maps.
From Stdlib Require Import ZArith Lia.

Open Scope Z_scope.

(* [set_solver] clears hypotheses that its own simplification has already
   consumed. *)
#[local] Set Warnings "-clear-no-such-hyp".

(** ** Constants of kozos.c *)

Definition THREAD_NUM : nat := 6.
Definition PRIORITY_NUM : Z := 16.
Definition THREAD_NAME_SIZE : nat := 15.
Definition KZ_THREAD_FLAG_READY : Z := Z.shiftl 1 0.
Definition NULL : Z := 0.

(** ** Types declared in headers that are not part of the sources *)

(** Modelled from the spec: the request tags of syscall.h, in the order of
    section 4.3 ("RUN, EXIT, WAIT, SLEEP, WAKEUP, GETID, CHPRI, KMALLOC,
    KMFREE, SEND, RECV, SETINTR"). *)
Inductive kz_syscall_type_t :=
| KZ_SYSCALL_TYPE_RUN
| KZ_SYSCALL_TYPE_EXIT
| KZ_SYSCALL_TYPE_WAIT
| KZ_SYSCALL_TYPE_SLEEP
| KZ_SYSCALL_TYPE_WAKEUP
| KZ_SYSCALL_TYPE_GETID
| KZ_SYSCALL_TYPE_CHPRI
| KZ_SYSCALL_TYPE_KMALLOC
| KZ_SYSCALL_TYPE_KMFREE
| KZ_SYSCALL_TYPE_SEND
| KZ_SYSCALL_TYPE_RECV
| KZ_SYSCALL_TYPE_SETINTR.

Global Instance kz_syscall_type_t_eq_dec : EqDecision kz_syscall_type_t.
Proof. solve_decision. Defined.

(** A registered interrupt handler.  The kernel owns [syscall_intr] and
    [softerr_intr]; a handler registered by a thread is described by the
    service calls it issues through [kz_srvcall], each with the address of
    its parameter block. *)
Inductive kz_handler_t :=
| H_NULL
| H_syscall_intr
| H_softerr_intr
| H_user (calls : list (kz_syscall_type_t * Z)).

Global Instance kz_handler_t_eq_dec : EqDecision kz_handler_t.
Proof. solve_decision. Defined.

(** Modelled from the spec: [kz_syscall_param_t] of syscall.h, "a tagged
    union (one arm per tag) with caller-supplied inputs and a result slot";
    the fields are the ones [call_functions] reads and writes.  [name] is
    the string the [char *] argument points to. *)
Inductive kz_syscall_param_t :=
| un_run (func : Z) (name : string) (priority stacksize argc argv : Z) (ret : Z)
| un_exit
| un_wait (ret : Z)
| un_sleep (ret : Z)
| un_wakeup (id : Z) (ret : Z)
| un_getid (ret : Z)
| un_chpri (priority : Z) (ret : Z)
| un_kmalloc (size : Z) (ret : Z)
| un_kmfree (p : Z) (ret : Z)
| un_send (id size p : Z) (ret : Z)
| un_recv (id sizep pp : Z) (ret : Z)
| un_setintr (type : Z) (handler : kz_handler_t) (ret : Z).

Global Instance kz_syscall_param_t_eq_dec : EqDecision kz_syscall_param_t.
Proof. solve_decision. Defined.

(** ** Data structures of kozos.c *)

(** [struct _kz_thread]; [context_sp] is [context.sp]. *)
Record kz_thread := mk_thread {
  next : Z;
  name : string;
  priority : Z;
  stack : Z;
  flags : Z;
  init_func : Z;
  init_argc : Z;
  init_argv : Z;
  syscall_type : kz_syscall_type_t;
  syscall_param : Z;
  context_sp : Z
}.

Global Instance kz_thread_eq_dec : EqDecision kz_thread.
Proof. solve_decision. Defined.

(** What zeroing a TCB with [memset] leaves. *)
Definition zero_thread : kz_thread :=
  mk_thread NULL EmptyString 0 NULL 0 NULL 0 NULL KZ_SYSCALL_TYPE_RUN NULL 0.

Definition set_next (v : Z) (t : kz_thread) : kz_thread :=
  mk_thread v (name t) (priority t) (stack t) (flags t) (init_func t)
    (init_argc t) (init_argv t) (syscall_type t) (syscall_param t) (context_sp t).
Definition set_name (v : string) (t : kz_thread) : kz_thread :=
  mk_thread (next t) v (priority t) (stack t) (flags t) (init_func t)
    (init_argc t) (init_argv t) (syscall_type t) (syscall_param t) (context_sp t).
Definition set_priority (v : Z) (t : kz_thread) : kz_thread :=
  mk_thread (next t) (name t) v (stack t) (flags t) (init_func t)
    (init_argc t) (init_argv t) (syscall_type t) (syscall_param t) (context_sp t).
Definition set_stack (v : Z) (t : kz_thread) : kz_thread :=
  mk_thread (next t) (name t) (priority t) v (flags t) (init_func t)
    (init_argc t) (init_argv t) (syscall_type t) (syscall_param t) (context_sp t).
Definition set_flags (v : Z) (t : kz_thread) : kz_thread :=
  mk_thread (next t) (name t) (priority t) (stack t) v (init_func t)
    (init_argc t) (init_argv t) (syscall_type t) (syscall_param t) (context_sp t).
Definition set_init (f c v : Z) (t : kz_thread) : kz_thread :=
  mk_thread (next t) (name t) (priority t) (stack t) (flags t) f c v
    (syscall_type t) (syscall_param t) (context_sp t).
Definition set_syscall (ty : kz_syscall_type_t) (p : Z) (t : kz_thread) : kz_thread :=
  mk_thread (next t) (name t) (priority t) (stack t) (flags t) (init_func t)
    (init_argc t) (init_argv t) ty p (context_sp t).
Definition set_context_sp (v : Z) (t : kz_thread) : kz_thread :=
  mk_thread (next t) (name t) (priority t) (stack t) (flags t) (init_func t)
    (init_argc t) (init_argv t) (syscall_type t) (syscall_param t) v.

(** [struct _kz_msgbuf]; [param_size] and [param_p] are [param.size] and
    [param.p]. *)
Record kz_msgbuf := mk_msgbuf {
  mnext : Z;
  sender : Z;
  param_size : Z;
  param_p : Z
}.

Global Instance kz_msgbuf_eq_dec : EqDecision kz_msgbuf.
Proof. solve_decision. Defined.

(** [struct _kz_msgbox] without its padding member. *)
Record kz_msgbox := mk_msgbox {
  receiver : Z;
  mhead : Z;
  mtail : Z
}.

Global Instance kz_msgbox_eq_dec : EqDecision kz_msgbox.
Proof. solve_decision. Defined.

(** One element of [readyque]. *)
Record que := mk_que {
  head : Z;
  tail : Z
}.

Global Instance que_eq_dec : EqDecision que.
Proof. solve_decision. Defined.

(** Modelled from the spec: the memory pool of memory.c (section 4.5).
    "Segregated-fit allocator over statically reserved size classes.
    Allocation searches the smallest adequate class's free list; if empty,
    carves a new block from the arena (bump-allocated).  Free returns to
    the class list.  Returns null on exhaustion."  "Each block carries a
    small header (size class, in-use flag)."  [pool_classes] lists the
    block size of every class in ascending order with its free list,
    [pool_hdr] is the header of every carved block, [pool_brk] and
    [pool_end] delimit what is left of the arena. *)
Record kzmem_pool := mk_pool {
  pool_classes : list (Z * list Z);
  pool_hdr : gmap Z (nat * bool);
  pool_brk : Z;
  pool_end : Z
}.

(** Addresses fixed when the kernel is linked. *)
Record layout := mk_layout {
  threads_base : Z;       (* &threads[0] *)
  sizeof_kz_thread : Z;
  thread_init_addr : Z;   (* (uint32)thread_init *)
  thread_end_addr : Z;    (* (uint32)thread_end *)
  userstack : Z;          (* &userstack *)
  sizeof_kz_msgbuf : Z;
  freearea : Z;           (* start of the kernel heap *)
  heap_end : Z;
  heap_classes : list Z;  (* block sizes of the pool *)
  MSGBOX_ID_NUM : nat;
  SOFTVEC_TYPE_NUM : nat;
  SOFTVEC_TYPE_SOFTERR : Z;
  SOFTVEC_TYPE_SYSCALL : Z
}.

(** The kernel's static data and the memory it reaches through
    pointers. *)
Record kernel := mk_kernel {
  readyque : list que;
  current : Z;
  threads : gmap Z kz_thread;
  handlers : list kz_handler_t;
  msgboxes : list kz_msgbox;
  thread_stack : Z;                       (* static local of thread_run *)
  msgbufs : gmap Z kz_msgbuf;
  pool : kzmem_pool;
  params : gmap Z kz_syscall_param_t;
  umem : gmap Z Z;
  ustack : gmap Z Z;
  softvecs : list Z;                      (* vectors routed to thread_intr *)
  console : list string
}.

Definition with_readyque (v : list que) (k : kernel) : kernel :=
  mk_kernel v (current k) (threads k) (handlers k) (msgboxes k) (thread_stack k)
    (msgbufs k) (pool k) (params k) (umem k) (ustack k) (softvecs k) (console k).
Definition with_current (v : Z) (k : kernel) : kernel :=
  mk_kernel (readyque k) v (threads k) (handlers k) (msgboxes k) (thread_stack k)
    (msgbufs k) (pool k) (params k) (umem k) (ustack k) (softvecs k) (console k).
Definition with_threads (v : gmap Z kz_thread) (k : kernel) : kernel :=
  mk_kernel (readyque k) (current k) v (handlers k) (msgboxes k) (thread_stack k)
    (msgbufs k) (pool k) (params k) (umem k) (ustack k) (softvecs k) (console k).
Definition with_handlers (v : list kz_handler_t) (k : kernel) : kernel :=
  mk_kernel (readyque k) (current k) (threads k) v (msgboxes k) (thread_stack k)
    (msgbufs k) (pool k) (params k) (umem k) (ustack k) (softvecs k) (console k).
Definition with_msgboxes (v : list kz_msgbox) (k : kernel) : kernel :=
  mk_kernel (readyque k) (current k) (threads k) (handlers k) v (thread_stack k)
    (msgbufs k) (pool k) (params k) (umem k) (ustack k) (softvecs k) (console k).
Definition with_thread_stack (v : Z) (k : kernel) : kernel :=
  mk_kernel (readyque k) (current k) (threads k) (handlers k) (msgboxes k) v
    (msgbufs k) (pool k) (params k) (umem k) (ustack k) (softvecs k) (console k).
Definition with_msgbufs (v : gmap Z kz_msgbuf) (k : kernel) : kernel :=
  mk_kernel (readyque k) (current k) (threads k) (handlers k) (msgboxes k) (thread_stack k)
    v (pool k) (params k) (umem k) (ustack k) (softvecs k) (console k).
Definition with_pool (v : kzmem_pool) (k : kernel) : kernel :=
  mk_kernel (readyque k) (current k) (threads k) (handlers k) (msgboxes k) (thread_stack k)
    (msgbufs k) v (params k) (umem k) (ustack k) (softvecs k) (console k).
Definition with_params (v : gmap Z kz_syscall_param_t) (k : kernel) : kernel :=
  mk_kernel (readyque k) (current k) (threads k) (handlers k) (msgboxes k) (thread_stack k)
    (msgbufs k) (pool k) v (umem k) (ustack k) (softvecs k) (console k).
Definition with_umem (v : gmap Z Z) (k : kernel) : kernel :=
  mk_kernel (readyque k) (current k) (threads k) (handlers k) (msgboxes k) (thread_stack k)
    (msgbufs k) (pool k) (params k) v (ustack k) (softvecs k) (console k).
Definition with_ustack (v : gmap Z Z) (k : kernel) : kernel :=
  mk_kernel (readyque k) (current k) (threads k) (handlers k) (msgboxes k) (thread_stack k)
    (msgbufs k) (pool k) (params k) (umem k) v (softvecs k) (console k).
Definition with_softvecs (v : list Z) (k : kernel) : kernel :=
  mk_kernel (readyque k) (current k) (threads k) (handlers k) (msgboxes k) (thread_stack k)
    (msgbufs k) (pool k) (params k) (umem k) (ustack k) v (console k).
Definition with_console (v : list string) (k : kernel) : kernel :=
  mk_kernel (readyque k) (current k) (threads k) (handlers k) (msgboxes k) (thread_stack k)
    (msgbufs k) (pool k) (params k) (umem k) (ustack k) (softvecs k) v.

(** ** Kernel computations *)

Inductive fault :=
| NullPointer      (* dereference of NULL *)
| WildPointer      (* dereference of an address that holds no such object *)
| OutOfBounds      (* index outside an array *)
| BadUnion.        (* parameter union read through the wrong arm *)

Global Instance fault_eq_dec : EqDecision fault.
Proof. solve_decision. Defined.

Inductive outcome (A : Type) :=
| Ret (a : A) (k : kernel)      (* the function returns [a] *)
| Down (k : kernel)             (* kz_sysdown was entered *)
| Fault (f : fault) (k : kernel).
Arguments Ret {A} a k.
Arguments Down {A} k.
Arguments Fault {A} f k.

Definition M (A : Type) : Type := kernel → outcome A.

Definition ret {A} (a : A) : M A := λ k, Ret a k.

Definition bind {A B} (m : M A) (f : A → M B) : M B :=
  λ k, match m k with
       | Ret a k' => f a k'
       | Down k' => Down k'
       | Fault e k' => Fault e k'
       end.

Notation "'do' x <- m ; f" := (bind m (λ x, f))
  (at level 10, x name, m at level 100, f at level 200,
   format "'[v' 'do'  x  <-  m ;  '/' f ']'").

Definition get {A} (f : kernel → A) : M A := λ k, Ret (f k) k.
Definition put (f : kernel → kernel) : M unit := λ k, Ret tt (f k).
Definition fail {A} (e : fault) : M A := λ k, Fault e k.

Definition newline : string := String (Ascii.ascii_of_nat 10) EmptyString.

(** [puts] of lib.h: the string goes to the console. *)
Definition puts (s : string) : M unit :=
  put (λ k, with_console (console k ++ [s]) k).

(** [kz_sysdown]: prints and loops forever. *)
Definition kz_sysdown {A} : M A :=
  λ k, Down (with_console (console k ++ ["system error!" +:+ newline]) k).

(** ** Memory accesses *)

(** Read of [*p] for a TCB pointer [p]. *)
Definition load_thread (p : Z) : M kz_thread :=
  λ k, if decide (p = NULL) then Fault NullPointer k
       else match threads k !! p with
            | Some t => Ret t k
            | None => Fault WildPointer k
            end.

(** Assignment to fields of [*p]: [f] rewrites the TCB read at that
    moment. *)
Definition update_thread (p : Z) (f : kz_thread → kz_thread) : M unit :=
  do t <- load_thread p;
  put (λ k, with_threads (<[p := f t]> (threads k)) k).

(** [readyque[i]], an array of [PRIORITY_NUM] elements. *)
Definition load_que (i : Z) : M que :=
  λ k, if decide (0 ≤ i < PRIORITY_NUM)
       then match readyque k !! Z.to_nat i with
            | Some q => Ret q k
            | None => Fault OutOfBounds k
            end
       else Fault OutOfBounds k.

Definition update_que (i : Z) (f : que → que) : M unit :=
  do q <- load_que i;
  put (λ k, with_readyque (<[Z.to_nat i := f q]> (readyque k)) k).

(** [msgboxes[id]]. *)
Definition load_msgbox (id : Z) : M kz_msgbox :=
  λ k, if decide (0 ≤ id)
       then match msgboxes k !! Z.to_nat id with
            | Some b => Ret b k
            | None => Fault OutOfBounds k
            end
       else Fault OutOfBounds k.

Definition update_msgbox (id : Z) (f : kz_msgbox → kz_msgbox) : M unit :=
  do b <- load_msgbox id;
  put (λ k, with_msgboxes (<[Z.to_nat id := f b]> (msgboxes k)) k).

Definition set_receiver (v : Z) (b : kz_msgbox) : kz_msgbox :=
  mk_msgbox v (mhead b) (mtail b).
Definition set_mhead (v : Z) (b : kz_msgbox) : kz_msgbox :=
  mk_msgbox (receiver b) v (mtail b).
Definition set_mtail (v : Z) (b : kz_msgbox) : kz_msgbox :=
  mk_msgbox (receiver b) (mhead b) v.

Definition load_msgbuf (p : Z) : M kz_msgbuf :=
  λ k, if decide (p = NULL) then Fault NullPointer k
       else match msgbufs k !! p with
            | Some m => Ret m k
            | None => Fault WildPointer k
            end.

Definition update_msgbuf (p : Z) (f : kz_msgbuf → kz_msgbuf) : M unit :=
  do m <- load_msgbuf p;
  put (λ k, with_msgbufs (<[p := f m]> (msgbufs k)) k).

Definition set_mnext (v : Z) (m : kz_msgbuf) : kz_msgbuf :=
  mk_msgbuf v (sender m) (param_size m) (param_p m).

Definition load_param (p : Z) : M kz_syscall_param_t :=
  λ k, if decide (p = NULL) then Fault NullPointer k
       else match params k !! p with
            | Some a => Ret a k
            | None => Fault WildPointer k
            end.

(** The result slot of the arm a parameter block holds. *)
Definition set_ret (r : Z) (a : kz_syscall_param_t) : kz_syscall_param_t :=
  match a with
  | un_run f n p s c v _ => un_run f n p s c v r
  | un_exit => un_exit
  | un_wait _ => un_wait r
  | un_sleep _ => un_sleep r
  | un_wakeup i _ => un_wakeup i r
  | un_getid _ => un_getid r
  | un_chpri p _ => un_chpri p r
  | un_kmalloc s _ => un_kmalloc s r
  | un_kmfree p _ => un_kmfree p r
  | un_send i s p _ => un_send i s p r
  | un_recv i s p _ => un_recv i s p r
  | un_setintr t h _ => un_setintr t h r
  end.

Definition get_ret (a : kz_syscall_param_t) : option Z :=
  match a with
  | un_run _ _ _ _ _ _ r | un_wait r | un_sleep r | un_wakeup _ r | un_getid r
  | un_chpri _ r | un_kmalloc _ r | un_kmfree _ r | un_send _ _ _ r
  | un_recv _ _ _ r | un_setintr _ _ r => Some r
  | un_exit => None
  end.

(** [p->un.X.ret = r]. *)
Definition store_ret (p : Z) (r : Z) : M unit :=
  do a <- load_param p;
  put (λ k, with_params (<[p := set_ret r a]> (params k)) k).

(** [*a = v] for a caller variable. *)
Definition store_umem (a v : Z) : M unit :=
  λ k, if decide (a = NULL) then Fault NullPointer k
       else Ret tt (with_umem (<[a := v]> (umem k)) k).

(** [*(--sp) = v] on the stack arena; the result is the new [sp]. *)
Definition push (sp v : Z) : M Z :=
  do _ <- put (λ k, with_ustack (<[sp - 4 := v]> (ustack k)) k);
  ret (sp - 4).

(** [memset(a, 0, n)] on the stack arena: every cell that starts in the
    range reads 0 afterwards. *)
Definition memset0 (a n : Z) (m : gmap Z Z) : gmap Z Z :=
  foldr (λ x m, <[x := 0]> m) m (seqZ a n).

(** ** The memory pool *)

Fixpoint find_class (size : Z) (i : nat) (cs : list (Z * list Z))
  : option (nat * Z * list Z) :=
  match cs with
  | [] => None
  | (bs, fl) :: r =>
      if decide (size ≤ bs) then Some (i, bs, fl) else find_class size (S i) r
  end.

(** Modelled from the spec: [kzmem_alloc] of memory.c.  The smallest
    adequate class is searched; its free list is popped, or a block is
    carved from the arena; the result is null on exhaustion. *)
Definition pool_alloc (size : Z) (p : kzmem_pool) : Z * kzmem_pool :=
  match find_class size 0 (pool_classes p) with
  | None => (NULL, p)
  | Some (i, bs, a :: fl) =>
      (a, mk_pool (<[i := (bs, fl)]> (pool_classes p))
                  (<[a := (i, true)]> (pool_hdr p))
                  (pool_brk p) (pool_end p))
  | Some (i, bs, []) =>
      if decide (pool_brk p + bs ≤ pool_end p)
      then (pool_brk p,
            mk_pool (pool_classes p)
                    (<[pool_brk p := (i, true)]> (pool_hdr p))
                    (pool_brk p + bs) (pool_end p))
      else (NULL, p)
  end.

Definition kzmem_alloc (size : Z) : M Z :=
  λ k, let r := pool_alloc size (pool k) in Ret r.1 (with_pool r.2 k).

(** Modelled from the spec: [kzmem_free] of memory.c.  The block goes back
    to the free list of the class its header names; what it held is dead
    from then on. *)
Definition pool_free (a : Z) (p : kzmem_pool) : option kzmem_pool :=
  match pool_hdr p !! a with
  | Some (i, _) =>
      match pool_classes p !! i with
      | Some (bs, fl) =>
          Some (mk_pool (<[i := (bs, a :: fl)]> (pool_classes p))
                        (<[a := (i, false)]> (pool_hdr p))
                        (pool_brk p) (pool_end p))
      | None => None
      end
  | None => None
  end.

Definition kzmem_free (a : Z) : M unit :=
  λ k, match pool_free a (pool k) with
       | Some p' => Ret tt (with_msgbufs (delete a (msgbufs k)) (with_pool p' k))
       | None => Fault WildPointer k
       end.

(** Modelled from the spec: [kzmem_init] of memory.c: nothing is carved
    and every free list is empty. *)
Definition kzmem_init (L : layout) : M unit :=
  put (with_pool (mk_pool (map (λ bs, (bs, [])) (heap_classes L)) ∅
                          (freearea L) (heap_end L))).

(** The kernel image before [kz_start] runs: static data is zero, and
    [thread_stack] holds its initialiser [&userstack]. *)
Definition boot (L : layout) : kernel :=
  mk_kernel [] NULL ∅ [] [] (userstack L) ∅ (mk_pool [] ∅ 0 0) ∅ ∅ ∅ [] [].

(** ** Ready queues *)

(** [getcurrent]: takes the current thread off the head of its ready
    queue. *)
Definition getcurrent : M Z :=
  do cur <- get current;
  if decide (cur = NULL) then ret (-1) else
  do t <- load_thread cur;
  if decide (Z.land (flags t) KZ_THREAD_FLAG_READY = 0) then ret 1 else
  do _ <- update_que (priority t) (λ q, mk_que (next t) (tail q));
  do q <- load_que (priority t);
  do _ <- (if decide (head q = NULL)
           then update_que (priority t) (λ q, mk_que (head q) NULL)
           else ret tt);
  do _ <- update_thread cur
            (λ t, set_flags (Z.land (flags t) (Z.lnot KZ_THREAD_FLAG_READY)) t);
  do _ <- update_thread cur (set_next NULL);
  ret 0.

(** [putcurrent]: links the current thread at the tail of its ready
    queue. *)
Definition putcurrent : M Z :=
  do cur <- get current;
  if decide (cur = NULL) then ret (-1) else
  do t <- load_thread cur;
  if decide (Z.land (flags t) KZ_THREAD_FLAG_READY ≠ 0) then ret 1 else
  do q <- load_que (priority t);
  do _ <- (if decide (tail q ≠ NULL)
           then update_thread (tail q) (set_next cur)
           else update_que (priority t) (λ q, mk_que cur (tail q)));
  do _ <- update_que (priority t) (λ q, mk_que (head q) cur);
  do _ <- update_thread cur
            (λ t, set_flags (Z.lor (flags t) KZ_THREAD_FLAG_READY) t);
  ret 0.

(** ** System calls *)

Section Kernel.
Variable L : layout.

(** [&threads[i]]. *)
Definition tcb_addr (i : nat) : Z :=
  threads_base L + Z.of_nat i * sizeof_kz_thread L.

Definition tcb_slots : list Z := map tcb_addr (seq 0 THREAD_NUM).

(** The search loop of [thread_run] over the slots that are left; [None]
    stands for [i == THREAD_NUM]. *)
Fixpoint find_free (slots : list Z) : M (option Z) :=
  match slots with
  | [] => ret None
  | thp :: rest =>
      do t <- load_thread thp;
      if decide (init_func t = NULL) then ret (Some thp) else find_free rest
  end.

(** [strcpy(thp->name, name)] into [char name[THREAD_NAME_SIZE + 1]]. *)
Definition strcpy_name (thp : Z) (s : string) : M unit :=
  if decide (String.length s ≤ THREAD_NAME_SIZE)%nat
  then update_thread thp (set_name s)
  else fail OutOfBounds.

Definition thread_run (func : Z) (name : string)
    (priority stacksize argc argv : Z) : M Z :=
  do r <- find_free tcb_slots;
  match r with
  | None => ret (-1)
  | Some thp =>
      do _ <- update_thread thp (λ _, zero_thread);
      do _ <- strcpy_name thp name;
      do _ <- update_thread thp (set_next NULL);
      do _ <- update_thread thp (set_priority priority);
      do _ <- update_thread thp (set_flags 0);
      do _ <- update_thread thp (set_init func argc argv);
      do ts <- get thread_stack;
      do _ <- put (λ k, with_ustack (memset0 ts stacksize (ustack k)) k);
      do _ <- put (with_thread_stack (ts + stacksize));
      do ts' <- get thread_stack;
      do _ <- update_thread thp (set_stack ts');
      do t <- load_thread thp;
      do sp <- push (stack t) (thread_end_addr L);
      do sp <- push sp (Z.lor (thread_init_addr L)
                          (Z.shiftl (if decide (priority ≠ 0) then 0 else 0xc0) 24));
      do sp <- push sp 0;
      do sp <- push sp 0;
      do sp <- push sp 0;
      do sp <- push sp 0;
      do sp <- push sp 0;
      do sp <- push sp 0;
      do sp <- push sp thp;
      do _ <- update_thread thp (set_context_sp sp);
      do _ <- putcurrent;
      do _ <- put (with_current thp);
      do _ <- putcurrent;
      get current
  end.

Definition thread_exit : M Z :=
  do cur <- get current;
  do t <- load_thread cur;
  do _ <- puts (name t);
  do _ <- puts (" EXIT." +:+ newline);
  do _ <- update_thread cur (λ _, zero_thread);
  ret 0.

Definition thread_wait : M Z :=
  do _ <- putcurrent;
  ret 0.

Definition thread_sleep : M Z := ret 0.

Definition thread_wakeup (id : Z) : M Z :=
  do _ <- putcurrent;
  do _ <- put (with_current id);
  do _ <- putcurrent;
  ret 0.

Definition thread_getid : M Z :=
  do _ <- putcurrent;
  get current.

Definition thread_chpri (prio : Z) : M Z :=
  do cur <- get current;
  do t <- load_thread cur;
  let old := priority t in
  do _ <- (if decide (prio >= 0)
           then update_thread cur (set_priority prio)
           else ret tt);
  do _ <- putcurrent;
  ret old.

Definition thread_kmalloc (size : Z) : M Z :=
  do _ <- putcurrent;
  kzmem_alloc size.

Definition thread_kmfree (p : Z) : M Z :=
  do _ <- kzmem_free p;
  do _ <- putcurrent;
  ret 0.

(** [sendmsg]; [id] stands for [mboxp = &msgboxes[id]]. *)
Definition sendmsg (id : Z) (thp size p : Z) : M unit :=
  do mp <- kzmem_alloc (sizeof_kz_msgbuf L);
  do _ <- (if decide (mp = NULL) then kz_sysdown else ret tt);
  do _ <- put (λ k, with_msgbufs (<[mp := mk_msgbuf NULL thp size p]> (msgbufs k)) k);
  do b <- load_msgbox id;
  do _ <- (if decide (mtail b ≠ NULL)
           then update_msgbuf (mtail b) (set_mnext mp)
           else update_msgbox id (set_mhead mp));
  update_msgbox id (set_mtail mp).

(** [recvmsg]; [id] stands for [mboxp = &msgboxes[id]]. *)
Definition recvmsg (id : Z) : M unit :=
  do b <- load_msgbox id;
  let mp := mhead b in
  do m <- load_msgbuf mp;
  do _ <- update_msgbox id (set_mhead (mnext m));
  do b <- load_msgbox id;
  do _ <- (if decide (mhead b = NULL)
           then update_msgbox id (set_mtail NULL)
           else ret tt);
  do _ <- update_msgbuf mp (set_mnext NULL);
  do b <- load_msgbox id;
  do rt <- load_thread (receiver b);
  let p := syscall_param rt in
  do a <- load_param p;
  match a with
  | un_recv _ sizep pp _ =>
      do m <- load_msgbuf mp;
      do _ <- store_ret p (sender m);
      do _ <- (if decide (sizep ≠ NULL) then store_umem sizep (param_size m) else ret tt);
      do _ <- (if decide (pp ≠ NULL) then store_umem pp (param_p m) else ret tt);
      do _ <- update_msgbox id (set_receiver NULL);
      kzmem_free mp
  | _ => fail BadUnion
  end.

Definition thread_send (id size p : Z) : M Z :=
  do _ <- putcurrent;
  do cur <- get current;
  do _ <- sendmsg id cur size p;
  do b <- load_msgbox id;
  do _ <- (if decide (receiver b ≠ NULL)
           then do _ <- put (with_current (receiver b));
                do _ <- recvmsg id;
                do _ <- putcurrent;
                ret tt
           else ret tt);
  ret size.

Definition thread_recv (id sizep pp : Z) : M Z :=
  do b <- load_msgbox id;
  do _ <- (if decide (receiver b ≠ NULL) then kz_sysdown else ret tt);
  do cur <- get current;
  do _ <- update_msgbox id (set_receiver cur);
  do b <- load_msgbox id;
  if decide (mhead b = NULL) then ret (-1) else
  do _ <- recvmsg id;
  do _ <- putcurrent;
  do cur <- get current;
  do t <- load_thread cur;
  do a <- load_param (syscall_param t);
  match a with
  | un_recv _ _ _ r => ret r
  | _ => fail BadUnion
  end.

(** [thread_setintr]; [softvec_setintr(type, thread_intr)] is recorded in
    [softvecs]. *)
Definition thread_setintr (type : Z) (handler : kz_handler_t) : M Z :=
  do _ <- put (λ k, with_softvecs (type :: softvecs k) k);
  do _ <- (λ k, if decide (0 ≤ type ∧ (Z.to_nat type < length (handlers k))%nat)
                then Ret tt (with_handlers (<[Z.to_nat type := handler]> (handlers k)) k)
                else Fault OutOfBounds k);
  do _ <- putcurrent;
  ret 0.

Definition call_functions (type : kz_syscall_type_t) (p : Z) : M unit :=
  match type with
  | KZ_SYSCALL_TYPE_RUN =>
      do a <- load_param p;
      match a with
      | un_run func name priority stacksize argc argv _ =>
          do r <- thread_run func name priority stacksize argc argv;
          store_ret p r
      | _ => fail BadUnion
      end
  | KZ_SYSCALL_TYPE_EXIT =>
      do _ <- thread_exit;
      ret tt
  | KZ_SYSCALL_TYPE_WAIT =>
      do a <- load_param p;
      match a with
      | un_wait _ => do r <- thread_wait; store_ret p r
      | _ => fail BadUnion
      end
  | KZ_SYSCALL_TYPE_SLEEP =>
      do a <- load_param p;
      match a with
      | un_sleep _ => do r <- thread_sleep; store_ret p r
      | _ => fail BadUnion
      end
  | KZ_SYSCALL_TYPE_WAKEUP =>
      do a <- load_param p;
      match a with
      | un_wakeup id _ => do r <- thread_wakeup id; store_ret p r
      | _ => fail BadUnion
      end
  | KZ_SYSCALL_TYPE_GETID =>
      do a <- load_param p;
      match a with
      | un_getid _ => do r <- thread_getid; store_ret p r
      | _ => fail BadUnion
      end
  | KZ_SYSCALL_TYPE_CHPRI =>
      do a <- load_param p;
      match a with
      | un_chpri priority _ => do r <- thread_chpri priority; store_ret p r
      | _ => fail BadUnion
      end
  | KZ_SYSCALL_TYPE_KMALLOC =>
      do a <- load_param p;
      match a with
      | un_kmalloc size _ => do r <- thread_kmalloc size; store_ret p r
      | _ => fail BadUnion
      end
  | KZ_SYSCALL_TYPE_KMFREE =>
      do a <- load_param p;
      match a with
      | un_kmfree q _ => do r <- thread_kmfree q; store_ret p r
      | _ => fail BadUnion
      end
  | KZ_SYSCALL_TYPE_SEND =>
      do a <- load_param p;
      match a with
      | un_send id size q _ => do r <- thread_send id size q; store_ret p r
      | _ => fail BadUnion
      end
  | KZ_SYSCALL_TYPE_RECV =>
      do a <- load_param p;
      match a with
      | un_recv id sizep pp _ => do r <- thread_recv id sizep pp; store_ret p r
      | _ => fail BadUnion
      end
  | KZ_SYSCALL_TYPE_SETINTR =>
      do a <- load_param p;
      match a with
      | un_setintr type handler _ => do r <- thread_setintr type handler; store_ret p r
      | _ => fail BadUnion
      end
  end.

Definition syscall_proc (type : kz_syscall_type_t) (p : Z) : M unit :=
  do _ <- getcurrent;
  call_functions type p.

Definition srvcall_proc (type : kz_syscall_type_t) (p : Z) : M unit :=
  do _ <- put (with_current NULL);
  call_functions type p.

(** The loop of [schedule] from [i] with [n] iterations left; the result is
    [i] at the exit of the loop. *)
Fixpoint schedule_scan (n : nat) (i : Z) : M Z :=
  match n with
  | O => ret i
  | S n' =>
      do q <- load_que i;
      if decide (head q ≠ NULL) then ret i else schedule_scan n' (i + 1)
  end.

Definition schedule : M unit :=
  do i <- schedule_scan (Z.to_nat PRIORITY_NUM) 0;
  do _ <- (if decide (i = PRIORITY_NUM) then kz_sysdown else ret tt);
  do q <- load_que i;
  put (with_current (head q)).

Definition syscall_intr : M unit :=
  do cur <- get current;
  do t <- load_thread cur;
  syscall_proc (syscall_type t) (syscall_param t).

Definition softerr_intr : M unit :=
  do cur <- get current;
  do t <- load_thread cur;
  do _ <- puts (name t);
  do _ <- puts (" DOWN." +:+ newline);
  do _ <- getcurrent;
  do _ <- thread_exit;
  ret tt.

Definition kz_srvcall (type : kz_syscall_type_t) (param : Z) : M unit :=
  srvcall_proc type param.

(** The call [handlers[type]()] of [thread_intr]. *)
Definition run_handler (h : kz_handler_t) : M unit :=
  match h with
  | H_NULL => ret tt
  | H_syscall_intr => syscall_intr
  | H_softerr_intr => softerr_intr
  | H_user calls =>
      foldr (λ c m, do _ <- kz_srvcall c.1 c.2; m) (ret tt) calls
  end.

(** [dispatch(&current->context)] resumes the thread whose stack pointer it
    loads; the result is that stack pointer. *)
Definition dispatch : M Z :=
  do cur <- get current;
  do t <- load_thread cur;
  ret (context_sp t).

Definition thread_intr (type : Z) (sp : Z) : M Z :=
  do cur <- get current;
  do _ <- update_thread cur (set_context_sp sp);
  do h <- (λ k, if decide (0 ≤ type)
                then match handlers k !! Z.to_nat type with
                     | Some h => Ret h k
                     | None => Fault OutOfBounds k
                     end
                else Fault OutOfBounds k);
  do _ <- run_handler h;
  do _ <- schedule;
  dispatch.

(** [kz_syscall]: the trap enters [thread_intr] for the system-call vector
    with the stack pointer [sp] the entry code computed. *)
Definition kz_syscall (type : kz_syscall_type_t) (param : Z) (sp : Z) : M Z :=
  do cur <- get current;
  do _ <- update_thread cur (set_syscall type param);
  thread_intr (SOFTVEC_TYPE_SYSCALL L) sp.

Definition kz_start (func : Z) (name : string)
    (priority stacksize argc argv : Z) : M Z :=
  do _ <- kzmem_init L;
  do _ <- put (with_current NULL);
  do _ <- put (with_readyque (replicate (Z.to_nat PRIORITY_NUM) (mk_que NULL NULL)));
  do _ <- put (with_threads (list_to_map (map (λ a, (a, zero_thread)) tcb_slots)));
  do _ <- put (with_handlers (replicate (SOFTVEC_TYPE_NUM L) H_NULL));
  do _ <- put (with_msgboxes (replicate (MSGBOX_ID_NUM L) (mk_msgbox NULL NULL NULL)));
  do _ <- thread_setintr (SOFTVEC_TYPE_SYSCALL L) H_syscall_intr;
  do _ <- thread_setintr (SOFTVEC_TYPE_SOFTERR L) H_softerr_intr;
  do r <- thread_run func name priority stacksize argc argv;
  do _ <- put (with_current r);
  dispatch.

End Kernel.

(** ** Abstraction of the intrusive lists *)

(** A chain of objects linked through their [next] field: [lseg nx m l e]
    says that the addresses [l] are linked in this order in the heap [m]
    and that the last one points to [e]. *)
Section Linked.
Context {A : Type} (nx : A → Z).

Fixpoint lseg (m : gmap Z A) (l : list Z) (e : Z) : Prop :=
  match l with
  | [] => True
  | x :: r => x ≠ NULL ∧ nx <$> m !! x = Some (hd e r) ∧ lseg m r e
  end.

Global Instance lseg_dec m l e : Decision (lseg m l e).
Proof. induction l; simpl; apply _. Defined.

(** A queue with [head] and [tail] pointers holds exactly [l]. *)
Definition chain (m : gmap Z A) (h t : Z) (l : list Z) : Prop :=
  h = hd NULL l ∧ t = default NULL (last l) ∧ lseg m l NULL ∧ NoDup l.

Global Instance chain_dec m h t l : Decision (chain m h t l).
Proof. unfold chain; apply _. Defined.

End Linked.

Definition is_ready (t : kz_thread) : Prop :=
  Z.land (flags t) KZ_THREAD_FLAG_READY ≠ 0.

Global Instance is_ready_dec t : Decision (is_ready t).
Proof. unfold is_ready; apply _. Defined.

(** [qs] lists, per priority, the threads linked in the ready queue of
    that priority, in queue order. *)
Definition queue_rep (ths : gmap Z kz_thread) (q : que) (l : list Z) : Prop :=
  chain next ths (head q) (tail q) l.

Global Instance queue_rep_dec ths q l : Decision (queue_rep ths q l).
Proof. unfold queue_rep; apply _. Defined.

(** The ready-queue invariant: every queue is a well-formed chain, no
    thread is linked twice, a thread is linked iff its READY flag is set,
    a thread that is not linked has a null [next], and a thread is linked
    in the queue of its own priority. *)
Definition ready_inv (rq : list que) (ths : gmap Z kz_thread)
    (qs : list (list Z)) : Prop :=
  length qs = Z.to_nat PRIORITY_NUM ∧
  Forall2 (queue_rep ths) rq qs ∧
  NoDup (concat qs) ∧
  map_Forall (λ a t, (is_ready t ↔ a ∈ concat qs) ∧
                     (¬ is_ready t → next t = NULL)) ths ∧
  Forall (λ il, Forall (λ a, priority <$> ths !! a = Some (Z.of_nat il.1)) il.2)
         (imap (λ i l, (i, l)) qs).

Global Instance ready_inv_dec rq ths qs : Decision (ready_inv rq ths qs).
Proof. unfold ready_inv; apply _. Defined.

(** The messages buffered in a mailbox, oldest first. *)
Definition msgbox_rep (bufs : gmap Z kz_msgbuf) (b : kz_msgbox) (l : list Z) : Prop :=
  chain mnext bufs (mhead b) (mtail b) l.

Global Instance msgbox_rep_dec bufs b l : Decision (msgbox_rep bufs b l).
Proof. unfold msgbox_rep; apply _. Defined.

(** The pool and the message buffers agree: a live buffer is a block in
    use, a block on a free list is not in use and not at address 0, every
    header names a class of the pool, and no block starts at the break. *)
Definition pool_inv (p : kzmem_pool) (bufs : gmap Z kz_msgbuf) : Prop :=
  map_Forall (λ a _, snd <$> pool_hdr p !! a = Some true) bufs ∧
  Forall (λ c, Forall (λ a, a ≠ NULL ∧ snd <$> pool_hdr p !! a = Some false) c.2)
         (pool_classes p) ∧
  map_Forall (λ _ h, is_Some (pool_classes p !! h.1)) (pool_hdr p) ∧
  pool_hdr p !! pool_brk p = None ∧
  pool_brk p ≠ NULL.

Global Instance pool_inv_dec p bufs : Decision (pool_inv p bufs).
Proof. unfold pool_inv; apply _. Defined.

(** ** Vocabulary of the specifications *)

(** Every live message buffer has a header that names a class. *)
Definition bufs_hdr_ok (p : kzmem_pool) (bufs : gmap Z kz_msgbuf) : Prop :=
  ∀ a m, bufs !! a = Some m →
    ∃ h, pool_hdr p !! a = Some h ∧ is_Some (pool_classes p !! h.1).

(** What [recvmsg] stores through the out-pointers of the receiver. *)
Definition deliver_umem (sizep pp : Z) (m : kz_msgbuf) (um : gmap Z Z) : gmap Z Z :=
  let um1 := if decide (sizep ≠ NULL) then <[sizep := param_size m]> um else um in
  if decide (pp ≠ NULL) then <[pp := param_p m]> um1 else um1.

(** A slot of the TCB table that is in use: its entry function is not
    null. *)
Definition occupied (k : kernel) (a : Z) : Prop :=
  a ≠ NULL ∧ is_Some (threads k !! a) ∧ init_func <$> threads k !! a ≠ Some NULL.

Global Instance occupied_dec k a : Decision (occupied k a).
Proof. unfold occupied; apply _. Defined.

(** The initial frame [thread_run] lays out below the top of the new
    stack, from the saved ER0 upwards. *)
Definition initial_frame (L : layout) (thp prio : Z) : list Z :=
  [thp; 0; 0; 0; 0; 0; 0;
   Z.lor (thread_init_addr L) (Z.shiftl (if decide (prio ≠ 0) then 0 else 0xc0) 24);
   thread_end_addr L].

(** The cells of the stack arena from [sp] upwards. *)
Definition frame_at (us : gmap Z Z) (sp : Z) (n : nat) : list (option Z) :=
  map (λ i, us !! (sp + 4 * Z.of_nat i)) (seq 0 n).

(** No mailbox has both a pending receiver and a non-empty FIFO. *)
Definition mailbox_inv (k : kernel) : Prop :=
  Forall (λ b, ¬ (receiver b ≠ NULL ∧ mhead b ≠ NULL)) (msgboxes k).

Global Instance mailbox_inv_dec k : Decision (mailbox_inv k).
Proof. unfold mailbox_inv; apply _. Defined.

(** A computation that leaves [msgboxes] alone. *)
Definition keeps_boxes {A} (m : M A) : Prop :=
  ∀ k a k', m k = Ret a k' → msgboxes k' = msgboxes k.

(** A computation that, when it returns, has rewritten only mailbox [id],
    from [b] to some [b'] with [Q b b']. *)
Definition box_update {A} (id : Z) (Q : kz_msgbox → kz_msgbox → Prop) (m : M A) : Prop :=
  ∀ k a k', m k = Ret a k' →
    ∃ b b', 0 ≤ id ∧ msgboxes k !! Z.to_nat id = Some b ∧
            msgboxes k' = <[Z.to_nat id := b']> (msgboxes k) ∧ Q b b'.

(** A computation that rewrites at most mailbox [id]. *)
Definition only_box {A} (id : Z) (m : M A) : Prop :=
  ∀ k a k', m k = Ret a k' →
    length (msgboxes k') = length (msgboxes k) ∧
    ∀ j, j ≠ Z.to_nat id → msgboxes k' !! j = msgboxes k !! j.

(** A computation after which mailbox [id] satisfies [P] and the others
    are as before. *)
Definition post_box {A} (id : Z) (P : kz_msgbox → Prop) (m : M A) : Prop :=
  ∀ k a k', m k = Ret a k' →
    ∃ b', (Z.to_nat id < length (msgboxes k))%nat ∧
          msgboxes k' = <[Z.to_nat id := b']> (msgboxes k) ∧ P b'.

(** A request to the kernel: a system call of the running thread, or a
    software interrupt, whose handler may issue service calls. *)
Inductive request :=
| Syscall (type : kz_syscall_type_t) (param : Z) (sp : Z)
| Interrupt (type : Z) (sp : Z).

Definition serve (L : layout) (r : request) : M Z :=
  match r with
  | Syscall type param sp => kz_syscall L type param sp
  | Interrupt type sp => thread_intr L type sp
  end.

Fixpoint serve_all (L : layout) (rs : list request) : M unit :=
  match rs with
  | [] => ret tt
  | r :: rs => do _ <- serve L r; serve_all L rs
  end.

(** A computation that maintains the mailbox invariant. *)
Definition preserves {A} (m : M A) : Prop :=
  ∀ k a k', mailbox_inv k → m k = Ret a k' → mailbox_inv k'.

(** ** A worked scenario

    A small machine (six TCB slots of 64 bytes at 0x1000, stacks growing
    from 0x8000, a pool of four 16-byte blocks, two mailboxes) on which the
    kernel is started with an idle thread; the idle thread then creates two
    threads at priority 1 and lowers itself to priority 15. *)

(** The kernel state an outcome carries. *)
Definition state_of {A} (o : outcome A) : kernel :=
  match o with Ret _ k | Down k | Fault _ k => k end.

(** The layout of the scenario. *)
Definition L0 : layout :=
  mk_layout 0x1000 64 0x200 0x300 0x8000 16 0x4000 0x4040 [16; 32] 2 3 0 1.

(** The parameter blocks the threads of the scenario pass to [kz_syscall]. *)
Definition ex_params : gmap Z kz_syscall_param_t :=
  list_to_map
    [(0x9000, un_run 0x600 "recv" 1 0x100 0 0 0);
     (0x9010, un_run 0x700 "send" 1 0x100 0 0 0);
     (0x9020, un_chpri 15 0);
     (0x9030, un_wait 0);
     (0x9040, un_recv 0 0x9100 0x9104 0);
     (0x9050, un_send 0 15 0x9200 0);
     (0x9060, un_sleep 0)].

(** The machine before and after [kz_start] created the idle thread. *)
Definition ex_boot : kernel := with_params ex_params (boot L0).
Definition ex_started : kernel :=
  Eval vm_compute in
  state_of (kz_start L0 0x500 "idle" 0 0x100 0 0 ex_boot).

(** The requests of the scenario: two RUN and a CHPRI of the idle thread, a
    WAIT of the first thread, a RECV of the second one and a SEND of the
    first one. *)
Definition ex_requests : list request :=
  [Syscall KZ_SYSCALL_TYPE_RUN 0x9000 0x80e0;
   Syscall KZ_SYSCALL_TYPE_RUN 0x9010 0x80e0;
   Syscall KZ_SYSCALL_TYPE_CHPRI 0x9020 0x80e0;
   Syscall KZ_SYSCALL_TYPE_WAIT 0x9030 0x81e0;
   Syscall KZ_SYSCALL_TYPE_RECV 0x9040 0x82e0;
   Syscall KZ_SYSCALL_TYPE_SEND 0x9050 0x81e0].

(** The TCB at an address and the mailbox of an id, for reading states. *)
Definition tcb (k : kernel) (a : Z) : kz_thread :=
  default zero_thread (threads k !! a).
Definition mbox (k : kernel) (id : nat) : kz_msgbox :=
  default (mk_msgbox NULL NULL NULL) (msgboxes k !! id).

(** The idle thread, taken off its queue as on entry to a handler. *)
Definition ex_idle : kernel := Eval vm_compute in
  state_of (getcurrent ex_started).

(** After the idle thread created "recv" and "send" at priority 1 and
    lowered itself to priority 15: "recv" runs, "send" is behind it. *)
Definition ex_two : kernel := Eval vm_compute in
  state_of (serve_all L0 (take 3 ex_requests) ex_started).


(** The receiver is parked on mailbox 0; the other thread enters SEND. *)
Definition ex_send : kernel :=
  Eval vm_compute in
  state_of (getcurrent (state_of (serve_all L0 (take 5 ex_requests) ex_started))).

(** The first thread sleeps; the second one enters WAKEUP. *)
Definition ex_wakeup : kernel :=
  Eval vm_compute in
  state_of (getcurrent
    (state_of (serve_all L0 (take 3 ex_requests ++ [Syscall KZ_SYSCALL_TYPE_SLEEP 0x9060 0x81e0])
                 ex_started))).

(** The running thread enters WAKEUP of the thread queued behind it. *)
Definition ex_wakeup_ready : kernel := Eval vm_compute in
  state_of (getcurrent ex_two).

(** Four messages nobody received fill the pool; the idle thread enters a
    fifth SEND. *)
Definition ex_full : kernel :=
  Eval vm_compute in
  state_of (getcurrent
    (state_of (serve_all L0 (replicate 4 (Syscall KZ_SYSCALL_TYPE_SEND 0x9050 0x80e0))
                 ex_started))).

(** Contents of the ready queues: all empty, and the idle thread alone at
    priority 15. *)
Definition no_queues : list (list Z) := replicate 16 [].
Definition idle_queue : list (list Z) := replicate 15 [] ++ [[0x1000]].

(** The ready queues while "recv" runs with "send" behind it. *)
Definition two_queues : list (list Z) :=
  [[]; [0x1040; 0x1080]] ++ replicate 13 [] ++ [[0x1000]].

(** More parameter blocks: a GETID, a SETINTR that registers for vector 2
    a handler waking the first thread up, the WAKEUP of that handler, and
    the RUN of a thread of priority 0. *)
Definition ex_more_params : gmap Z kz_syscall_param_t :=
  list_to_map
    [(0x9070, un_getid 0);
     (0x9080, un_setintr 2 (H_user [(KZ_SYSCALL_TYPE_WAKEUP, 0x9090)]) 0);
     (0x9090, un_wakeup 0x1040 0);
     (0x90a0, un_run 0x800 "high" 0 0x100 0 0 0)].

(** The state [ex_two] with these blocks in memory. *)
Definition ex_calls : kernel := Eval vm_compute in
  with_params (ex_more_params ∪ params ex_two) ex_two.

(** Both threads of priority 1 sleep and the idle thread has registered the
    handler of vector 2. *)
Definition ex_handler : kernel := Eval vm_compute in
  state_of (serve_all L0
              [Syscall KZ_SYSCALL_TYPE_SLEEP 0x9060 0x81e0;
               Syscall KZ_SYSCALL_TYPE_SLEEP 0x9060 0x82e0;
               Syscall KZ_SYSCALL_TYPE_SETINTR 0x9080 0x80e0] ex_calls).

(** The idle thread, still at priority 0, has created five threads: all
    six slots of the TCB table are in use. *)
Definition ex_six : kernel := Eval vm_compute in
  state_of (serve_all L0 (replicate 5 (Syscall KZ_SYSCALL_TYPE_RUN 0x9000 0x80e0))
              ex_started).




(** The RUN request made with a full table, then the EXIT of each of the
    five threads the idle thread created. *)
Definition ex_run_full : list request :=
  Syscall KZ_SYSCALL_TYPE_RUN 0x9000 0x80e0 ::
  replicate 5 (Syscall KZ_SYSCALL_TYPE_EXIT 0 0x81e0).

(** ** Basic facts *)

Section LinkedFacts.
Context {A : Type} (nx : A → Z).
Implicit Types (m : gmap Z A) (l : list Z).

Lemma lseg_app m l1 l2 e :
  lseg nx m (l1 ++ l2) e ↔ lseg nx m l1 (hd e l2) ∧ lseg nx m l2 e.
Proof.
  induction l1 as [|x l1 IH]; simpl.
  - tauto.
  - rewrite IH. destruct l1; simpl; tauto.
Qed.

Lemma lseg_ext m m' l e :
  (∀ x, x ∈ l → nx <$> m !! x = nx <$> m' !! x) →
  lseg nx m l e → lseg nx m' l e.
Proof.
  induction l as [|x l IH]; simpl; [done|].
  intros Hagree (Hx & Hn & Hl). split; [done|]. split.
  - rewrite <- Hagree; [done | set_solver].
  - apply IH; [|done]. intros y Hy. apply Hagree. set_solver.
Qed.

Lemma lseg_not_null m l e x : lseg nx m l e → x ∈ l → x ≠ NULL.
Proof.
  induction l as [|y l IH]; simpl; [set_solver|].
  intros (Hy & _ & Hl) [->|Hin]%elem_of_cons; auto.
Qed.

Lemma lseg_is_Some m l e x : lseg nx m l e → x ∈ l → is_Some (m !! x).
Proof.
  induction l as [|y l IH]; simpl; [set_solver|].
  intros (_ & Hn & Hl) [->|Hin]%elem_of_cons; auto.
  destruct (m !! y); [eauto | discriminate].
Qed.

Lemma lseg_last_next m l x e :
  lseg nx m (l ++ [x]) e → nx <$> m !! x = Some e.
Proof. rewrite lseg_app. simpl. tauto. Qed.

Lemma lseg_head_next m x l e :
  lseg nx m (x :: l) e → nx <$> m !! x = Some (hd e l).
Proof. simpl. tauto. Qed.

End LinkedFacts.

(** ** Ready-queue lemmas *)

Lemma land_ready_set f : Z.land (Z.lor f KZ_THREAD_FLAG_READY) KZ_THREAD_FLAG_READY ≠ 0.
Proof.
  unfold KZ_THREAD_FLAG_READY. simpl.
  intros H. apply (f_equal (λ z, Z.testbit z 0)) in H.
  rewrite Z.land_spec, Z.lor_spec in H. simpl in H.
  rewrite orb_true_r in H. discriminate.
Qed.

Lemma land_ready_clear f : Z.land (Z.land f (Z.lnot KZ_THREAD_FLAG_READY)) KZ_THREAD_FLAG_READY = 0.
Proof.
  unfold KZ_THREAD_FLAG_READY. simpl.
  rewrite <- Z.land_assoc. change (Z.land (Z.lnot (1 ≪ 0)) (1 ≪ 0)) with 0. apply Z.land_0_r.
Qed.

Lemma concat_alter_snoc (qs : list (list Z)) i c :
  (i < length qs)%nat →
  concat (alter (λ l, l ++ [c]) i qs) ≡ₚ c :: concat qs.
Proof.
  revert i. induction qs as [|l qs IH]; intros i Hi; simpl in *; [lia|].
  destruct i as [|i]; simpl.
  - rewrite <- app_assoc. simpl. rewrite <- Permutation_middle. done.
  - change (list_alter ?f i qs) with (alter f i qs).
    rewrite IH by lia. rewrite Permutation_middle. done. 
Qed.

Lemma elem_of_concat (qs : list (list Z)) a :
  a ∈ concat qs ↔ ∃ i l, qs !! i = Some l ∧ a ∈ l.
Proof.
  induction qs as [|l0 qs IH]; simpl.
  - split; [set_solver|]. intros (i & l & H & _). by destruct i.
  - rewrite elem_of_app, IH. split.
    + intros [H | (i & l & H1 & H2)]; [by exists 0%nat, l0 | by exists (S i), l].
    + intros (i & l & H1 & H2). destruct i as [|i]; simpl in H1.
      * left. congruence.
      * right. eauto.
Qed.

Lemma insert_alter_snoc (qs : list (list Z)) i l c :
  (i < length qs)%nat →
  alter (λ l, l ++ [c]) i (<[i := l]> qs) = <[i := l ++ [c]]> qs.
Proof.
  intros Hi. apply list_eq. intros j.
  destruct (decide (i = j)) as [->|Hne].
  - rewrite list_lookup_alter_eq, !list_lookup_insert_eq by done. done.
  - rewrite list_lookup_alter_ne, !list_lookup_insert_ne by done. done.
Qed.

Lemma concat_disjoint (qs : list (list Z)) i j li lj a :
  NoDup (concat qs) → qs !! i = Some li → qs !! j = Some lj → i ≠ j →
  a ∈ li → a ∉ lj.
Proof.
  revert i j. induction qs as [|l0 qs IH]; intros i j Hnd Hi Hj Hne Hai Haj; [by destruct i|].
  simpl in Hnd. apply NoDup_app in Hnd as (_ & Hdis & Hnd).
  destruct i as [|i], j as [|j]; simpl in *; try done.
  - injection Hi as ->. apply (Hdis a Hai). apply elem_of_concat; eauto.
  - injection Hj as ->. apply (Hdis a Haj). apply elem_of_concat; eauto.
  - eapply (IH i j); eauto.
Qed.

Lemma concat_lookup_NoDup (qs : list (list Z)) i l :
  NoDup (concat qs) → qs !! i = Some l → NoDup l.
Proof.
  revert i. induction qs as [|l0 qs IH]; intros i Hnd Hi; [by destruct i|].
  simpl in Hnd. apply NoDup_app in Hnd as (H0 & _ & Hnd).
  destruct i; simpl in Hi; [congruence | eauto].
Qed.

(** The invariant in terms of lookups. *)
Lemma ready_inv_lookup rq ths qs :
  ready_inv rq ths qs ↔
  length qs = Z.to_nat PRIORITY_NUM ∧
  length rq = Z.to_nat PRIORITY_NUM ∧
  (∀ i q l, rq !! i = Some q → qs !! i = Some l → queue_rep ths q l) ∧
  NoDup (concat qs) ∧
  (∀ a t, ths !! a = Some t →
     (is_ready t ↔ a ∈ concat qs) ∧ (¬ is_ready t → next t = NULL)) ∧
  (∀ i l a, qs !! i = Some l → a ∈ l →
     priority <$> ths !! a = Some (Z.of_nat i)).
Proof.
  unfold ready_inv. rewrite Forall2_same_length_lookup, Forall_lookup.
  unfold map_Forall. split.
  - intros (Hl & (Hl' & Hq) & Hnd & Hfl & Hp). split_and!; try done; try lia.
    intros i l a Hi Ha.
      specialize (Hp i (i, l)). rewrite list_lookup_imap, Hi in Hp.
      specialize (Hp eq_refl). simpl in Hp. rewrite Forall_forall in Hp. by apply Hp.
  - intros (Hl & Hl' & Hq & Hnd & Hfl & Hp). split_and!; try done; try lia.
    intros i [j l]. rewrite list_lookup_imap.
      destruct (qs !! i) as [l'|] eqn:Hi; [|done]. simpl. intros [= <- <-].
      apply Forall_forall. intros a Ha. eauto.
Qed.

Lemma bind_Ret {A B} (m : M A) (f : A → M B) k a k' :
  m k = Ret a k' → bind m f k = f a k'.
Proof. unfold bind. by intros ->. Qed.

Lemma bind_Down {A B} (m : M A) (f : A → M B) k k' :
  m k = Down k' → bind m f k = Down k'.
Proof. unfold bind. by intros ->. Qed.

Lemma bind_Fault {A B} (m : M A) (f : A → M B) k e k' :
  m k = Fault e k' → bind m f k = Fault e k'.
Proof. unfold bind. by intros ->. Qed.

Lemma get_ok {A} (f : kernel → A) k : get f k = Ret (f k) k.
Proof. done. Qed.

Lemma put_ok f k : put f k = Ret tt (f k).
Proof. done. Qed.

Lemma ret_ok {A} (a : A) k : ret a k = Ret a k.
Proof. done. Qed.

Lemma load_thread_ok p t k :
  p ≠ NULL → threads k !! p = Some t → load_thread p k = Ret t k.
Proof. intros Hp Ht. unfold load_thread. by rewrite decide_False, Ht. Qed.

Lemma update_thread_ok p f t k :
  p ≠ NULL → threads k !! p = Some t →
  update_thread p f k = Ret tt (with_threads (<[p := f t]> (threads k)) k).
Proof.
  intros Hp Ht. unfold update_thread.
  by rewrite (bind_Ret _ _ _ _ _ (load_thread_ok _ _ _ Hp Ht)).
Qed.

Lemma load_que_ok i q k :
  0 ≤ i < PRIORITY_NUM → readyque k !! Z.to_nat i = Some q →
  load_que i k = Ret q k.
Proof. intros Hi Hq. unfold load_que. by rewrite decide_True, Hq. Qed.

Lemma update_que_ok i f q k :
  0 ≤ i < PRIORITY_NUM → readyque k !! Z.to_nat i = Some q →
  update_que i f k = Ret tt (with_readyque (<[Z.to_nat i := f q]> (readyque k)) k).
Proof.
  intros Hi Hq. unfold update_que.
  by rewrite (bind_Ret _ _ _ _ _ (load_que_ok _ _ _ Hi Hq)).
Qed.

Ltac ksimpl :=
  cbn [readyque current threads handlers msgboxes thread_stack msgbufs pool
       params umem ustack softvecs console
       with_readyque with_current with_threads with_handlers with_msgboxes
       with_thread_stack with_msgbufs with_pool with_params with_umem
       with_ustack with_softvecs with_console
       head tail receiver mhead mtail set_receiver set_mhead set_mtail
       next name priority stack flags init_func init_argc init_argv
       syscall_type syscall_param context_sp
       set_next set_name set_priority set_stack set_flags set_init
       set_syscall set_context_sp
       mnext sender param_size param_p set_mnext] in *.

Ltac step_with lem :=
  erewrite bind_Ret;
    [| solve [ eapply lem; try (ksimpl; first [ done | lia | eauto ]) ] ];
  ksimpl.

(** The TCB [getcurrent] leaves for a thread it unlinks. *)
Lemma detached_not_ready t :
  ¬ is_ready (set_next NULL
                (set_flags (Z.land (flags t) (Z.lnot KZ_THREAD_FLAG_READY)) t)).
Proof. unfold is_ready. ksimpl. rewrite land_ready_clear. tauto. Qed.

Lemma ready_inv_not_linked rq ths qs a t :
  ready_inv rq ths qs → ths !! a = Some t → ¬ is_ready t → a ∉ concat qs.
Proof.
  intros (_ & _ & _ & _ & Hfl & _)%ready_inv_lookup Ha Hr Hin.
  apply Hr, (Hfl _ _ Ha), Hin.
Qed.

Lemma putcurrent_attach k qs c t :
  ready_inv (readyque k) (threads k) qs →
  current k = c → threads k !! c = Some t → c ≠ NULL →
  ¬ is_ready t → 0 ≤ priority t < PRIORITY_NUM →
  ∃ rq' ths',
    putcurrent k = Ret 0 (with_threads ths' (with_readyque rq' k)) ∧
    ready_inv rq' ths' (alter (λ l, l ++ [c]) (Z.to_nat (priority t)) qs) ∧
    ths' !! c = Some (set_flags (Z.lor (flags t) KZ_THREAD_FLAG_READY) t) ∧
    (∀ a, a ≠ c → a ∉ concat qs → ths' !! a = threads k !! a) ∧
    (∀ a ta, a ≠ c → threads k !! a = Some ta →
       ∃ n, ths' !! a = Some (set_next n ta)).
Proof.
  intros Hinv Hcur Hc Hnn Hnr Hp.
  pose proof Hinv as (Hlen & Hlen' & Hq & Hnd & Hfl & Hpri)%ready_inv_lookup.
  set (p := Z.to_nat (priority t)).
  assert (Hplt : (p < Z.to_nat PRIORITY_NUM)%nat) by (unfold p, PRIORITY_NUM in *; lia).
  destruct (lookup_lt_is_Some_2 (readyque k) p) as [q Hrq]; [lia|].
  destruct (lookup_lt_is_Some_2 qs p) as [l Hl]; [lia|].
  pose proof (Hq _ _ _ Hrq Hl) as (Hhd & Htl & Hseg & Hndl).
  destruct (Hfl _ _ Hc) as [Hrdy Hnx]. specialize (Hnx Hnr).
  assert (Hcq : c ∉ concat qs) by tauto.
  unfold putcurrent.
  step_with @get_ok. rewrite Hcur. rewrite decide_False by done.
  step_with load_thread_ok. rewrite decide_False by tauto.
  step_with load_que_ok.
  assert (Hready' : is_ready (set_flags (Z.lor (flags t) KZ_THREAD_FLAG_READY) t))
    by apply land_ready_set.
  assert (Hperm := concat_alter_snoc qs p c ltac:(lia)).
  destruct (decide (tail q ≠ NULL)) as [Htn|Htn].
  - (* the queue is not empty: the old tail is linked to c *)
    destruct (last l) as [x|] eqn:Hlast; simpl in Htl; [|done].
    apply last_Some in Hlast as [l' ->].
    assert (Hxl : x ∈ l' ++ [x]) by set_solver.
    assert (Hxq : x ∈ concat qs) by (apply elem_of_concat; eauto).
    assert (Hxc : x ≠ c) by (intros ->; done).
    destruct (lseg_is_Some _ _ _ _ _ Hseg Hxl) as [tx Hx].
    assert (Hxn : x ≠ NULL) by (eapply lseg_not_null; eauto).
    rewrite Htl.
    step_with update_thread_ok.
    step_with update_que_ok.
    erewrite bind_Ret;
      [| eapply update_thread_ok; [done | ksimpl; rewrite lookup_insert_ne by done; exact Hc]].
    ksimpl.
    exists (<[p := mk_que (head q) c]> (readyque k)),
      (<[c := set_flags (Z.lor (flags t) KZ_THREAD_FLAG_READY) t]>
         (<[x := set_next c tx]> (threads k))).
    split; [reflexivity|].
    split_and!.
    + apply ready_inv_lookup. split_and!.
      * by rewrite length_alter.
      * by rewrite length_insert.
      * intros i qi li Hqi Hli.
        destruct (decide (i = p)) as [->|Hne].
        -- rewrite list_lookup_insert_eq in Hqi by lia.
           rewrite list_lookup_alter_eq, Hl in Hli. simpl in *.
           injection Hqi as <-. injection Hli as <-.
           unfold queue_rep, chain. simpl. split_and!.
           ++ rewrite Hhd. by destruct l'.
           ++ by rewrite last_snoc.
           ++ apply lseg_app in Hseg as [Hseg1 Hseg2]. simpl in *.
              apply NoDup_app in Hndl as (Hnd1 & Hdis & _).
              apply lseg_app. split; [apply lseg_app; split|]; simpl.
              ** eapply lseg_ext; [|exact Hseg1]. intros y Hy.
                 rewrite !lookup_insert_ne; [done| |].
                 --- intros ->. apply (Hdis _ Hy). set_solver.
                 --- intros ->. apply Hcq. apply elem_of_concat.
                     exists p, (l' ++ [x]). split; [done|set_solver].
              ** split_and!; try tauto.
                 rewrite lookup_insert_ne, lookup_insert_eq by done. done.
              ** split_and!; try done. rewrite lookup_insert_eq. simpl. by rewrite Hnx.
           ++ apply NoDup_app. split_and!; [done| |apply NoDup_singleton].
              intros y Hy ->%list_elem_of_singleton. apply Hcq.
              apply elem_of_concat; eauto.
        -- rewrite list_lookup_insert_ne in Hqi by done.
           rewrite list_lookup_alter_ne in Hli by done.
           destruct (Hq _ _ _ Hqi Hli) as (H1 & H2 & H3 & H4).
           split_and!; try done.
           eapply lseg_ext; [|exact H3]. intros y Hy.
           rewrite !lookup_insert_ne; [done| |].
           ++ intros ->. eapply (concat_disjoint qs i p); eauto.
           ++ intros ->. apply Hcq. apply elem_of_concat; eauto.
      * rewrite Hperm. apply NoDup_cons. done.
      * intros a ta Ha. rewrite Hperm.
        destruct (decide (a = c)) as [->|Hac].
        { rewrite lookup_insert_eq in Ha. injection Ha as <-.
          split; [split; [set_solver|done]|done]. }
        rewrite lookup_insert_ne in Ha by done.
        destruct (decide (a = x)) as [->|Hax].
        { rewrite lookup_insert_eq in Ha. injection Ha as <-.
          destruct (Hfl _ _ Hx) as [E1 E2].
          split; [|intros []; apply E1, Hxq].
          unfold is_ready in *. simpl. rewrite E1. set_solver. }
        rewrite lookup_insert_ne in Ha by done.
        destruct (Hfl _ _ Ha) as [E1 E2]. split; [|done].
        rewrite E1. set_solver.
      * intros i li a Hli Ha.
        destruct (decide (i = p)) as [->|Hne].
        -- rewrite list_lookup_alter_eq, Hl in Hli. injection Hli as <-.
           apply elem_of_app in Ha as [Ha| ->%list_elem_of_singleton].
           ++ specialize (Hpri _ _ _ Hl Ha).
              destruct (decide (a = c)) as [->|Hac];
                [exfalso; apply Hcq, elem_of_concat; eauto|].
              rewrite lookup_insert_ne by done.
              destruct (decide (a = x)) as [->|Hax].
              ** rewrite lookup_insert_eq. rewrite Hx in Hpri. done.
              ** by rewrite lookup_insert_ne.
           ++ rewrite lookup_insert_eq. simpl. f_equal. unfold p. lia.
        -- rewrite list_lookup_alter_ne in Hli by done.
           specialize (Hpri _ _ _ Hli Ha).
           destruct (decide (a = c)) as [->|Hac];
             [exfalso; apply Hcq, elem_of_concat; eauto|].
           rewrite lookup_insert_ne by done.
           destruct (decide (a = x)) as [->|Hax].
           ** rewrite lookup_insert_eq. rewrite Hx in Hpri. done.
           ** by rewrite lookup_insert_ne.
    + by rewrite lookup_insert_eq.
    + intros a Hac Haq. rewrite !lookup_insert_ne; [done| |done].
      intros ->. done.
    + intros a ta Hac Ha. rewrite lookup_insert_ne by done.
      destruct (decide (a = x)) as [->|Hax].
      * rewrite lookup_insert_eq. rewrite Hx in Ha. injection Ha as <-. eauto.
      * rewrite lookup_insert_ne by done. exists (next ta). rewrite Ha. by destruct ta.
  - (* the queue is empty: c becomes its head *)
    assert (l = []) as ->.
    { destruct (last l) as [x|] eqn:Hlast; [|by apply last_None].
      exfalso. apply Htn. rewrite Htl. simpl.
      eapply lseg_not_null; [exact Hseg|]. by apply last_Some_elem_of. }
    step_with update_que_ok.
    erewrite bind_Ret;
      [| eapply update_que_ok; [done | ksimpl; apply list_lookup_insert_eq; lia]].
    ksimpl. rewrite list_insert_insert_eq.
    step_with update_thread_ok.
    exists (<[p := mk_que c c]> (readyque k)),
      (<[c := set_flags (Z.lor (flags t) KZ_THREAD_FLAG_READY) t]> (threads k)).
    split; [reflexivity|].
    split_and!.
    + apply ready_inv_lookup. split_and!.
      * by rewrite length_alter.
      * by rewrite length_insert.
      * intros i qi li Hqi Hli.
        destruct (decide (i = p)) as [->|Hne].
        -- rewrite list_lookup_insert_eq in Hqi by lia.
           rewrite list_lookup_alter_eq, Hl in Hli. simpl in *.
           injection Hqi as <-. injection Hli as <-.
           unfold queue_rep, chain. simpl. split_and!; try done.
           ++ rewrite lookup_insert_eq. simpl. by rewrite Hnx.
           ++ apply NoDup_singleton.
        -- rewrite list_lookup_insert_ne in Hqi by done.
           rewrite list_lookup_alter_ne in Hli by done.
           destruct (Hq _ _ _ Hqi Hli) as (H1 & H2 & H3 & H4).
           split_and!; try done.
           eapply lseg_ext; [|exact H3]. intros y Hy.
           rewrite !lookup_insert_ne; [done|].
           intros ->. apply Hcq. apply elem_of_concat; eauto.
      * rewrite Hperm. apply NoDup_cons. done.
      * intros a ta Ha. rewrite Hperm.
        destruct (decide (a = c)) as [->|Hac].
        { rewrite lookup_insert_eq in Ha. injection Ha as <-.
          split; [split; [set_solver|done]|done]. }
        rewrite lookup_insert_ne in Ha by done.
        destruct (Hfl _ _ Ha) as [E1 E2]. split; [|done].
        rewrite E1. set_solver.
      * intros i li a Hli Ha.
        destruct (decide (i = p)) as [->|Hne].
        -- rewrite list_lookup_alter_eq, Hl in Hli. injection Hli as <-.
           apply list_elem_of_singleton in Ha as ->.
           rewrite lookup_insert_eq. simpl. f_equal. unfold p. lia.
        -- rewrite list_lookup_alter_ne in Hli by done.
           specialize (Hpri _ _ _ Hli Ha).
           destruct (decide (a = c)) as [->|Hac];
             [exfalso; apply Hcq, elem_of_concat; eauto|].
           by rewrite lookup_insert_ne.
    + by rewrite lookup_insert_eq.
    + intros a Hac Haq. by rewrite lookup_insert_ne.
    + intros a ta Hac Ha. rewrite lookup_insert_ne by done.
      exists (next ta). rewrite Ha. by destruct ta.
Qed.

Lemma putcurrent_null k : current k = NULL → putcurrent k = Ret (-1) k.
Proof.
  intros H. unfold putcurrent. step_with @get_ok. by rewrite decide_True.
Qed.

Lemma putcurrent_ready k t :
  current k ≠ NULL → threads k !! current k = Some t → is_ready t →
  putcurrent k = Ret 1 k.
Proof.
  intros Hn Ht Hr. unfold putcurrent. step_with @get_ok.
  rewrite decide_False by done. step_with load_thread_ok.
  by rewrite decide_True.
Qed.

Lemma getcurrent_null k : current k = NULL → getcurrent k = Ret (-1) k.
Proof.
  intros H. unfold getcurrent. step_with @get_ok. by rewrite decide_True.
Qed.

Lemma getcurrent_detached k t :
  current k ≠ NULL → threads k !! current k = Some t → ¬ is_ready t →
  getcurrent k = Ret 1 k.
Proof.
  intros Hn Ht Hr. unfold getcurrent. step_with @get_ok.
  rewrite decide_False by done. step_with load_thread_ok.
  rewrite decide_True; [done|]. unfold is_ready in Hr.
  destruct (decide (Z.land (flags t) KZ_THREAD_FLAG_READY = 0)); tauto.
Qed.

(** A thread that is in no ready queue may be rewritten at will, as long as
    it stays unlinked. *)
Lemma ready_inv_update_detached rq ths qs a t' :
  ready_inv rq ths qs → a ∉ concat qs → ¬ is_ready t' → next t' = NULL →
  ready_inv rq (<[a := t']> ths) qs.
Proof.
  intros (Hlen & Hlen' & Hq & Hnd & Hfl & Hpri)%ready_inv_lookup Ha Hr Hn.
  apply ready_inv_lookup. split_and!; try done.
  - intros i q l Hi Hl. destruct (Hq _ _ _ Hi Hl) as (H1 & H2 & H3 & H4).
    split_and!; try done. eapply lseg_ext; [|exact H3].
    intros y Hy. rewrite lookup_insert_ne; [done|].
    intros ->. apply Ha, elem_of_concat; eauto.
  - intros b tb. destruct (decide (a = b)) as [->|Hne].
    + rewrite lookup_insert_eq. intros [= <-]. split; [tauto|done].
    + rewrite lookup_insert_ne by done. apply Hfl.
  - intros i l b Hl Hb. rewrite lookup_insert_ne; [eauto|].
    intros ->. apply Ha, elem_of_concat; eauto.
Qed.

Lemma concat_insert_behead (qs : list (list Z)) p c l :
  qs !! p = Some (c :: l) → concat qs ≡ₚ c :: concat (<[p := l]> qs).
Proof.
  revert p. induction qs as [|l0 qs IH]; intros p Hl; [by destruct p|].
  destruct p as [|p]; simpl in *.
  - by injection Hl as ->.
  - change (list_insert p l qs) with (<[p := l]> qs).
    rewrite (IH _ Hl). simpl. by rewrite Permutation_middle.
Qed.

Lemma getcurrent_detach k qs c t l :
  ready_inv (readyque k) (threads k) qs →
  current k = c → threads k !! c = Some t → c ≠ NULL → is_ready t →
  qs !! Z.to_nat (priority t) = Some (c :: l) →
  ∃ rq',
    getcurrent k =
      Ret 0 (with_threads
               (<[c := set_next NULL
                         (set_flags (Z.land (flags t) (Z.lnot KZ_THREAD_FLAG_READY)) t)]>
                  (threads k))
               (with_readyque rq' k)) ∧
    ready_inv rq'
      (<[c := set_next NULL
                (set_flags (Z.land (flags t) (Z.lnot KZ_THREAD_FLAG_READY)) t)]>
         (threads k))
      (<[Z.to_nat (priority t) := l]> qs).
Proof.
  intros Hinv Hcur Hc Hnn Hr Hl.
  pose proof Hinv as Hinv'.
  apply ready_inv_lookup in Hinv' as (Hlen & Hlen' & Hq & Hnd & Hfl & Hpri).
  set (p := Z.to_nat (priority t)) in *.
  assert (Hplt : (p < Z.to_nat PRIORITY_NUM)%nat).
  { apply lookup_lt_Some in Hl. lia. }
  assert (Hp : 0 ≤ priority t < PRIORITY_NUM).
  { assert (Hcl : c ∈ c :: l) by set_solver.
    specialize (Hpri _ _ _ Hl Hcl). rewrite Hc in Hpri. simpl in Hpri.
    injection Hpri as Hpri. unfold PRIORITY_NUM in *. lia. }
  destruct (lookup_lt_is_Some_2 (readyque k) p) as [q Hrq]; [lia|].
  pose proof (Hq _ _ _ Hrq Hl) as (Hhd & Htl & Hseg & Hndl).
  simpl in Hhd, Hseg. destruct Hseg as (_ & Hnx & Hseg).
  rewrite Hc in Hnx. simpl in Hnx. injection Hnx as Hnx.
  apply NoDup_cons in Hndl as [Hcl Hndl].
  unfold getcurrent.
  step_with @get_ok. rewrite Hcur. rewrite decide_False by done.
  step_with load_thread_ok. rewrite decide_False by done.
  step_with update_que_ok.
  erewrite bind_Ret;
    [| eapply load_que_ok; [done | ksimpl; apply list_lookup_insert_eq; lia]].
  ksimpl.
  set (tc := set_next NULL (set_flags (Z.land (flags t) (Z.lnot KZ_THREAD_FLAG_READY)) t)).
  assert (Htc : ¬ is_ready tc).
  { unfold is_ready, tc. simpl. rewrite land_ready_clear. tauto. }
  assert (Hperm := concat_insert_behead qs p c l Hl).
  assert (Hcq : c ∉ concat (<[p := l]> qs)).
  { rewrite Hperm in Hnd. by apply NoDup_cons in Hnd as [? _]. }
  assert (Hexec : ∀ rq1,
    rq1 !! p = Some (mk_que (hd NULL l) (default NULL (last l))) →
    length rq1 = Z.to_nat PRIORITY_NUM →
    (∀ i, i ≠ p → rq1 !! i = readyque k !! i) →
    ready_inv rq1 (<[c := tc]> (threads k)) (<[p := l]> qs)).
  { intros rq1 H1 H2 H3. apply ready_inv_lookup. split_and!.
    - by rewrite length_insert.
    - done.
    - intros i qi li Hqi Hli.
      destruct (decide (i = p)) as [->|Hne].
      + rewrite list_lookup_insert_eq in Hli by lia. injection Hli as <-.
        rewrite H1 in Hqi. injection Hqi as <-.
        unfold queue_rep, chain. simpl. split_and!; try done.
        eapply lseg_ext; [|exact Hseg]. intros y Hy.
        rewrite lookup_insert_ne; [done|]. by intros ->.
      + rewrite list_lookup_insert_ne in Hli by done. rewrite H3 in Hqi by done.
        destruct (Hq _ _ _ Hqi Hli) as (E1 & E2 & E3 & E4).
        split_and!; try done.
        eapply lseg_ext; [|exact E3]. intros y Hy.
        rewrite lookup_insert_ne; [done|]. intros ->.
        eapply (concat_disjoint qs i p); eauto. set_solver.
    - rewrite Hperm in Hnd. by apply NoDup_cons in Hnd as [_ ?].
    - intros a ta. destruct (decide (a = c)) as [->|Hac].
      + rewrite lookup_insert_eq. intros [= <-]. split; [tauto|done].
      + rewrite lookup_insert_ne by done. intros Ha.
        destruct (Hfl _ _ Ha) as [E1 E2]. split; [|done].
        rewrite E1, Hperm. set_solver.
    - intros i li a Hli Ha.
      assert (a ≠ c).
      { intros ->. apply Hcq, elem_of_concat; eauto. }
      rewrite lookup_insert_ne by done.
      destruct (decide (i = p)) as [->|Hne].
      + rewrite list_lookup_insert_eq in Hli by lia. injection Hli as <-.
        apply (Hpri _ _ _ Hl). set_solver.
      + rewrite list_lookup_insert_ne in Hli by done. eauto. }
  assert (Hlast : l ≠ [] → default NULL (last (c :: l)) = default NULL (last l)).
  { intros Hne. destruct l; [done|]. by rewrite last_cons_cons. }
  destruct (decide (next t = NULL)) as [Hz|Hz].
  - (* the queue becomes empty *)
    assert (l = []) as ->.
    { destruct l as [|y l]; [done|]. simpl in Hnx, Hseg. exfalso. rewrite Hnx in Hz. tauto. }
    erewrite bind_Ret;
      [| eapply update_que_ok; [done | ksimpl; apply list_lookup_insert_eq; lia]].
    ksimpl. rewrite list_insert_insert_eq.
    step_with update_thread_ok.
    erewrite bind_Ret;
      [| eapply update_thread_ok; [done | ksimpl; apply lookup_insert_eq]].
    ksimpl. rewrite insert_insert_eq.
    eexists. split; [reflexivity|].
    apply Hexec.
    + rewrite list_lookup_insert_eq by lia. by rewrite Hz.
    + by rewrite length_insert.
    + intros i Hi. by rewrite list_lookup_insert_ne.
  - erewrite bind_Ret; [| apply ret_ok].
    step_with update_thread_ok.
    erewrite bind_Ret;
      [| eapply update_thread_ok; [done | ksimpl; apply lookup_insert_eq]].
    ksimpl. rewrite insert_insert_eq.
    eexists. split; [reflexivity|].
    assert (l ≠ []) by (intros ->; simpl in Hnx; done).
    apply Hexec.
    + rewrite list_lookup_insert_eq by lia. rewrite Hnx, Htl, Hlast by done. done.
    + by rewrite length_insert.
    + intros i Hi. by rewrite list_lookup_insert_ne.
Qed.

(** ** The scheduler *)

Lemma schedule_scan_spec n i k :
  0 ≤ i → i + Z.of_nat n = PRIORITY_NUM →
  length (readyque k) = Z.to_nat PRIORITY_NUM →
  ∃ r, schedule_scan n i k = Ret r k ∧ i ≤ r ≤ PRIORITY_NUM ∧
       (∀ j q, i ≤ j < r → readyque k !! Z.to_nat j = Some q → head q = NULL) ∧
       (r < PRIORITY_NUM →
        ∃ q, readyque k !! Z.to_nat r = Some q ∧ head q ≠ NULL).
Proof.
  revert i. induction n as [|n IH]; intros i Hi Hn Hlen; simpl.
  - exists i. split; [done|]. split; [lia|]. split; intros; lia.
  - destruct (lookup_lt_is_Some_2 (readyque k) (Z.to_nat i)) as [q Hq]; [lia|].
    step_with load_que_ok.
    destruct (decide (head q ≠ NULL)) as [Hh|Hh].
    + exists i. split; [done|]. split; [lia|]. split; [intros; lia|eauto].
    + destruct (IH (i + 1)) as (r & Hr & Hrange & Hlow & Hhigh); [lia..|done|].
      exists r. split; [done|]. split; [lia|]. split; [|done].
      intros j q' Hj Hq'. destruct (decide (j = i)) as [->|Hne].
      * rewrite Hq in Hq'. injection Hq' as <-.
        destruct (decide (head q = NULL)); tauto.
      * apply (Hlow j); [lia|done].
Qed.

(** C1. For every ready-queue state the scheduler sets the current thread
    to the head of the lowest-indexed non-empty queue of
    readyque[0..PRIORITY_NUM); if every queue is empty it enters the
    system-down path instead of selecting a thread. *)
Theorem schedule_selects_first_nonempty (k : kernel) :
  length (readyque k) = Z.to_nat PRIORITY_NUM →
  (∃ i q, readyque k !! i = Some q ∧ head q ≠ NULL ∧
          (∀ j q', (j < i)%nat → readyque k !! j = Some q' → head q' = NULL) ∧
          schedule k = Ret tt (with_current (head q) k))
  ∨ ((∀ j q', readyque k !! j = Some q' → head q' = NULL) ∧
     schedule k =
       Down (with_console (console k ++ ["system error!" +:+ newline]) k)).
Proof.
  intros Hlen.
  destruct (schedule_scan_spec (Z.to_nat PRIORITY_NUM) 0 k)
    as (r & Hr & Hrange & Hlow & Hhigh); [lia|done|done|].
  unfold schedule. rewrite (bind_Ret _ _ _ _ _ Hr).
  destruct (decide (r = PRIORITY_NUM)) as [->|Hne].
  - right. split; [|done].
    intros j q' Hq'. apply (Hlow (Z.of_nat j)).
    + apply lookup_lt_Some in Hq'. lia.
    + by rewrite Nat2Z.id.
  - left. destruct Hhigh as (q & Hq & Hh); [lia|].
    exists (Z.to_nat r), q. split_and!; try done.
    + intros j q' Hj Hq'. apply (Hlow (Z.of_nat j)); [lia|by rewrite Nat2Z.id].
    + erewrite bind_Ret; [| apply ret_ok].
      step_with load_que_ok. done.
Qed.

(** ** Attaching the current thread *)

(** C7. attach-current is idempotent: for every non-null current thread,
    if it is not READY it is appended at the tail of
    readyque[current.priority] and marked READY; if it is already READY, a
    second attach-current call leaves all ready queues and all TCB fields
    unchanged. *)
Theorem putcurrent_idempotent (k : kernel) (qs : list (list Z)) (t : kz_thread) :
  ready_inv (readyque k) (threads k) qs →
  current k ≠ NULL →
  threads k !! current k = Some t →
  0 ≤ priority t < PRIORITY_NUM →
  (is_ready t → putcurrent k = Ret 1 k) ∧
  (¬ is_ready t →
   ∃ k', putcurrent k = Ret 0 k' ∧
         ready_inv (readyque k') (threads k')
           (alter (λ l, l ++ [current k]) (Z.to_nat (priority t)) qs) ∧
         threads k' !! current k =
           Some (set_flags (Z.lor (flags t) KZ_THREAD_FLAG_READY) t) ∧
         is_ready (set_flags (Z.lor (flags t) KZ_THREAD_FLAG_READY) t) ∧
         putcurrent k' = Ret 1 k').
Proof.
  intros Hinv Hn Ht Hp. split.
  - intros Hr. by apply (putcurrent_ready k t).
  - intros Hr.
    destruct (putcurrent_attach k qs (current k) t)
      as (rq' & ths' & Hrun & Hinv' & Hc & _); try done.
    eexists. split; [exact Hrun|]. split_and!; try done.
    + apply land_ready_set.
    + eapply putcurrent_ready; ksimpl; [done|exact Hc|apply land_ready_set].
Qed.

(** ** Changing the priority *)

Lemma thread_chpri_attach k qs c t prio :
  ready_inv (readyque k) (threads k) qs →
  current k = c → c ≠ NULL → threads k !! c = Some t → ¬ is_ready t →
  let p := if decide (prio >= 0) then prio else priority t in
  0 ≤ p < PRIORITY_NUM →
  ∃ rq' ths',
    thread_chpri prio k = Ret (priority t) (with_threads ths' (with_readyque rq' k)) ∧
    ready_inv rq' ths' (alter (λ l, l ++ [c]) (Z.to_nat p) qs) ∧
    ths' !! c =
      Some (set_flags (Z.lor (flags t) KZ_THREAD_FLAG_READY) (set_priority p t)).
Proof.
  intros Hinv Hcur Hn Ht Hr p Hp.
  assert (Hcq : c ∉ concat qs).
  { apply ready_inv_lookup in Hinv as (_ & _ & _ & _ & Hfl & _).
    destruct (Hfl _ _ Ht). tauto. }
  assert (Hnx : next t = NULL).
  { apply ready_inv_lookup in Hinv as (_ & _ & _ & _ & Hfl & _).
    destruct (Hfl _ _ Ht). tauto. }
  unfold thread_chpri.
  step_with @get_ok. rewrite Hcur. step_with load_thread_ok.
  destruct (decide (prio >= 0)) as [Hge|Hlt].
  - step_with update_thread_ok.
    destruct (putcurrent_attach
                (with_threads (<[c := set_priority prio t]> (threads k)) k)
                qs c (set_priority prio t))
      as (rq' & ths' & Hrun & Hinv' & Hc & _); ksimpl; try done.
    + by apply ready_inv_update_detached.
    + apply lookup_insert_eq.
    + rewrite (bind_Ret _ _ _ _ _ Hrun). by exists rq', ths'.
  - erewrite bind_Ret; [|apply ret_ok].
    destruct (putcurrent_attach k qs c t)
      as (rq' & ths' & Hrun & Hinv' & Hc & _); try done.
    rewrite (bind_Ret _ _ _ _ _ Hrun). exists rq', ths'.
    split_and!; done.
Qed.

(** C6. For every CHPRI request the result is the caller's previous
    priority; the caller's priority field is assigned the new value iff
    the new value is >= 0, and the caller is re-attached at the tail of the
    ready queue indexed by its (possibly new) priority. *)
Theorem thread_chpri_returns_old_and_reattaches
    (k : kernel) (qs : list (list Z)) (t : kz_thread) (prio : Z) :
  ready_inv (readyque k) (threads k) qs →
  current k ≠ NULL →
  threads k !! current k = Some t →
  ¬ is_ready t →
  0 ≤ (if decide (prio >= 0) then prio else priority t) < PRIORITY_NUM →
  ∃ k' t',
    thread_chpri prio k = Ret (priority t) k' ∧
    threads k' !! current k = Some t' ∧
    (prio >= 0 → priority t' = prio) ∧
    (¬ prio >= 0 → priority t' = priority t) ∧
    is_ready t' ∧
    ready_inv (readyque k') (threads k')
      (alter (λ l, l ++ [current k]) (Z.to_nat (priority t')) qs).
Proof.
  intros Hinv Hn Ht Hr Hp.
  destruct (thread_chpri_attach k qs (current k) t prio)
    as (rq' & ths' & Hrun & Hinv' & Hc); try done.
  eexists _, _. split; [exact Hrun|]. ksimpl. split; [exact Hc|].
  ksimpl. split_and!.
  - intros H. by rewrite decide_True.
  - intros H. by rewrite decide_False.
  - apply land_ready_set.
  - done.
Qed.

(** C10. CHPRI performs no upper-bound check on the requested priority:
    any value >= 0 is assigned, and the subsequent re-attach indexes
    readyque[current.priority]; the access is within bounds only when the
    requested priority is < PRIORITY_NUM (16), and for a request with
    priority >= 16 the index is outside the ready-queue array. *)
Theorem thread_chpri_unchecked_upper_bound
    (k : kernel) (qs : list (list Z)) (t : kz_thread) (prio : Z) :
  ready_inv (readyque k) (threads k) qs →
  current k ≠ NULL →
  threads k !! current k = Some t →
  ¬ is_ready t →
  prio >= 0 →
  (prio < PRIORITY_NUM →
   ∃ k' t', thread_chpri prio k = Ret (priority t) k' ∧
            threads k' !! current k = Some t' ∧ priority t' = prio) ∧
  (prio >= PRIORITY_NUM →
   thread_chpri prio k =
     Fault OutOfBounds
       (with_threads (<[current k := set_priority prio t]> (threads k)) k)).
Proof.
  intros Hinv Hn Ht Hr Hge. split.
  - intros Hlt.
    destruct (thread_chpri_attach k qs (current k) t prio)
      as (rq' & ths' & Hrun & _ & Hc); try done.
    { rewrite decide_True by done. lia. }
    eexists _, _. split; [exact Hrun|]. ksimpl. split; [exact Hc|].
    ksimpl. by rewrite decide_True.
  - intros Hp. unfold thread_chpri.
    step_with @get_ok. step_with load_thread_ok.
    rewrite decide_True by done.
    step_with update_thread_ok.
    apply bind_Fault. unfold putcurrent.
    step_with @get_ok. rewrite decide_False by done.
    erewrite bind_Ret;
      [| eapply load_thread_ok; [done | ksimpl; apply lookup_insert_eq]].
    ksimpl. rewrite decide_False by tauto.
    apply bind_Fault. unfold load_que.
    rewrite decide_False; [done|lia].
Qed.

(** ** Mailboxes *)

Lemma load_msgbox_ok id b k :
  0 ≤ id → msgboxes k !! Z.to_nat id = Some b → load_msgbox id k = Ret b k.
Proof. intros Hi Hb. unfold load_msgbox. by rewrite decide_True, Hb. Qed.

Lemma update_msgbox_ok id f b k :
  0 ≤ id → msgboxes k !! Z.to_nat id = Some b →
  update_msgbox id f k =
    Ret tt (with_msgboxes (<[Z.to_nat id := f b]> (msgboxes k)) k).
Proof.
  intros Hi Hb. unfold update_msgbox.
  by rewrite (bind_Ret _ _ _ _ _ (load_msgbox_ok _ _ _ Hi Hb)).
Qed.

Lemma load_msgbuf_ok p m k :
  p ≠ NULL → msgbufs k !! p = Some m → load_msgbuf p k = Ret m k.
Proof. intros Hp Hm. unfold load_msgbuf. by rewrite decide_False, Hm. Qed.

Lemma update_msgbuf_ok p f m k :
  p ≠ NULL → msgbufs k !! p = Some m →
  update_msgbuf p f k = Ret tt (with_msgbufs (<[p := f m]> (msgbufs k)) k).
Proof.
  intros Hp Hm. unfold update_msgbuf.
  by rewrite (bind_Ret _ _ _ _ _ (load_msgbuf_ok _ _ _ Hp Hm)).
Qed.

Lemma load_param_ok p a k :
  p ≠ NULL → params k !! p = Some a → load_param p k = Ret a k.
Proof. intros Hp Ha. unfold load_param. by rewrite decide_False, Ha. Qed.

Lemma store_ret_ok p r a k :
  p ≠ NULL → params k !! p = Some a →
  store_ret p r k = Ret tt (with_params (<[p := set_ret r a]> (params k)) k).
Proof.
  intros Hp Ha. unfold store_ret.
  by rewrite (bind_Ret _ _ _ _ _ (load_param_ok _ _ _ Hp Ha)).
Qed.

Lemma store_umem_ok a v k :
  a ≠ NULL → store_umem a v k = Ret tt (with_umem (<[a := v]> (umem k)) k).
Proof. intros Ha. unfold store_umem. by rewrite decide_False. Qed.

Lemma kzmem_alloc_ok size k mp p1 :
  pool_alloc size (pool k) = (mp, p1) →
  kzmem_alloc size k = Ret mp (with_pool p1 k).
Proof. intros H. unfold kzmem_alloc. by rewrite H. Qed.

Lemma kzmem_free_ok a k p' :
  pool_free a (pool k) = Some p' →
  kzmem_free a k = Ret tt (with_msgbufs (delete a (msgbufs k)) (with_pool p' k)).
Proof. intros H. unfold kzmem_free. by rewrite H. Qed.

Lemma find_class_lookup size i0 cs i bs fl :
  find_class size i0 cs = Some (i, bs, fl) →
  (i0 ≤ i)%nat ∧ cs !! (i - i0)%nat = Some (bs, fl).
Proof.
  revert i0. induction cs as [|[bs' fl'] cs IH]; intros i0; simpl; [done|].
  destruct (decide (size ≤ bs')).
  - intros [= <- <- <-]. split; [lia|]. by rewrite Nat.sub_diag.
  - intros H. destruct (IH _ H) as [Hle Hl]. split; [lia|].
    replace (i - i0)%nat with (S (i - S i0)) by lia. done.
Qed.

Lemma pool_inv_hdr_ok p bufs : pool_inv p bufs → bufs_hdr_ok p bufs.
Proof.
  intros (Hlive & _ & Hcls & _) a m Ha.
  specialize (Hlive a m Ha). simpl in Hlive.
  destruct (pool_hdr p !! a) as [h|] eqn:Hh; [|done].
  exists h. split; [done|]. by apply (Hcls a h).
Qed.

(** The block [pool_alloc] hands out is not a live message buffer, and
    after it is filled every live buffer still has its header. *)
Lemma pool_alloc_fresh p bufs size mp p1 m :
  pool_inv p bufs → pool_alloc size p = (mp, p1) → mp ≠ NULL →
  bufs !! mp = None ∧ bufs_hdr_ok p1 (<[mp := m]> bufs).
Proof.
  intros Hinv Halloc Hmp.
  pose proof (pool_inv_hdr_ok _ _ Hinv) as Hok.
  destruct Hinv as (Hlive & Hfree & Hcls & Hbrk & _).
  unfold pool_alloc in Halloc.
  destruct (find_class size 0 (pool_classes p)) as [[[i bs] fl]|] eqn:Hfind;
    [|by injection Halloc as <- _].
  apply find_class_lookup in Hfind as [_ Hi]. rewrite Nat.sub_0_r in Hi.
  destruct fl as [|a fl].
  - destruct (decide (pool_brk p + bs ≤ pool_end p));
      [|by injection Halloc as <- _].
    injection Halloc as <- <-. split.
    + destruct (bufs !! pool_brk p) as [m'|] eqn:Hb; [|done].
      specialize (Hlive _ _ Hb). simpl in Hlive. by rewrite Hbrk in Hlive.
    + intros a m'. simpl. destruct (decide (a = pool_brk p)) as [->|Hne].
      * intros _. exists (i, true). rewrite lookup_insert_eq. eauto.
      * rewrite !lookup_insert_ne by done. apply Hok.
  - injection Halloc as <- <-.
    rewrite Forall_lookup in Hfree. specialize (Hfree _ _ Hi). simpl in Hfree.
    apply Forall_cons in Hfree as [[_ Ha] _]. split.
    + destruct (bufs !! a) as [m'|] eqn:Hb; [|done].
      specialize (Hlive _ _ Hb). simpl in Hlive. congruence.
    + intros b m'. simpl. destruct (decide (b = a)) as [->|Hne].
      * intros _. exists (i, true). rewrite lookup_insert_eq. split; [done|].
        simpl. apply lookup_lt_is_Some. rewrite length_insert.
        by apply lookup_lt_Some in Hi.
      * rewrite !lookup_insert_ne by done. intros Hb.
        destruct (Hok _ _ Hb) as (h & Hh & Hc). exists h. split; [done|].
        apply lookup_lt_is_Some. rewrite length_insert.
        by apply lookup_lt_is_Some.
Qed.

Lemma pool_free_hdr_ok p bufs a m :
  bufs_hdr_ok p bufs → bufs !! a = Some m → is_Some (pool_free a p).
Proof.
  intros Hok Ha. destruct (Hok _ _ Ha) as ([i u] & Hh & [[bs fl] Hc]).
  unfold pool_free. rewrite Hh. simpl in Hc. rewrite Hc. eauto.
Qed.

Section MailboxFacts.
Variable L : layout.

Lemma sendmsg_append k id thp size p b l mp p1 :
  0 ≤ id → msgboxes k !! Z.to_nat id = Some b →
  msgbox_rep (msgbufs k) b l →
  msgbufs k !! mp = None → mp ≠ NULL →
  pool_alloc (sizeof_kz_msgbuf L) (pool k) = (mp, p1) →
  ∃ bufs',
    sendmsg L id thp size p k =
      Ret tt (with_msgboxes
                (<[Z.to_nat id := mk_msgbox (receiver b) (hd mp l) mp]> (msgboxes k))
                (with_msgbufs bufs' (with_pool p1 k))) ∧
    msgbox_rep bufs' (mk_msgbox (receiver b) (hd mp l) mp) (l ++ [mp]) ∧
    bufs' !! mp = Some (mk_msgbuf NULL thp size p) ∧
    (∀ a m, a ≠ mp → msgbufs k !! a = Some m →
       ∃ n, bufs' !! a = Some (set_mnext n m)) ∧
    (∀ a, is_Some (bufs' !! a) ↔ a = mp ∨ is_Some (msgbufs k !! a)).
Proof.
  intros Hid Hb (Hhd & Htl & Hseg & Hnd) Hfresh Hmp Halloc.
  assert (Hlen : (Z.to_nat id < length (msgboxes k))%nat)
    by (by apply lookup_lt_Some in Hb).
  assert (Hmpl : mp ∉ l).
  { intros Hin. destruct (lseg_is_Some _ _ _ _ _ Hseg Hin) as [m Hm]. congruence. }
  unfold sendmsg.
  step_with kzmem_alloc_ok. rewrite decide_False by done.
  erewrite bind_Ret; [|apply ret_ok].
  erewrite bind_Ret; [|apply put_ok]. ksimpl.
  step_with load_msgbox_ok.
  set (new := mk_msgbuf NULL thp size p).
  destruct (decide (mtail b ≠ NULL)) as [Htn|Htn].
  - destruct (last l) as [x|] eqn:Hlast; simpl in Htl; [|done].
    apply last_Some in Hlast as [l' ->].
    assert (Hxl : x ∈ l' ++ [x]) by set_solver.
    destruct (lseg_is_Some _ _ _ _ _ Hseg Hxl) as [mx Hx].
    assert (Hxn : x ≠ NULL) by (eapply lseg_not_null; eauto).
    assert (Hxmp : x ≠ mp) by (intros ->; congruence).
    rewrite Htl.
    erewrite bind_Ret;
      [| eapply update_msgbuf_ok; [done | ksimpl; rewrite lookup_insert_ne by done; exact Hx]].
    ksimpl. erewrite update_msgbox_ok; [| done | ksimpl; done].
    ksimpl.
    exists (<[x := set_mnext mp mx]> (<[mp := new]> (msgbufs k))).
    split_and!.
    + do 3 f_equal. unfold set_mtail. rewrite Hhd. by destruct l'.
    + unfold msgbox_rep, chain. simpl. split_and!.
      * by destruct l'.
      * by rewrite last_snoc.
      * apply lseg_app in Hseg as [Hseg1 Hseg2]. simpl in *.
        apply NoDup_app in Hnd as (Hnd1 & Hdis & _).
        apply lseg_app. split; [apply lseg_app; split|]; simpl.
        -- eapply lseg_ext; [|exact Hseg1]. intros y Hy.
           rewrite !lookup_insert_ne; [done| |].
           ++ intros ->. apply Hmpl. set_solver.
           ++ intros ->. apply (Hdis _ Hy). set_solver.
        -- split_and!; try tauto. by rewrite lookup_insert_eq.
        -- split_and!; try done.
           by rewrite lookup_insert_ne, lookup_insert_eq.
      * apply NoDup_app. split_and!; [done| |apply NoDup_singleton].
        intros y Hy ->%list_elem_of_singleton. done.
    + by rewrite lookup_insert_ne, lookup_insert_eq.
    + intros a m Ha Hm. destruct (decide (a = x)) as [->|Hax].
      * rewrite lookup_insert_eq. rewrite Hx in Hm. injection Hm as <-. eauto.
      * rewrite !lookup_insert_ne by done. exists (mnext m). rewrite Hm. by destruct m.
    + intros a. rewrite !lookup_insert_is_Some. split.
      * intros [->|[_ [->|[_ H]]]]; eauto.
      * intros [->|H]; [right; split; [done|by left]|].
        destruct (decide (x = a)); [by left|]. right. split; [done|].
        destruct (decide (mp = a)); [by left|by right].
  - assert (l = []) as ->.
    { destruct (last l) as [x|] eqn:Hlast; [|by apply last_None].
      exfalso. apply Htn. rewrite Htl. simpl.
      eapply lseg_not_null; [exact Hseg|]. by apply last_Some_elem_of. }
    step_with update_msgbox_ok.
    erewrite update_msgbox_ok;
      [| done | ksimpl; by apply list_lookup_insert_eq].
    ksimpl. rewrite list_insert_insert_eq.
    exists (<[mp := new]> (msgbufs k)).
    split_and!.
    + done.
    + unfold msgbox_rep, chain. simpl. split_and!; try done.
      * by rewrite lookup_insert_eq.
      * apply NoDup_singleton.
    + by rewrite lookup_insert_eq.
    + intros a m Ha Hm. rewrite lookup_insert_ne by done.
      exists (mnext m). rewrite Hm. by destruct m.
    + intros a. rewrite lookup_insert_is_Some. split.
      * intros [->|[_ H]]; eauto.
      * intros [->|H]; [by left|]. destruct (decide (mp = a)); [by left|by right].
Qed.

End MailboxFacts.

Lemma recvmsg_deliver k id b h l m tr a_id sizep pp r0 :
  0 ≤ id → msgboxes k !! Z.to_nat id = Some b →
  msgbox_rep (msgbufs k) b (h :: l) → msgbufs k !! h = Some m →
  bufs_hdr_ok (pool k) (msgbufs k) →
  receiver b ≠ NULL → threads k !! receiver b = Some tr →
  syscall_param tr ≠ NULL →
  params k !! syscall_param tr = Some (un_recv a_id sizep pp r0) →
  ∃ p',
    pool_free h (pool k) = Some p' ∧
    recvmsg id k =
      Ret tt
        (with_msgbufs (delete h (msgbufs k))
           (with_pool p'
              (with_msgboxes
                 (<[Z.to_nat id := mk_msgbox NULL (hd NULL l) (default NULL (last l))]>
                    (msgboxes k))
                 (with_umem (deliver_umem sizep pp m (umem k))
                    (with_params
                       (<[syscall_param tr := un_recv a_id sizep pp (sender m)]>
                          (params k)) k))))) ∧
    msgbox_rep (delete h (msgbufs k))
      (mk_msgbox NULL (hd NULL l) (default NULL (last l))) l.
Proof.
  intros Hid Hb (Hhd & Htl & Hseg & Hnd) Hm Hok Hr Htr Hp Hprm.
  assert (Hlen : (Z.to_nat id < length (msgboxes k))%nat)
    by (by apply lookup_lt_Some in Hb).
  simpl in Hhd, Hseg. destruct Hseg as (Hhn & Hnx & Hseg).
  rewrite Hm in Hnx. simpl in Hnx. injection Hnx as Hnx.
  apply NoDup_cons in Hnd as [Hhl Hnd].
  destruct (pool_free_hdr_ok _ _ _ _ Hok Hm) as [p' Hfree].
  exists p'. split; [done|].
  assert (Hrep : msgbox_rep (delete h (msgbufs k))
            (mk_msgbox NULL (hd NULL l) (default NULL (last l))) l).
  { unfold msgbox_rep, chain. simpl. split_and!; try done.
    eapply lseg_ext; [|exact Hseg]. intros y Hy.
    rewrite lookup_delete_ne; [done|]. by intros ->. }
  split; [|done].
  unfold recvmsg.
  step_with load_msgbox_ok. rewrite Hhd.
  step_with load_msgbuf_ok.
  step_with update_msgbox_ok.
  erewrite bind_Ret;
    [| eapply load_msgbox_ok; [done | ksimpl; by apply list_lookup_insert_eq]].
  ksimpl.
  assert (Hstep : ∀ (g : kz_msgbox → M unit) b1,
    b1 = mk_msgbox (receiver b) (hd NULL l) (default NULL (last l)) →
    (do _ <- (if decide (mnext m = NULL)
              then update_msgbox id (set_mtail NULL) else ret tt);
     do _ <- update_msgbuf h (set_mnext NULL);
     do b0 <- load_msgbox id; g b0)
      (with_msgboxes (<[Z.to_nat id := set_mhead (mnext m) b]> (msgboxes k)) k) =
    g b1 (with_msgbufs (<[h := set_mnext NULL m]> (msgbufs k))
            (with_msgboxes (<[Z.to_nat id := b1]> (msgboxes k)) k))).
  { intros g b1 ->. destruct (decide (mnext m = NULL)) as [Hz|Hz].
    - assert (l = []) as ->.
      { destruct l as [|y l]; [done|]. simpl in Hnx, Hseg. rewrite Hnx in Hz. tauto. }
      erewrite bind_Ret;
        [| eapply update_msgbox_ok; [done | ksimpl; by apply list_lookup_insert_eq]].
      ksimpl. rewrite list_insert_insert_eq.
      step_with update_msgbuf_ok.
      erewrite bind_Ret;
        [| eapply load_msgbox_ok; [done | ksimpl; by apply list_lookup_insert_eq]].
      unfold set_mhead, set_mtail. simpl. by rewrite Hz.
    - erewrite bind_Ret; [|apply ret_ok].
      step_with update_msgbuf_ok.
      erewrite bind_Ret;
        [| eapply load_msgbox_ok; [done | ksimpl; by apply list_lookup_insert_eq]].
      assert (l ≠ []) by (intros ->; simpl in Hnx; done).
      unfold set_mhead. simpl. rewrite Hnx, Htl.
      destruct l as [|y l]; [done|]. by rewrite last_cons_cons. }
  erewrite Hstep; [|reflexivity]. clear Hstep. ksimpl.
  step_with load_thread_ok.
  step_with load_param_ok.
  erewrite bind_Ret;
    [| eapply load_msgbuf_ok; [done | ksimpl; apply lookup_insert_eq]].
  ksimpl.
  step_with store_ret_ok.
  assert (Hum : ∀ (g : M unit) k0,
    (do _ <- (if decide (sizep ≠ NULL) then store_umem sizep (param_size m) else ret tt);
     do _ <- (if decide (pp ≠ NULL) then store_umem pp (param_p m) else ret tt);
     g) k0 = g (with_umem (deliver_umem sizep pp m (umem k0)) k0)).
  { intros g k0. unfold deliver_umem.
    destruct (decide (sizep ≠ NULL)); destruct (decide (pp ≠ NULL));
      repeat first [ step_with store_umem_ok
                   | erewrite bind_Ret; [|apply ret_ok] ];
      by destruct k0. }
  change (param_size (set_mnext NULL m)) with (param_size m).
  change (param_p (set_mnext NULL m)) with (param_p m).
  rewrite Hum. clear Hum. ksimpl.
  erewrite bind_Ret;
    [| eapply update_msgbox_ok; [done | ksimpl; by apply list_lookup_insert_eq]].
  ksimpl. rewrite list_insert_insert_eq.
  erewrite kzmem_free_ok; [|ksimpl; exact Hfree].
  ksimpl. by rewrite delete_insert_eq.
Qed.

(** ** SEND *)

Section Send.
Variable L : layout.

(** SEND on a mailbox nobody waits on, after its first [putcurrent]: the
    message is queued. *)
Lemma thread_send_queue_from k rq1 ths1 r0 id size p b l mp p1 :
  putcurrent k = Ret r0 (with_threads ths1 (with_readyque rq1 k)) →
  pool_inv (pool k) (msgbufs k) →
  0 ≤ id → msgboxes k !! Z.to_nat id = Some b →
  msgbox_rep (msgbufs k) b l →
  pool_alloc (sizeof_kz_msgbuf L) (pool k) = (mp, p1) → mp ≠ NULL →
  receiver b = NULL →
  ∃ bufs' b',
    thread_send L id size p k =
      Ret size (with_msgboxes (<[Z.to_nat id := b']> (msgboxes k))
                  (with_msgbufs bufs'
                     (with_pool p1 (with_threads ths1 (with_readyque rq1 k))))) ∧
    receiver b' = NULL ∧
    msgbox_rep bufs' b' (l ++ [mp]) ∧
    bufs' !! mp = Some (mk_msgbuf NULL (current k) size p) ∧
    (∀ a m, a ≠ mp → msgbufs k !! a = Some m →
       ∃ n, bufs' !! a = Some (set_mnext n m)).
Proof.
  intros Hput Hpool Hid Hb Hrep Halloc Hmp Hrcv.
  destruct (pool_alloc_fresh _ _ _ _ _ (mk_msgbuf NULL (current k) size p)
              Hpool Halloc Hmp) as [Hfresh _].
  destruct (sendmsg_append L (with_threads ths1 (with_readyque rq1 k))
              id (current k) size p b l mp p1)
    as (bufs' & Hsend & Hrep' & Hnew & Hold & _); try done.
  assert (Hlen : (Z.to_nat id < length (msgboxes k))%nat)
    by (by apply lookup_lt_Some in Hb).
  unfold thread_send.
  rewrite (bind_Ret _ _ _ _ _ Hput).
  step_with @get_ok.
  rewrite (bind_Ret _ _ _ _ _ Hsend).
  erewrite bind_Ret;
    [| eapply load_msgbox_ok; [done | ksimpl; by apply list_lookup_insert_eq]].
  ksimpl. rewrite decide_False by (rewrite Hrcv; tauto).
  erewrite bind_Ret; [|apply ret_ok].
  exists bufs', (mk_msgbox (receiver b) (hd mp l) mp).
  split; [reflexivity|]. by split_and!.
Qed.

(** SEND on a mailbox with a parked receiver, after its first
    [putcurrent]: the head of the FIFO, after the new buffer was appended,
    is handed to the receiver, which is then attached. *)
Lemma thread_send_deliver_from k rq1 ths1 r0 qs1 id size p b l mp p1
    tr a_id sizep pp r0' :
  putcurrent k = Ret r0 (with_threads ths1 (with_readyque rq1 k)) →
  ready_inv rq1 ths1 qs1 →
  pool_inv (pool k) (msgbufs k) →
  0 ≤ id → msgboxes k !! Z.to_nat id = Some b →
  msgbox_rep (msgbufs k) b l →
  pool_alloc (sizeof_kz_msgbuf L) (pool k) = (mp, p1) → mp ≠ NULL →
  receiver b ≠ NULL →
  ths1 !! receiver b = Some tr → ¬ is_ready tr →
  0 ≤ priority tr < PRIORITY_NUM →
  syscall_param tr ≠ NULL →
  params k !! syscall_param tr = Some (un_recv a_id sizep pp r0') →
  ∃ k' mh b',
    thread_send L id size p k = Ret size k' ∧
    match l with
    | [] => mh = mk_msgbuf NULL (current k) size p
    | h :: _ => ∃ m0, msgbufs k !! h = Some m0 ∧ sender mh = sender m0 ∧
                      param_size mh = param_size m0 ∧ param_p mh = param_p m0
    end ∧
    msgboxes k' !! Z.to_nat id = Some b' ∧ receiver b' = NULL ∧
    msgbox_rep (msgbufs k') b' (drop 1 (l ++ [mp])) ∧
    msgbufs k' !! hd mp l = None ∧
    params k' = <[syscall_param tr := un_recv a_id sizep pp (sender mh)]> (params k) ∧
    umem k' = deliver_umem sizep pp mh (umem k) ∧
    ready_inv (readyque k') (threads k')
      (alter (λ l, l ++ [receiver b]) (Z.to_nat (priority tr)) qs1) ∧
    current k' = receiver b.
Proof.
  intros Hput Hinv1 Hpool Hid Hb Hrep Halloc Hmp Hrn Htr1 Hrnr Hrpri Hprm Hparams.
  destruct (pool_alloc_fresh _ _ _ _ _ (mk_msgbuf NULL (current k) size p)
              Hpool Halloc Hmp) as [Hfresh Hok].
  destruct (sendmsg_append L (with_threads ths1 (with_readyque rq1 k))
              id (current k) size p b l mp p1)
    as (bufs' & Hsend & Hrep' & Hnew & Hold & Hdom); try done.
  assert (Hlen : (Z.to_nat id < length (msgboxes k))%nat)
    by (by apply lookup_lt_Some in Hb).
  assert (Hok' : bufs_hdr_ok p1 bufs').
  { intros a m Ha. assert (is_Some (bufs' !! a)) as Hs by eauto.
    apply Hdom in Hs. ksimpl.
    destruct (decide (a = mp)) as [->|Hne].
    - apply (Hok mp (mk_msgbuf NULL (current k) size p)). apply lookup_insert_eq.
    - destruct Hs as [?|[m' Hm']]; [done|].
      apply (Hok a m'). by rewrite lookup_insert_ne. }
  (* the head of the FIFO after the append *)
  assert (∃ mh, bufs' !! hd mp l = Some mh ∧
            match l with
            | [] => mh = mk_msgbuf NULL (current k) size p
            | h :: _ => ∃ m0, msgbufs k !! h = Some m0 ∧ sender mh = sender m0 ∧
                        param_size mh = param_size m0 ∧ param_p mh = param_p m0
            end) as (mh & Hmh & Hmsg).
  { destruct l as [|h l0]; simpl; [eauto|].
    destruct Hrep as (_ & _ & Hseg & _).
    destruct (lseg_is_Some _ _ _ _ h Hseg) as [m0 Hm0]; [set_solver|].
    destruct (Hold h m0) as [n Hn]; [|done|].
    { intros ->. ksimpl. congruence. }
    exists (set_mnext n m0). split; [done|]. eauto. }
  assert (Hl' : l ++ [mp] = hd mp l :: drop 1 (l ++ [mp])) by (by destruct l).
  rewrite Hl' in Hrep'.
  destruct (recvmsg_deliver
              (with_current (receiver b)
                 (with_msgboxes
                    (<[Z.to_nat id := mk_msgbox (receiver b) (hd mp l) mp]> (msgboxes k))
                    (with_msgbufs bufs'
                       (with_pool p1 (with_threads ths1 (with_readyque rq1 k))))))
              id (mk_msgbox (receiver b) (hd mp l) mp)
              (hd mp l) (drop 1 (l ++ [mp])) mh tr a_id sizep pp r0')
    as (p2 & Hfree & Hrecv & Hrep2); ksimpl; try done.
  { by apply list_lookup_insert_eq. }
  match type of Hrecv with _ = Ret tt ?k3 =>
    destruct (putcurrent_attach k3 qs1 (receiver b) tr)
      as (rq4 & ths4 & Hput4 & Hinv4 & _)
  end; ksimpl; try done.
  unfold thread_send.
  rewrite (bind_Ret _ _ _ _ _ Hput).
  step_with @get_ok.
  rewrite (bind_Ret _ _ _ _ _ Hsend).
  erewrite bind_Ret;
    [| eapply load_msgbox_ok; [done | ksimpl; by apply list_lookup_insert_eq]].
  ksimpl. rewrite decide_True by done.
  erewrite bind_Ret.
  2: { erewrite bind_Ret; [|apply put_ok].
       rewrite (bind_Ret _ _ _ _ _ Hrecv).
       rewrite (bind_Ret _ _ _ _ _ Hput4). apply ret_ok. }
  eexists _, mh, (mk_msgbox NULL (hd NULL (drop 1 (l ++ [mp])))
                    (default NULL (last (drop 1 (l ++ [mp]))))).
  split; [reflexivity|]. ksimpl.
  split_and!; try done.
  - rewrite list_insert_insert_eq. by apply list_lookup_insert_eq.
  - apply lookup_delete_eq.
Qed.

(** The same two facts for a caller that is a detached thread. *)
Lemma thread_send_queue k qs id size p b l c tc mp p1 :
  ready_inv (readyque k) (threads k) qs →
  pool_inv (pool k) (msgbufs k) →
  0 ≤ id → msgboxes k !! Z.to_nat id = Some b →
  msgbox_rep (msgbufs k) b l →
  current k = c → c ≠ NULL → threads k !! c = Some tc → ¬ is_ready tc →
  0 ≤ priority tc < PRIORITY_NUM →
  pool_alloc (sizeof_kz_msgbuf L) (pool k) = (mp, p1) → mp ≠ NULL →
  receiver b = NULL →
  ∃ k' b',
    thread_send L id size p k = Ret size k' ∧
    msgboxes k' !! Z.to_nat id = Some b' ∧ receiver b' = NULL ∧
    msgbox_rep (msgbufs k') b' (l ++ [mp]) ∧
    msgbufs k' !! mp = Some (mk_msgbuf NULL c size p) ∧
    (∀ a m, a ≠ mp → msgbufs k !! a = Some m →
       ∃ n, msgbufs k' !! a = Some (set_mnext n m)) ∧
    ready_inv (readyque k') (threads k')
      (alter (λ l, l ++ [c]) (Z.to_nat (priority tc)) qs) ∧
    current k' = c.
Proof.
  intros Hinv Hpool Hid Hb Hrep Hcur Hcn Hc Hnr Hpri Halloc Hmp Hrcv.
  destruct (putcurrent_attach k qs c tc) as (rq1 & ths1 & Hput & Hinv1 & _);
    try done.
  destruct (thread_send_queue_from k rq1 ths1 0 id size p b l mp p1)
    as (bufs' & b' & Hrun & Hrcv' & Hrep' & Hnew & Hold); try done.
  assert (Hlen : (Z.to_nat id < length (msgboxes k))%nat)
    by (by apply lookup_lt_Some in Hb).
  eexists _, b'. split; [exact Hrun|]. ksimpl. rewrite Hcur in Hnew.
  split_and!; try done. by apply list_lookup_insert_eq.
Qed.

Lemma thread_send_deliver k qs id size p b l c tc mp p1 tr a_id sizep pp r0 :
  ready_inv (readyque k) (threads k) qs →
  pool_inv (pool k) (msgbufs k) →
  0 ≤ id → msgboxes k !! Z.to_nat id = Some b →
  msgbox_rep (msgbufs k) b l →
  current k = c → c ≠ NULL → threads k !! c = Some tc → ¬ is_ready tc →
  0 ≤ priority tc < PRIORITY_NUM →
  pool_alloc (sizeof_kz_msgbuf L) (pool k) = (mp, p1) → mp ≠ NULL →
  receiver b ≠ NULL → receiver b ≠ c →
  threads k !! receiver b = Some tr → ¬ is_ready tr →
  0 ≤ priority tr < PRIORITY_NUM →
  syscall_param tr ≠ NULL →
  params k !! syscall_param tr = Some (un_recv a_id sizep pp r0) →
  ∃ k' mh b',
    thread_send L id size p k = Ret size k' ∧
    match l with
    | [] => mh = mk_msgbuf NULL c size p
    | h :: _ => ∃ m0, msgbufs k !! h = Some m0 ∧ sender mh = sender m0 ∧
                      param_size mh = param_size m0 ∧ param_p mh = param_p m0
    end ∧
    msgboxes k' !! Z.to_nat id = Some b' ∧ receiver b' = NULL ∧
    msgbox_rep (msgbufs k') b' (drop 1 (l ++ [mp])) ∧
    msgbufs k' !! hd mp l = None ∧
    params k' = <[syscall_param tr := un_recv a_id sizep pp (sender mh)]> (params k) ∧
    umem k' = deliver_umem sizep pp mh (umem k) ∧
    ready_inv (readyque k') (threads k')
      (alter (λ l, l ++ [receiver b]) (Z.to_nat (priority tr))
         (alter (λ l, l ++ [c]) (Z.to_nat (priority tc)) qs)) ∧
    current k' = receiver b.
Proof.
  intros Hinv Hpool Hid Hb Hrep Hcur Hcn Hc Hnr Hpri Halloc Hmp
    Hrn Hrc Htr Hrnr Hrpri Hprm Hparams.
  assert (Hrq : receiver b ∉ concat qs).
  { apply ready_inv_lookup in Hinv as (_ & _ & _ & _ & Hfl & _).
    destruct (Hfl _ _ Htr). tauto. }
  destruct (putcurrent_attach k qs c tc)
    as (rq1 & ths1 & Hput & Hinv1 & Hc1 & Hframe & _); try done.
  assert (Htr1 : ths1 !! receiver b = Some tr) by (rewrite Hframe; done).
  rewrite <- Hcur.
  eapply thread_send_deliver_from; eauto. by rewrite Hcur.
Qed.

End Send.

(** ** RECV *)


Lemma thread_recv_block k id sizep pp b :
  0 ≤ id → msgboxes k !! Z.to_nat id = Some b →
  receiver b = NULL → mhead b = NULL →
  thread_recv id sizep pp k =
    Ret (-1) (with_msgboxes
                (<[Z.to_nat id := set_receiver (current k) b]> (msgboxes k)) k).
Proof.
  intros Hid Hb Hr Hh. unfold thread_recv.
  assert (Hlen : (Z.to_nat id < length (msgboxes k))%nat)
    by (by apply lookup_lt_Some in Hb).
  step_with load_msgbox_ok. rewrite decide_False by (rewrite Hr; tauto).
  erewrite bind_Ret; [|apply ret_ok].
  step_with @get_ok. step_with update_msgbox_ok.
  erewrite bind_Ret;
    [| eapply load_msgbox_ok; [done | ksimpl; by apply list_lookup_insert_eq]].
  ksimpl. by rewrite decide_True.
Qed.

Lemma thread_recv_ready k qs id sizep pp b h l m c tc a_id sizep' pp' r0 :
  ready_inv (readyque k) (threads k) qs →
  bufs_hdr_ok (pool k) (msgbufs k) →
  0 ≤ id → msgboxes k !! Z.to_nat id = Some b →
  receiver b = NULL →
  msgbox_rep (msgbufs k) b (h :: l) → msgbufs k !! h = Some m →
  current k = c → c ≠ NULL → threads k !! c = Some tc → ¬ is_ready tc →
  0 ≤ priority tc < PRIORITY_NUM →
  syscall_param tc ≠ NULL →
  params k !! syscall_param tc = Some (un_recv a_id sizep' pp' r0) →
  ∃ k' b',
    thread_recv id sizep pp k = Ret (sender m) k' ∧
    params k' = <[syscall_param tc := un_recv a_id sizep' pp' (sender m)]> (params k) ∧
    umem k' = deliver_umem sizep' pp' m (umem k) ∧
    msgboxes k' !! Z.to_nat id = Some b' ∧ receiver b' = NULL ∧
    msgbox_rep (msgbufs k') b' l ∧
    msgbufs k' !! h = None ∧
    ready_inv (readyque k') (threads k')
      (alter (λ l, l ++ [c]) (Z.to_nat (priority tc)) qs) ∧
    current k' = c.
Proof.
  intros Hinv Hok Hid Hb Hr Hrep Hm Hcur Hcn Hc Hnr Hpri Hp Hprm.
  assert (Hlen : (Z.to_nat id < length (msgboxes k))%nat)
    by (by apply lookup_lt_Some in Hb).
  assert (Hhn : mhead b ≠ NULL).
  { destruct Hrep as (Hhd & _ & Hseg & _). rewrite Hhd. simpl in *. tauto. }
  destruct (recvmsg_deliver
              (with_msgboxes (<[Z.to_nat id := set_receiver c b]> (msgboxes k)) k)
              id (set_receiver c b) h l m tc a_id sizep' pp' r0)
    as (p2 & Hfree & Hrecv & Hrep2); ksimpl; try done.
  { by apply list_lookup_insert_eq. }
  match type of Hrecv with _ = Ret tt ?k3 =>
    destruct (putcurrent_attach k3 qs c tc)
      as (rq4 & ths4 & Hput4 & Hinv4 & Hc4 & _)
  end; ksimpl; try done.
  unfold thread_recv.
  step_with load_msgbox_ok. rewrite decide_False by (rewrite Hr; tauto).
  erewrite bind_Ret; [|apply ret_ok].
  step_with @get_ok. rewrite Hcur. step_with update_msgbox_ok.
  erewrite bind_Ret;
    [| eapply load_msgbox_ok; [done | ksimpl; by apply list_lookup_insert_eq]].
  ksimpl. rewrite decide_False by done.
  rewrite (bind_Ret _ _ _ _ _ Hrecv).
  rewrite (bind_Ret _ _ _ _ _ Hput4).
  step_with @get_ok. rewrite Hcur.
  erewrite bind_Ret; [| eapply load_thread_ok; [done | ksimpl; exact Hc4]].
  ksimpl.
  erewrite bind_Ret; [| eapply load_param_ok; [done | ksimpl; apply lookup_insert_eq]].
  eexists _, (mk_msgbox NULL (hd NULL l) (default NULL (last l))).
  split; [reflexivity|]. ksimpl.
  split_and!; try done.
  - rewrite list_insert_insert_eq. by apply list_lookup_insert_eq.
  - apply lookup_delete_eq.
Qed.


(** When [schedule] returns, the thread it selected is the head of a ready
    queue. *)
Lemma schedule_Ret_head k k' :
  length (readyque k) = Z.to_nat PRIORITY_NUM →
  schedule k = Ret tt k' →
  ∃ i q, readyque k !! i = Some q ∧ head q ≠ NULL ∧ current k' = head q.
Proof.
  intros Hlen Hrun.
  destruct (schedule_scan_spec (Z.to_nat PRIORITY_NUM) 0 k)
    as (r & Hr & Hrange & _ & Hhigh); [lia|done|done|].
  unfold schedule in Hrun. rewrite (bind_Ret _ _ _ _ _ Hr) in Hrun.
  destruct (decide (r = PRIORITY_NUM)) as [->|Hne]; [done|].
  destruct Hhigh as (q & Hq & Hh); [lia|].
  erewrite bind_Ret in Hrun; [| apply ret_ok].
  erewrite bind_Ret in Hrun; [| eapply load_que_ok; [lia|done]].
  injection Hrun as <-. eauto.
Qed.

(** A thread that is in no ready queue is not what [schedule] selects. *)
Lemma schedule_skips_detached k qs c k' :
  ready_inv (readyque k) (threads k) qs → c ∉ concat qs →
  schedule k = Ret tt k' → current k' ≠ c.
Proof.
  intros Hinv Hc Hrun.
  pose proof Hinv as (Hlen & Hlen' & Hq & _)%ready_inv_lookup.
  destruct (schedule_Ret_head k k' Hlen' Hrun) as (i & q & Hi & Hh & ->).
  destruct (lookup_lt_is_Some_2 qs i) as [l Hl].
  { apply lookup_lt_Some in Hi. lia. }
  destruct (Hq _ _ _ Hi Hl) as (Hhd & _).
  intros <-. apply Hc, elem_of_concat. exists i, l. split; [done|].
  destruct l as [|x l]; simpl in Hhd; [done|]. rewrite Hhd. set_solver.
Qed.

(** With nothing linked in any queue the scheduler enters the system-down
    path. *)
Lemma schedule_none k qs :
  ready_inv (readyque k) (threads k) qs → concat qs = [] →
  schedule k = Down (with_console (console k ++ ["system error!" +:+ newline]) k).
Proof.
  intros (Hlen & Hlen' & Hq & _)%ready_inv_lookup Hnil.
  destruct (schedule_scan_spec (Z.to_nat PRIORITY_NUM) 0 k)
    as (r & Hr & Hrange & Hbelow & Hat); [lia|done|done|].
  unfold schedule. rewrite (bind_Ret _ _ _ _ _ Hr).
  destruct (decide (r = PRIORITY_NUM)) as [->|Hne]; [done|].
  destruct Hat as (q & Hq' & Hh); [lia|].
  destruct (lookup_lt_is_Some_2 qs (Z.to_nat r)) as [l Hl]; [lia|].
  destruct (Hq _ _ _ Hq' Hl) as (Hhd & _).
  destruct l as [|x l]; [done|].
  assert (x ∈ concat qs) by (apply elem_of_concat; exists (Z.to_nat r), (x :: l);
                             split; [done|left]).
  rewrite Hnil in H. by apply elem_of_nil in H.
Qed.

Section Recv.
Variable L : layout.


End Recv.

Section SendClaim.
Variable L : layout.

Lemma thread_send_exhausted k qs id size p c tc p1 :
  ready_inv (readyque k) (threads k) qs →
  current k = c → c ≠ NULL → threads k !! c = Some tc → ¬ is_ready tc →
  0 ≤ priority tc < PRIORITY_NUM →
  pool_alloc (sizeof_kz_msgbuf L) (pool k) = (NULL, p1) →
  ∃ k', thread_send L id size p k = Down k' ∧
        msgboxes k' = msgboxes k ∧ msgbufs k' = msgbufs k.
Proof.
  intros Hinv Hcur Hcn Hc Hnr Hpri Halloc.
  destruct (putcurrent_attach k qs c tc) as (rq1 & ths1 & Hput & _); try done.
  eexists. split.
  - unfold thread_send. rewrite (bind_Ret _ _ _ _ _ Hput).
    step_with @get_ok. apply bind_Down. unfold sendmsg.
    step_with kzmem_alloc_ok. rewrite decide_True by done.
    by apply bind_Down.
  - done.
Qed.

(** C2 (amended). For every SEND request on a mailbox for which the
    kernel allocator returns a message buffer, a new buffer carrying the
    sender, size and payload pointer is appended at the FIFO tail; if a
    receiver is parked on that mailbox, the head buffer is then dequeued,
    its sender is written into the result slot of the receiver's recv
    parameter block and its size and payload pointer are stored through
    the receiver's non-null out-pointers, the receiver slot is cleared, the
    buffer is freed, and the receiver is re-attached to its ready queue;
    SEND returns the size argument and the caller is re-attached.  When
    the allocator returns null, SEND enters system-down and appends
    nothing. *)
Theorem thread_send_appends_then_delivers
    (k : kernel) (qs : list (list Z)) (id size p : Z) (b : kz_msgbox)
    (l : list Z) (c : Z) (tc : kz_thread) (mp : Z) (p1 : kzmem_pool) :
  ready_inv (readyque k) (threads k) qs →
  pool_inv (pool k) (msgbufs k) →
  0 ≤ id → msgboxes k !! Z.to_nat id = Some b →
  msgbox_rep (msgbufs k) b l →
  current k = c → c ≠ NULL → threads k !! c = Some tc → ¬ is_ready tc →
  0 ≤ priority tc < PRIORITY_NUM →
  pool_alloc (sizeof_kz_msgbuf L) (pool k) = (mp, p1) →
  (mp = NULL →
   ∃ k', thread_send L id size p k = Down k' ∧
         msgboxes k' = msgboxes k ∧ msgbufs k' = msgbufs k) ∧
  (mp ≠ NULL → receiver b = NULL →
   ∃ k' b',
     thread_send L id size p k = Ret size k' ∧
     msgboxes k' !! Z.to_nat id = Some b' ∧ receiver b' = NULL ∧
     msgbox_rep (msgbufs k') b' (l ++ [mp]) ∧
     msgbufs k' !! mp = Some (mk_msgbuf NULL c size p) ∧
     (∀ a m, a ≠ mp → msgbufs k !! a = Some m →
        ∃ n, msgbufs k' !! a = Some (set_mnext n m)) ∧
     ready_inv (readyque k') (threads k')
       (alter (λ l, l ++ [c]) (Z.to_nat (priority tc)) qs)) ∧
  (mp ≠ NULL → receiver b ≠ NULL →
   ∀ tr a_id sizep pp r0,
     receiver b ≠ c → threads k !! receiver b = Some tr → ¬ is_ready tr →
     0 ≤ priority tr < PRIORITY_NUM → syscall_param tr ≠ NULL →
     params k !! syscall_param tr = Some (un_recv a_id sizep pp r0) →
     ∃ k' mh b',
       thread_send L id size p k = Ret size k' ∧
       match l with
       | [] => mh = mk_msgbuf NULL c size p
       | h :: _ => ∃ m0, msgbufs k !! h = Some m0 ∧ sender mh = sender m0 ∧
                         param_size mh = param_size m0 ∧ param_p mh = param_p m0
       end ∧
       msgboxes k' !! Z.to_nat id = Some b' ∧ receiver b' = NULL ∧
       msgbox_rep (msgbufs k') b' (drop 1 (l ++ [mp])) ∧
       msgbufs k' !! hd mp l = None ∧
       params k' !! syscall_param tr = Some (un_recv a_id sizep pp (sender mh)) ∧
       umem k' = deliver_umem sizep pp mh (umem k) ∧
       ready_inv (readyque k') (threads k')
         (alter (λ l, l ++ [receiver b]) (Z.to_nat (priority tr))
            (alter (λ l, l ++ [c]) (Z.to_nat (priority tc)) qs))).
Proof.
  intros Hinv Hpool Hid Hb Hrep Hcur Hcn Hc Hnr Hpri Halloc. split_and!.
  - intros ->. by eapply thread_send_exhausted.
  - intros Hmp Hrcv.
    destruct (thread_send_queue L k qs id size p b l c tc mp p1)
      as (k' & b' & H1 & H2 & H3 & H4 & H5 & H6 & H7 & _); try done.
    exists k', b'. by split_and!.
  - intros Hmp Hrcv tr a_id sizep pp r0 Hrc Htr Hrnr Hrpri Hprm Hparams.
    destruct (thread_send_deliver L k qs id size p b l c tc mp p1 tr a_id sizep pp r0)
      as (k' & mh & b' & H1 & H2 & H3 & H4 & H5 & H6 & H7 & H8 & H9 & _); try done.
    exists k', mh, b'. split_and!; try done.
    rewrite H7. apply lookup_insert_eq.
Qed.

End SendClaim.

(** ** Service calls *)

Section Srvcall.
Variable L : layout.

(** C8. When the dispatcher is invoked as a service call from
    interrupt-handler context, the kernel sets the current-thread pointer
    to null before running the handler (and does not detach any thread
    from a ready queue), so that handlers reading it, notably SEND's
    sender field, observe null rather than the previously running
    thread. *)
Theorem srvcall_runs_handler_with_null_current
    (k : kernel) (type : kz_syscall_type_t) (p : Z) :
  kz_srvcall L type p k = call_functions L type p (with_current NULL k) ∧
  current (with_current NULL k) = NULL ∧
  readyque (with_current NULL k) = readyque k ∧
  threads (with_current NULL k) = threads k ∧
  (∀ id size q r b l mp p1,
     type = KZ_SYSCALL_TYPE_SEND →
     p ≠ NULL → params k !! p = Some (un_send id size q r) →
     pool_inv (pool k) (msgbufs k) →
     0 ≤ id → msgboxes k !! Z.to_nat id = Some b →
     msgbox_rep (msgbufs k) b l →
     pool_alloc (sizeof_kz_msgbuf L) (pool k) = (mp, p1) → mp ≠ NULL →
     (receiver b = NULL →
      ∃ k' b',
        kz_srvcall L type p k = Ret tt k' ∧
        msgbufs k' !! mp = Some (mk_msgbuf NULL NULL size q) ∧
        msgboxes k' !! Z.to_nat id = Some b' ∧
        msgbox_rep (msgbufs k') b' (l ++ [mp]) ∧
        readyque k' = readyque k ∧ threads k' = threads k ∧
        params k' !! p = Some (un_send id size q size)) ∧
     (receiver b ≠ NULL → l = [] →
      ∀ qs tr a_id sizep pp r0,
        ready_inv (readyque k) (threads k) qs →
        threads k !! receiver b = Some tr → ¬ is_ready tr →
        0 ≤ priority tr < PRIORITY_NUM →
        syscall_param tr ≠ NULL → syscall_param tr ≠ p →
        params k !! syscall_param tr = Some (un_recv a_id sizep pp r0) →
        ∃ k',
          kz_srvcall L type p k = Ret tt k' ∧
          params k' !! syscall_param tr = Some (un_recv a_id sizep pp NULL) ∧
          ready_inv (readyque k') (threads k')
            (alter (λ l, l ++ [receiver b]) (Z.to_nat (priority tr)) qs))).
Proof.
  split_and!; try done.
  intros id size q r b l mp p1 -> Hp Hprm Hpool Hid Hb Hrep Halloc Hmp.
  assert (Hput : putcurrent (with_current NULL k) =
            Ret (-1) (with_threads (threads k)
                        (with_readyque (readyque k) (with_current NULL k))))
    by (by apply putcurrent_null).
  split.
  - intros Hrcv.
    destruct (thread_send_queue_from L (with_current NULL k) (readyque k) (threads k)
                (-1) id size q b l mp p1)
      as (bufs' & b' & Hrun & Hrcv' & Hrep' & Hnew & _); try done.
    assert (Hlen : (Z.to_nat id < length (msgboxes k))%nat)
      by (by apply lookup_lt_Some in Hb).
    eexists _, b'. split_and!.
    + unfold kz_srvcall, srvcall_proc.
      erewrite bind_Ret; [|apply put_ok].
      unfold call_functions. step_with load_param_ok.
      rewrite (bind_Ret _ _ _ _ _ Hrun).
      erewrite store_ret_ok; [reflexivity | done | ksimpl; exact Hprm].
    + done.
    + ksimpl. by apply list_lookup_insert_eq.
    + done.
    + done.
    + done.
    + ksimpl. apply lookup_insert_eq.
  - intros Hrcv -> qs tr a_id sizep pp r0 Hinv Htr Hnr Hpri Hsp Hne Hparams.
    destruct (thread_send_deliver_from L (with_current NULL k) (readyque k) (threads k)
                (-1) qs id size q b [] mp p1 tr a_id sizep pp r0)
      as (k' & mh & b' & Hrun & -> & _ & _ & _ & _ & Hparams' & _ & Hinv' & _);
      try done.
    eexists. split_and!.
    + unfold kz_srvcall, srvcall_proc.
      erewrite bind_Ret; [|apply put_ok].
      unfold call_functions. step_with load_param_ok.
      rewrite (bind_Ret _ _ _ _ _ Hrun).
      erewrite store_ret_ok; [reflexivity | done |].
      rewrite Hparams'. ksimpl. rewrite lookup_insert_ne by done. exact Hprm.
    + ksimpl. rewrite Hparams'. ksimpl.
      rewrite lookup_insert_ne by done. apply lookup_insert_eq.
    + done.
Qed.

End Srvcall.

(** ** WAKEUP and RUN *)

Lemma alter_snoc_twice (qs : list (list Z)) i l a b :
  qs !! i = Some l →
  alter (λ l, l ++ [b]) i (alter (λ l, l ++ [a]) i qs) !! i = Some (l ++ [a; b]).
Proof.
  intros Hl. rewrite !list_lookup_alter_eq, Hl. simpl.
  by rewrite <- app_assoc.
Qed.

(** WAKEUP of a thread that is not READY: the caller is appended to its
    queue, then the target to its own. *)
Lemma thread_wakeup_attach k qs c tc id tt :
  ready_inv (readyque k) (threads k) qs →
  current k = c → c ≠ NULL → threads k !! c = Some tc → ¬ is_ready tc →
  0 ≤ priority tc < PRIORITY_NUM →
  id ≠ NULL → id ≠ c → threads k !! id = Some tt → ¬ is_ready tt →
  0 ≤ priority tt < PRIORITY_NUM →
  ∃ k',
    thread_wakeup id k = Ret 0 k' ∧
    ready_inv (readyque k') (threads k')
      (alter (λ l, l ++ [id]) (Z.to_nat (priority tt))
         (alter (λ l, l ++ [c]) (Z.to_nat (priority tc)) qs)) ∧
    current k' = id.
Proof.
  intros Hinv Hcur Hcn Hc Hnr Hpri Hin Hic Ht Htnr Htpri.
  assert (Hiq : id ∉ concat qs).
  { apply ready_inv_lookup in Hinv as (_ & _ & _ & _ & Hfl & _).
    destruct (Hfl _ _ Ht). tauto. }
  destruct (putcurrent_attach k qs c tc)
    as (rq1 & ths1 & Hput & Hinv1 & _ & Hframe & _); try done.
  destruct (putcurrent_attach
              (with_current id (with_threads ths1 (with_readyque rq1 k)))
              (alter (λ l, l ++ [c]) (Z.to_nat (priority tc)) qs) id tt)
    as (rq2 & ths2 & Hput2 & Hinv2 & _); ksimpl; try done.
  { by rewrite Hframe. }
  unfold thread_wakeup.
  rewrite (bind_Ret _ _ _ _ _ Hput).
  erewrite bind_Ret; [|apply put_ok].
  rewrite (bind_Ret _ _ _ _ _ Hput2).
  eexists. split; [reflexivity|]. by ksimpl.
Qed.

(** WAKEUP of a thread that is already READY: only the caller is
    appended; the target keeps its place. *)
Lemma thread_wakeup_ready k qs c tc id tt :
  ready_inv (readyque k) (threads k) qs →
  current k = c → c ≠ NULL → threads k !! c = Some tc → ¬ is_ready tc →
  0 ≤ priority tc < PRIORITY_NUM →
  id ≠ NULL → threads k !! id = Some tt → is_ready tt →
  ∃ k',
    thread_wakeup id k = Ret 0 k' ∧
    ready_inv (readyque k') (threads k')
      (alter (λ l, l ++ [c]) (Z.to_nat (priority tc)) qs) ∧
    current k' = id.
Proof.
  intros Hinv Hcur Hcn Hc Hnr Hpri Hin Ht Htr.
  assert (Hic : id ≠ c).
  { intros ->. rewrite Hc in Ht. injection Ht as ->. done. }
  destruct (putcurrent_attach k qs c tc)
    as (rq1 & ths1 & Hput & Hinv1 & _ & _ & Hframe); try done.
  destruct (Hframe id tt Hic Ht) as [n Hn].
  unfold thread_wakeup.
  rewrite (bind_Ret _ _ _ _ _ Hput).
  erewrite bind_Ret; [|apply put_ok].
  erewrite bind_Ret; [| eapply putcurrent_ready; ksimpl; [done|exact Hn|done]].
  eexists. split; [reflexivity|]. by ksimpl.
Qed.

Lemma occupied_lookup k a :
  occupied k a → a ≠ NULL ∧ ∃ t, threads k !! a = Some t ∧ init_func t ≠ NULL.
Proof.
  intros (Ha & [t Ht] & Hf). split; [done|]. exists t. split; [done|].
  rewrite Ht in Hf. simpl in Hf. congruence.
Qed.

Lemma occupied_frame k k' a :
  occupied k a →
  (∀ ta, threads k !! a = Some ta →
     ∃ ta', threads k' !! a = Some ta' ∧ init_func ta' = init_func ta) →
  occupied k' a.
Proof.
  intros (Hn & [ta Hta] & Hf) Hframe.
  destruct (Hframe _ Hta) as (ta' & Hta' & Hi).
  split; [done|]. rewrite Hta'. split; [eauto|].
  simpl. rewrite Hi. by rewrite Hta in Hf.
Qed.

Lemma find_free_none slots k :
  Forall (occupied k) slots → find_free slots k = Ret None k.
Proof.
  induction 1 as [|a slots (Ha & t & Ht & Hf)%occupied_lookup _ IH]; simpl; [done|].
  step_with load_thread_ok. by rewrite decide_False.
Qed.

Lemma find_free_first s1 thp s2 t0 k :
  Forall (occupied k) s1 →
  thp ≠ NULL → threads k !! thp = Some t0 → init_func t0 = NULL →
  find_free (s1 ++ thp :: s2) k = Ret (Some thp) k.
Proof.
  intros Hocc Hn Ht Hf.
  induction Hocc as [|a s1 (Ha & t & Hta & Hfa)%occupied_lookup _ IH]; simpl.
  - step_with load_thread_ok. by rewrite decide_True.
  - step_with load_thread_ok. by rewrite decide_False.
Qed.

Section Run.
Variable L : layout.

Lemma thread_run_spawn k qs func nm prio ss argc argv s1 thp s2 t0 c tc :
  tcb_slots L = s1 ++ thp :: s2 → Forall (occupied k) s1 →
  thp ≠ NULL → threads k !! thp = Some t0 → init_func t0 = NULL →
  ¬ is_ready t0 →
  (String.length nm ≤ THREAD_NAME_SIZE)%nat →
  0 ≤ prio < PRIORITY_NUM →
  ready_inv (readyque k) (threads k) qs →
  current k = c → c ≠ NULL → c ≠ thp → threads k !! c = Some tc →
  ¬ is_ready tc → 0 ≤ priority tc < PRIORITY_NUM →
  ∃ k',
    thread_run L func nm prio ss argc argv k = Ret thp k' ∧
    current k' = thp ∧
    threads k' !! thp =
      Some (mk_thread NULL nm prio (thread_stack k + ss) KZ_THREAD_FLAG_READY
              func argc argv KZ_SYSCALL_TYPE_RUN NULL (thread_stack k + ss - 36)) ∧
    thread_stack k' = thread_stack k + ss ∧
    frame_at (ustack k') (thread_stack k + ss - 36) 9 =
      map Some (initial_frame L thp prio) ∧
    ready_inv (readyque k') (threads k')
      (alter (λ l, l ++ [thp]) (Z.to_nat prio)
         (alter (λ l, l ++ [c]) (Z.to_nat (priority tc)) qs)).
Proof.
  intros Hslots Hocc Hn Ht0 Hf Hnr0 Hnm Hprio Hinv Hcur Hcn Hct Hc Hnr Hpri.
  assert (Htq : thp ∉ concat qs).
  { apply ready_inv_lookup in Hinv as (_ & _ & _ & _ & Hfl & _).
    destruct (Hfl _ _ Ht0). tauto. }
  unfold thread_run. rewrite Hslots.
  erewrite bind_Ret; [| by eapply find_free_first]. ksimpl.
  erewrite bind_Ret; [| by eapply update_thread_ok]. ksimpl.
  unfold strcpy_name. rewrite decide_True by done.
  repeat (erewrite bind_Ret;
          [| eapply update_thread_ok; [done | ksimpl; apply lookup_insert_eq]];
          ksimpl; rewrite insert_insert_eq).
  step_with @get_ok.
  erewrite bind_Ret; [|apply put_ok]. ksimpl.
  erewrite bind_Ret; [|apply put_ok]. ksimpl.
  step_with @get_ok.
  erewrite bind_Ret;
    [| eapply update_thread_ok; [done | ksimpl; apply lookup_insert_eq]].
  ksimpl. rewrite insert_insert_eq.
  erewrite bind_Ret;
    [| eapply load_thread_ok; [done | ksimpl; apply lookup_insert_eq]].
  ksimpl. unfold push.
  repeat (erewrite bind_Ret;
          [| erewrite bind_Ret; [|apply put_ok]; apply ret_ok]; ksimpl).
  erewrite bind_Ret;
    [| eapply update_thread_ok; [done | ksimpl; apply lookup_insert_eq]].
  ksimpl. rewrite insert_insert_eq.
  replace (thread_stack k + ss - 4 - 4 - 4 - 4 - 4 - 4 - 4 - 4 - 4)
    with (thread_stack k + ss - 36) by lia.
  match goal with |- ∃ _, bind putcurrent _ ?K = _ ∧ _ =>
    destruct (putcurrent_attach K qs c tc)
      as (rq1 & ths1 & Hput & Hinv1 & _ & Hframe & _)
  end; ksimpl; try done.
  { apply ready_inv_update_detached; try done. unfold is_ready. simpl. tauto. }
  { by rewrite lookup_insert_ne. }
  rewrite (bind_Ret _ _ _ _ _ Hput).
  erewrite bind_Ret; [|apply put_ok].
  match goal with |- ∃ _, bind putcurrent _ ?K = _ ∧ _ =>
    destruct (putcurrent_attach K
                (alter (λ l, l ++ [c]) (Z.to_nat (priority tc)) qs) thp
                (mk_thread NULL nm prio (thread_stack k + ss) 0 func argc argv
                   KZ_SYSCALL_TYPE_RUN NULL (thread_stack k + ss - 36)))
      as (rq2 & ths2 & Hput2 & Hinv2 & Hthp & _)
  end; ksimpl; try done.
  { rewrite Hframe by done. apply lookup_insert_eq. }
  { unfold is_ready. simpl. tauto. }
  rewrite (bind_Ret _ _ _ _ _ Hput2).
  eexists. split; [reflexivity|]. ksimpl.
  split_and!; try done.
  unfold frame_at, initial_frame. simpl.
  generalize (Z.lor (thread_init_addr L)
                (Z.shiftl (if decide (prio ≠ 0) then 0 else 192) 24)).
  intros pcv. repeat f_equal.
  all: repeat (rewrite lookup_insert;
               match goal with
               | |- context [decide (?a = ?b)] => destruct (decide (a = b))
               end;
               [first [reflexivity | exfalso; lia] | try (exfalso; lia)]).
Qed.

(** X22. The handler [thread_run], entered as [syscall_proc] enters it,
    with the caller taken off its ready queue, searches the fixed TCB
    table for a free slot (a slot is free iff its init entry-function is
    null).  With no free slot it returns -1 at once and leaves the kernel
    state as it found it, the caller still detached; otherwise it primes
    the new thread's TCB and stack, attaches the caller and then the new
    thread to the ready queues of their priorities, and returns the new
    thread's id (its TCB address). *)
Theorem thread_run_searches_free_slot
    (k : kernel) (qs : list (list Z)) (func : Z) (nm : string)
    (prio ss argc argv : Z) (c : Z) (tc : kz_thread) :
  ready_inv (readyque k) (threads k) qs →
  current k = c → c ≠ NULL → threads k !! c = Some tc →
  ¬ is_ready tc → 0 ≤ priority tc < PRIORITY_NUM → init_func tc ≠ NULL →
  (String.length nm ≤ THREAD_NAME_SIZE)%nat →
  0 ≤ prio < PRIORITY_NUM →
  (Forall (occupied k) (tcb_slots L) →
   thread_run L func nm prio ss argc argv k = Ret (-1) k) ∧
  (∀ s1 thp s2 t0,
     tcb_slots L = s1 ++ thp :: s2 → Forall (occupied k) s1 →
     thp ≠ NULL → threads k !! thp = Some t0 → init_func t0 = NULL →
     ¬ is_ready t0 →
     ∃ k',
       thread_run L func nm prio ss argc argv k = Ret thp k' ∧
       threads k' !! thp =
         Some (mk_thread NULL nm prio (thread_stack k + ss) KZ_THREAD_FLAG_READY
                 func argc argv KZ_SYSCALL_TYPE_RUN NULL
                 (thread_stack k + ss - 36)) ∧
       thread_stack k' = thread_stack k + ss ∧
       frame_at (ustack k') (thread_stack k + ss - 36) 9 =
         map Some (initial_frame L thp prio) ∧
       ready_inv (readyque k') (threads k')
         (alter (λ l, l ++ [thp]) (Z.to_nat prio)
            (alter (λ l, l ++ [c]) (Z.to_nat (priority tc)) qs))).
Proof.
  intros Hinv Hcur Hcn Hc Hnr Hpri Hfc Hnm Hprio. split.
  - intros Hocc. unfold thread_run.
    by rewrite (bind_Ret _ _ _ _ _ (find_free_none _ _ Hocc)).
  - intros s1 thp s2 t0 Hslots Hocc Hn Ht0 Hf Hnr0.
    assert (Hct : c ≠ thp).
    { intros ->. rewrite Hc in Ht0. injection Ht0 as ->. done. }
    destruct (thread_run_spawn k qs func nm prio ss argc argv s1 thp s2 t0 c tc)
      as (k' & H1 & _ & H2 & H3 & H4 & H5); try done.
    exists k'. by split_and!.
Qed.

(** C4. A RUN request made when no slot of the TCB table is free stores
    -1 in the result slot, but the thread state is not what it was before
    the request: [syscall_proc] has taken the caller off its ready queue
    and [thread_run] returns before the [putcurrent] that re-attaches it.
    The caller is left not READY and in no ready queue, so the scheduler
    does not select it, and with no other ready thread the kernel goes
    down.  Every other handler that lets its caller go on re-attaches it,
    and so does [thread_run] once it has found a slot. *)
Theorem run_request_with_full_table_leaves_caller_detached
    (k : kernel) (qs : list (list Z)) (c : Z) (t : kz_thread) (l : list Z)
    (p func : Z) (nm : string) (prio ss argc argv r0 : Z) :
  ready_inv (readyque k) (threads k) qs →
  current k = c → c ≠ NULL → threads k !! c = Some t → is_ready t →
  qs !! Z.to_nat (priority t) = Some (c :: l) →
  p ≠ NULL → params k !! p = Some (un_run func nm prio ss argc argv r0) →
  Forall (occupied k) (tcb_slots L) →
  ∃ k' t',
    syscall_proc L KZ_SYSCALL_TYPE_RUN p k = Ret tt k' ∧
    params k' = <[p := un_run func nm prio ss argc argv (-1)]> (params k) ∧
    threads k' !! c = Some t' ∧ ¬ is_ready t' ∧
    ready_inv (readyque k') (threads k') (<[Z.to_nat (priority t) := l]> qs) ∧
    (c ∉ concat (<[Z.to_nat (priority t) := l]> qs)) ∧
    (∀ k'', schedule k' = Ret tt k'' → current k'' ≠ c) ∧
    (concat (<[Z.to_nat (priority t) := l]> qs) = [] →
     schedule k' =
       Down (with_console (console k' ++ ["system error!" +:+ newline]) k')).
Proof.
  intros Hinv Hcur Hn Ht Hr Hl Hp Hprm Hocc.
  destruct (getcurrent_detach k qs c t l) as (rq1 & Hget & Hinv1); try done.
  assert (Hocc1 : Forall
            (occupied
               (with_threads
                  (<[c := set_next NULL
                            (set_flags (Z.land (flags t) (Z.lnot KZ_THREAD_FLAG_READY)) t)]>
                     (threads k))
                  (with_readyque rq1 k)))
            (tcb_slots L)).
  { eapply Forall_impl; [exact Hocc|]. intros a Ha.
    eapply occupied_frame; [exact Ha|]. intros ta Hta. ksimpl.
    destruct (decide (a = c)) as [->|Hac].
    - rewrite lookup_insert_eq. eexists. split; [reflexivity|].
      rewrite Ht in Hta. by injection Hta as ->.
    - rewrite lookup_insert_ne by done. eauto. }
  assert (Hcq : c ∉ concat (<[Z.to_nat (priority t) := l]> qs)).
  { eapply ready_inv_not_linked; [exact Hinv1|apply lookup_insert_eq|].
    apply detached_not_ready. }
  eexists _, _. split.
  { unfold syscall_proc. rewrite (bind_Ret _ _ _ _ _ Hget).
    unfold call_functions. step_with load_param_ok.
    erewrite bind_Ret.
    2: { unfold thread_run.
         by rewrite (bind_Ret _ _ _ _ _ (find_free_none _ _ Hocc1)). }
    by apply store_ret_ok. }
  split; [done|]. split; [ksimpl; apply lookup_insert_eq|].
  split; [apply detached_not_ready|]. split; [done|]. split; [done|]. split.
  - intros k'' Hs. eapply schedule_skips_detached; [| |exact Hs]; ksimpl; done.
  - intros Hnil. eapply schedule_none; [|exact Hnil]. exact Hinv1.
Qed.

(** C9 (amended). In both RUN (when a slot is free) and WAKEUP the calling
    thread is appended to its ready queue first; the new thread, resp. a
    woken thread that was not READY, is appended to its own queue after
    it, so when caller and target share a priority the caller precedes
    the target at the tail of that FIFO queue.  A WAKEUP target that is
    already READY is not appended and keeps its place in its queue.  On
    return from the handler the current-thread pointer designates the new
    (resp. woken) thread, not the caller. *)
Theorem run_and_wakeup_append_caller_before_target
    (k : kernel) (qs : list (list Z)) (c : Z) (tc : kz_thread) :
  ready_inv (readyque k) (threads k) qs →
  current k = c → c ≠ NULL → threads k !! c = Some tc →
  ¬ is_ready tc → 0 ≤ priority tc < PRIORITY_NUM →
  (∀ func nm prio ss argc argv s1 thp s2 t0,
     tcb_slots L = s1 ++ thp :: s2 → Forall (occupied k) s1 →
     thp ≠ NULL → c ≠ thp → threads k !! thp = Some t0 →
     init_func t0 = NULL → ¬ is_ready t0 →
     (String.length nm ≤ THREAD_NAME_SIZE)%nat →
     0 ≤ prio < PRIORITY_NUM →
     ∃ k' qs',
       thread_run L func nm prio ss argc argv k = Ret thp k' ∧
       current k' = thp ∧
       ready_inv (readyque k') (threads k') qs' ∧
       qs' = alter (λ l, l ++ [thp]) (Z.to_nat prio)
               (alter (λ l, l ++ [c]) (Z.to_nat (priority tc)) qs) ∧
       (prio = priority tc → ∀ lq, qs !! Z.to_nat prio = Some lq →
        qs' !! Z.to_nat prio = Some (lq ++ [c; thp]))) ∧
  (∀ id tt,
     id ≠ NULL → id ≠ c → threads k !! id = Some tt → ¬ is_ready tt →
     0 ≤ priority tt < PRIORITY_NUM →
     ∃ k' qs',
       thread_wakeup id k = Ret 0 k' ∧
       current k' = id ∧
       ready_inv (readyque k') (threads k') qs' ∧
       qs' = alter (λ l, l ++ [id]) (Z.to_nat (priority tt))
               (alter (λ l, l ++ [c]) (Z.to_nat (priority tc)) qs) ∧
       (priority tt = priority tc → ∀ lq, qs !! Z.to_nat (priority tt) = Some lq →
        qs' !! Z.to_nat (priority tt) = Some (lq ++ [c; id]))) ∧
  (∀ id tt,
     id ≠ NULL → threads k !! id = Some tt → is_ready tt →
     ∃ k',
       thread_wakeup id k = Ret 0 k' ∧
       current k' = id ∧
       ready_inv (readyque k') (threads k')
         (alter (λ l, l ++ [c]) (Z.to_nat (priority tc)) qs)).
Proof.
  intros Hinv Hcur Hcn Hc Hnr Hpri. split_and!.
  - intros func nm prio ss argc argv s1 thp s2 t0 Hslots Hocc Hn Hct Ht0 Hf Hnr0
      Hnm Hprio.
    destruct (thread_run_spawn k qs func nm prio ss argc argv s1 thp s2 t0 c tc)
      as (k' & H1 & H2 & _ & _ & _ & H5); try done.
    eexists k', _. split_and!; try done.
    intros -> lq Hlq. by apply alter_snoc_twice.
  - intros id tt Hin Hic Ht Htnr Htpri.
    destruct (thread_wakeup_attach k qs c tc id tt) as (k' & H1 & H2 & H3); try done.
    eexists k', _. split_and!; try done.
    intros <- lq Hlq. by apply alter_snoc_twice.
  - intros id tt Hin Ht Htr.
    destruct (thread_wakeup_ready k qs c tc id tt) as (k' & H1 & H2 & H3); try done.
    by exists k'.
Qed.

End Run.

(** ** The mailbox invariant *)

Lemma keeps_bind {A B} (m : M A) (f : A → M B) :
  keeps_boxes m → (∀ a, keeps_boxes (f a)) → keeps_boxes (bind m f).
Proof.
  intros Hm Hf k b k' Hrun. unfold bind in Hrun.
  destruct (m k) as [a k1| |] eqn:Hmk; try done.
  rewrite (Hf _ _ _ _ Hrun). eauto.
Qed.

Lemma keeps_ret {A} (a : A) : keeps_boxes (ret a).
Proof. by intros k b k' [= _ <-]. Qed.

Lemma keeps_get {A} (f : kernel → A) : keeps_boxes (get f).
Proof. by intros k b k' [= _ <-]. Qed.

Lemma keeps_put f :
  (∀ k, msgboxes (f k) = msgboxes k) → keeps_boxes (put f).
Proof. intros Hf k b k' [= _ <-]. apply Hf. Qed.

Lemma keeps_fail {A} e : keeps_boxes (@fail A e).
Proof. by intros k b k'. Qed.

Lemma keeps_sysdown {A} : keeps_boxes (@kz_sysdown A).
Proof. by intros k b k'. Qed.

Lemma keeps_if {A} (P : Prop) `{Decision P} (m1 m2 : M A) :
  keeps_boxes m1 → keeps_boxes m2 → keeps_boxes (if decide P then m1 else m2).
Proof. by destruct (decide P). Qed.

Lemma keeps_load_thread p : keeps_boxes (load_thread p).
Proof.
  intros k a k'. unfold load_thread.
  destruct (decide (p = NULL)); [done|].
  destruct (threads k !! p); [|done]. by intros [= _ <-].
Qed.

Lemma keeps_load_que i : keeps_boxes (load_que i).
Proof.
  intros k a k'. unfold load_que.
  destruct (decide (0 ≤ i < PRIORITY_NUM)); [|done].
  destruct (readyque k !! Z.to_nat i); [|done]. by intros [= _ <-].
Qed.

Lemma keeps_load_msgbox i : keeps_boxes (load_msgbox i).
Proof.
  intros k a k'. unfold load_msgbox.
  destruct (decide (0 ≤ i)); [|done].
  destruct (msgboxes k !! Z.to_nat i); [|done]. by intros [= _ <-].
Qed.

Lemma keeps_load_msgbuf p : keeps_boxes (load_msgbuf p).
Proof.
  intros k a k'. unfold load_msgbuf.
  destruct (decide (p = NULL)); [done|].
  destruct (msgbufs k !! p); [|done]. by intros [= _ <-].
Qed.

Lemma keeps_load_param p : keeps_boxes (load_param p).
Proof.
  intros k a k'. unfold load_param.
  destruct (decide (p = NULL)); [done|].
  destruct (params k !! p); [|done]. by intros [= _ <-].
Qed.

Lemma keeps_store_umem a v : keeps_boxes (store_umem a v).
Proof.
  intros k u k'. unfold store_umem.
  destruct (decide (a = NULL)); [done|]. by intros [= _ <-].
Qed.

Lemma keeps_kzmem_alloc size : keeps_boxes (kzmem_alloc size).
Proof. intros k a k'. unfold kzmem_alloc. by intros [= _ <-]. Qed.

Lemma keeps_kzmem_free a : keeps_boxes (kzmem_free a).
Proof.
  intros k u k'. unfold kzmem_free.
  destruct (pool_free a (pool k)); [|done]. by intros [= _ <-].
Qed.

Create HintDb keeps.
#[export] Hint Resolve keeps_ret keeps_get keeps_fail : keeps.
#[export] Hint Resolve keeps_load_thread keeps_load_que keeps_load_msgbox
  keeps_load_msgbuf keeps_load_param keeps_store_umem keeps_kzmem_alloc
  keeps_kzmem_free : keeps.

(** Decomposes a goal [keeps_boxes m] along the structure of [m]. *)
Ltac keeps :=
  repeat first
    [ solve [ eauto with keeps ]
    | apply keeps_bind; [|intros ?]
    | apply keeps_if
    | apply keeps_put; intros ?; reflexivity
    | apply @keeps_sysdown
    | match goal with
      | |- keeps_boxes (match ?x with _ => _ end) => destruct x
      end ].

Lemma keeps_update_thread p f : keeps_boxes (update_thread p f).
Proof. unfold update_thread. keeps. Qed.

Lemma keeps_update_que i f : keeps_boxes (update_que i f).
Proof. unfold update_que. keeps. Qed.

Lemma keeps_update_msgbuf p f : keeps_boxes (update_msgbuf p f).
Proof. unfold update_msgbuf. keeps. Qed.

Lemma keeps_store_ret p r : keeps_boxes (store_ret p r).
Proof. unfold store_ret. keeps. Qed.

Lemma keeps_puts s : keeps_boxes (puts s).
Proof. unfold puts. keeps. Qed.

#[export] Hint Resolve keeps_update_thread keeps_update_que keeps_update_msgbuf
  keeps_store_ret keeps_puts : keeps.

Lemma keeps_getcurrent : keeps_boxes getcurrent.
Proof. unfold getcurrent. keeps. Qed.

Lemma keeps_putcurrent : keeps_boxes putcurrent.
Proof. unfold putcurrent. keeps. Qed.

#[export] Hint Resolve keeps_getcurrent keeps_putcurrent : keeps.

Lemma keeps_find_free slots : keeps_boxes (find_free slots).
Proof. induction slots; simpl; keeps. Qed.

Lemma keeps_schedule_scan n i : keeps_boxes (schedule_scan n i).
Proof. revert i. induction n; intros i; simpl; keeps. Qed.

#[export] Hint Resolve keeps_find_free keeps_schedule_scan : keeps.

Lemma keeps_schedule : keeps_boxes schedule.
Proof. unfold schedule. keeps. Qed.

Lemma keeps_dispatch : keeps_boxes dispatch.
Proof. unfold dispatch. keeps. Qed.

Lemma keeps_thread_exit : keeps_boxes thread_exit.
Proof. unfold thread_exit. keeps. Qed.

Lemma keeps_thread_wait : keeps_boxes thread_wait.
Proof. unfold thread_wait. keeps. Qed.

Lemma keeps_thread_sleep : keeps_boxes thread_sleep.
Proof. unfold thread_sleep. keeps. Qed.

Lemma keeps_thread_wakeup id : keeps_boxes (thread_wakeup id).
Proof. unfold thread_wakeup. keeps. Qed.

Lemma keeps_thread_getid : keeps_boxes thread_getid.
Proof. unfold thread_getid. keeps. Qed.

Lemma keeps_thread_chpri prio : keeps_boxes (thread_chpri prio).
Proof. unfold thread_chpri. keeps. Qed.

Lemma keeps_thread_kmalloc size : keeps_boxes (thread_kmalloc size).
Proof. unfold thread_kmalloc. keeps. Qed.

Lemma keeps_thread_kmfree p : keeps_boxes (thread_kmfree p).
Proof. unfold thread_kmfree. keeps. Qed.

Lemma keeps_thread_setintr type h : keeps_boxes (thread_setintr type h).
Proof.
  unfold thread_setintr. keeps.
  intros k0 u k0'. destruct (decide _); [|done]. by intros [= _ <-].
Qed.

Lemma keeps_thread_run L func nm prio ss argc argv :
  keeps_boxes (thread_run L func nm prio ss argc argv).
Proof. unfold thread_run, strcpy_name, push. keeps. Qed.

#[export] Hint Resolve keeps_schedule keeps_dispatch keeps_thread_exit
  keeps_thread_wait keeps_thread_sleep keeps_thread_wakeup keeps_thread_getid
  keeps_thread_chpri keeps_thread_kmalloc keeps_thread_kmfree
  keeps_thread_setintr keeps_thread_run : keeps.

Lemma bind_Ret_inv {A B} (m : M A) (f : A → M B) k b k' :
  bind m f k = Ret b k' → ∃ a k1, m k = Ret a k1 ∧ f a k1 = Ret b k'.
Proof.
  unfold bind. destruct (m k) as [a k1| |] eqn:Hm; try done. eauto.
Qed.

Lemma load_msgbox_Ret id k b k' :
  load_msgbox id k = Ret b k' →
  k' = k ∧ 0 ≤ id ∧ msgboxes k !! Z.to_nat id = Some b.
Proof.
  unfold load_msgbox. destruct (decide (0 ≤ id)); [|done].
  destruct (msgboxes k !! Z.to_nat id); [|done]. by intros [= <- <-].
Qed.

Lemma update_msgbox_Ret id f k u k' :
  update_msgbox id f k = Ret u k' →
  ∃ b, 0 ≤ id ∧ msgboxes k !! Z.to_nat id = Some b ∧
       msgboxes k' = <[Z.to_nat id := f b]> (msgboxes k).
Proof.
  unfold update_msgbox. intros (b & k1 & (-> & Hid & Hb)%load_msgbox_Ret & H)%bind_Ret_inv.
  injection H as _ <-. eauto.
Qed.

Lemma keeps_only_box {A} id (m : M A) : keeps_boxes m → only_box id m.
Proof. intros Hm k a k' H. by rewrite (Hm _ _ _ H). Qed.

Lemma post_box_only_box {A} id P (m : M A) : post_box id P m → only_box id m.
Proof.
  intros Hm k a k' H. destruct (Hm _ _ _ H) as (b' & Hlen & -> & _).
  split; [by rewrite length_insert|].
  intros j Hj. by rewrite list_lookup_insert_ne.
Qed.

Lemma only_box_bind {A B} id (m : M A) (f : A → M B) :
  only_box id m → (∀ a, only_box id (f a)) → only_box id (bind m f).
Proof.
  intros Hm Hf k b k' (a & k1 & H1 & H2)%bind_Ret_inv.
  destruct (Hm _ _ _ H1) as [Hl1 Hj1]. destruct (Hf _ _ _ _ H2) as [Hl2 Hj2].
  split; [congruence|]. intros j Hj. rewrite Hj2, Hj1 by done. done.
Qed.

Lemma only_box_if {A} id (P : Prop) `{Decision P} (m1 m2 : M A) :
  only_box id m1 → only_box id m2 → only_box id (if decide P then m1 else m2).
Proof. by destruct (decide P). Qed.

Lemma post_box_after {A B} id P (m : M A) (f : A → M B) :
  only_box id m → (∀ a, post_box id P (f a)) → post_box id P (bind m f).
Proof.
  intros Hm Hf k b k' (a & k1 & H1 & H2)%bind_Ret_inv.
  destruct (Hm _ _ _ H1) as [Hl1 Hj1].
  destruct (Hf _ _ _ _ H2) as (b' & Hlen & Hk' & HP).
  exists b'. split; [lia|]. split; [|done]. rewrite Hk'.
  apply list_eq. intros j. destruct (decide (j = Z.to_nat id)) as [->|Hj].
  - rewrite !list_lookup_insert_eq by lia. done.
  - rewrite !list_lookup_insert_ne by done. auto.
Qed.

Lemma post_box_before {A B} id P (m : M A) (f : A → M B) :
  post_box id P m → (∀ a, keeps_boxes (f a)) → post_box id P (bind m f).
Proof.
  intros Hm Hf k b k' (a & k1 & H1 & H2)%bind_Ret_inv.
  destruct (Hm _ _ _ H1) as (b' & Hlen & Hk1 & HP).
  exists b'. rewrite (Hf _ _ _ _ H2). done.
Qed.

Lemma post_box_update id (P : kz_msgbox → Prop) f :
  (∀ b, P (f b)) → post_box id P (update_msgbox id f).
Proof.
  intros HP k u k' (b & Hid & Hb & ->)%update_msgbox_Ret.
  exists (f b). split_and!; [by apply lookup_lt_Some in Hb|done|done].
Qed.

Lemma only_box_update id f : only_box id (update_msgbox id f).
Proof. eapply post_box_only_box, (post_box_update id (λ _, True)). done. Qed.

Lemma post_box_fail {A} id P e : post_box id P (@fail A e).
Proof. by intros k a k'. Qed.

Section BoxUpdates.
Variable L : layout.

Lemma sendmsg_box id thp size p :
  box_update id (λ b b', receiver b' = receiver b) (sendmsg L id thp size p).
Proof.
  intros k u k' H. unfold sendmsg in H.
  apply bind_Ret_inv in H as (mp & k1 & H1%keeps_kzmem_alloc & H).
  apply bind_Ret_inv in H as (? & k2 & H2 & H).
  destruct (decide (mp = NULL)); [done|]. injection H2 as _ <-.
  apply bind_Ret_inv in H as (? & k3 & H3 & H). injection H3 as _ <-.
  apply bind_Ret_inv in H as (b & k4 & (-> & Hid & Hb)%load_msgbox_Ret & H).
  ksimpl. rewrite H1 in Hb.
  assert (Hlen : (Z.to_nat id < length (msgboxes k))%nat)
    by (by apply lookup_lt_Some in Hb).
  apply bind_Ret_inv in H as (? & k5 & H5 & H).
  apply update_msgbox_Ret in H as (b5 & _ & Hb5 & ->).
  exists b. destruct (decide (mtail b ≠ NULL)).
  - apply keeps_update_msgbuf in H5. ksimpl. rewrite H5, H1 in *.
    rewrite Hb in Hb5. injection Hb5 as <-.
    exists (set_mtail mp b). by split_and!.
  - apply update_msgbox_Ret in H5 as (b4 & _ & Hb4 & H5). ksimpl.
    rewrite H1 in *. rewrite Hb in Hb4. injection Hb4 as <-.
    rewrite H5 in *. rewrite list_lookup_insert_eq in Hb5 by done.
    injection Hb5 as <-. rewrite list_insert_insert_eq.
    exists (set_mtail mp (set_mhead mp b)). by split_and!.
Qed.

Lemma recvmsg_box id : post_box id (λ b', receiver b' = NULL) (recvmsg id).
Proof.
  unfold recvmsg.
  repeat (apply post_box_after;
          [ first [ apply keeps_only_box; solve [eauto with keeps]
                  | apply only_box_update
                  | apply only_box_if;
                    [apply only_box_update | apply keeps_only_box, keeps_ret] ]
          | intros ? ]).
  match goal with |- post_box _ _ (match ?x with _ => _ end) => destruct x end;
    try apply post_box_fail.
  do 4 (apply post_box_after;
        [ apply keeps_only_box; keeps | intros ? ]).
  apply post_box_before; [|intros; keeps].
  by apply post_box_update.
Qed.

Lemma thread_send_box id size p :
  post_box id (λ b', receiver b' = NULL) (thread_send L id size p).
Proof.
  intros k r k' H. unfold thread_send in H.
  apply bind_Ret_inv in H as (? & k1 & H1%keeps_putcurrent & H).
  apply bind_Ret_inv in H as (cur & k2 & H2 & H). injection H2 as _ <-.
  apply bind_Ret_inv in H as (? & k3 & H3 & H).
  apply sendmsg_box in H3 as (b & b3 & Hid & Hb & Hk3 & Hrcv).
  rewrite H1 in Hb, Hk3.
  assert (Hlen : (Z.to_nat id < length (msgboxes k))%nat)
    by (by apply lookup_lt_Some in Hb).
  apply bind_Ret_inv in H as (b4 & k4 & (-> & _ & Hb4)%load_msgbox_Ret & H).
  rewrite Hk3, list_lookup_insert_eq in Hb4 by done. injection Hb4 as <-.
  apply bind_Ret_inv in H as (? & k5 & H5 & H). injection H as _ <-.
  destruct (decide (receiver b3 ≠ NULL)) as [Hr|Hr].
  - apply bind_Ret_inv in H5 as (? & k6 & H6 & H5). injection H6 as _ <-.
    apply bind_Ret_inv in H5 as (? & k7 & H7 & H5).
    apply recvmsg_box in H7 as (b7 & _ & Hk7 & Hrcv7). ksimpl.
    apply bind_Ret_inv in H5 as (? & k8 & H8%keeps_putcurrent & H5).
    injection H5 as _ <-.
    exists b7. rewrite H8, Hk7, Hk3, list_insert_insert_eq. done.
  - injection H5 as _ <-. exists b3. split_and!; try done.
    destruct (decide (receiver b3 = NULL)); tauto.
Qed.

Lemma thread_recv_box id sizep pp :
  post_box id (λ b', receiver b' = NULL ∨ mhead b' = NULL) (thread_recv id sizep pp).
Proof.
  intros k r k' H. unfold thread_recv in H.
  apply bind_Ret_inv in H as (b0 & k1 & (-> & Hid & Hb0)%load_msgbox_Ret & H).
  assert (Hlen : (Z.to_nat id < length (msgboxes k))%nat)
    by (by apply lookup_lt_Some in Hb0).
  apply bind_Ret_inv in H as (? & k2 & H2 & H).
  destruct (decide (receiver b0 ≠ NULL)); [done|]. injection H2 as _ <-.
  apply bind_Ret_inv in H as (cur & k3 & H3 & H). injection H3 as _ <-.
  apply bind_Ret_inv in H as (? & k4 & (b4 & _ & Hb4 & Hk4)%update_msgbox_Ret & H).
  rewrite Hb0 in Hb4. injection Hb4 as <-.
  apply bind_Ret_inv in H as (b5 & k5 & (-> & _ & Hb5)%load_msgbox_Ret & H).
  rewrite Hk4, list_lookup_insert_eq in Hb5 by done. injection Hb5 as <-.
  destruct (decide (mhead (set_receiver cur b0) = NULL)) as [Hh|Hh].
  - injection H as _ <-. exists (set_receiver cur b0). by split_and!; [| |right].
  - apply bind_Ret_inv in H as (? & k6 & H6 & H).
    apply recvmsg_box in H6 as (b6 & _ & Hk6 & Hrcv6).
    assert (Hkeep : keeps_boxes
              (do _ <- putcurrent;
               do cur0 <- get current;
               do t <- load_thread cur0;
               do a <- load_param (syscall_param t);
               match a with
               | un_recv _ _ _ r0 => ret r0
               | _ => fail BadUnion
               end)) by keeps.
    rewrite (Hkeep _ _ _ H), Hk6, Hk4, list_insert_insert_eq.
    exists b6. by split_and!; [| |left].
Qed.

End BoxUpdates.

Lemma preserves_bind {A B} (m : M A) (f : A → M B) :
  preserves m → (∀ a, preserves (f a)) → preserves (bind m f).
Proof.
  intros Hm Hf k b k' Hinv (a & k1 & H1 & H2)%bind_Ret_inv.
  eapply Hf; [|exact H2]. eapply Hm; eauto.
Qed.

Lemma keeps_preserves {A} (m : M A) : keeps_boxes m → preserves m.
Proof. intros Hm k a k' Hinv H. unfold mailbox_inv. by rewrite (Hm _ _ _ H). Qed.

Lemma post_box_preserves {A} id (m : M A) :
  post_box id (λ b', receiver b' = NULL ∨ mhead b' = NULL) m → preserves m.
Proof.
  intros Hm k a k' Hinv H. destruct (Hm _ _ _ H) as (b' & Hlen & Hk' & HP).
  unfold mailbox_inv. rewrite Hk'. apply Forall_insert; [done|]. tauto.
Qed.

Section Requests.
Variable L : layout.

Lemma preserves_call_functions type p : preserves (call_functions L type p).
Proof.
  unfold call_functions. destruct type.
  all: try solve [apply keeps_preserves; keeps].
  - (* SEND *)
    apply preserves_bind; [apply keeps_preserves; keeps|]. intros a.
    destruct a; try solve [apply keeps_preserves; keeps].
    apply preserves_bind; [|intros; apply keeps_preserves; keeps].
    eapply post_box_preserves. intros k r k' H.
    destruct (thread_send_box L _ _ _ _ _ _ H) as (b' & ? & ? & ?). eauto.
  - (* RECV *)
    apply preserves_bind; [apply keeps_preserves; keeps|]. intros a.
    destruct a; try solve [apply keeps_preserves; keeps].
    apply preserves_bind; [|intros; apply keeps_preserves; keeps].
    eapply post_box_preserves, thread_recv_box.
Qed.

Lemma preserves_run_handler h : preserves (run_handler L h).
Proof.
  destruct h as [| | |calls]; simpl.
  - apply keeps_preserves; keeps.
  - unfold syscall_intr, syscall_proc.
    repeat (apply preserves_bind; [apply keeps_preserves; keeps | intros ?]).
    apply preserves_call_functions.
  - apply keeps_preserves. unfold softerr_intr. keeps.
  - induction calls as [|[ty p] calls IH]; simpl.
    + apply keeps_preserves; keeps.
    + apply preserves_bind; [|intros; exact IH].
      unfold kz_srvcall, srvcall_proc.
      apply preserves_bind; [apply keeps_preserves; keeps | intros ?].
      apply preserves_call_functions.
Qed.

Lemma preserves_thread_intr type sp : preserves (thread_intr L type sp).
Proof.
  unfold thread_intr.
  apply preserves_bind; [apply keeps_preserves; keeps | intros ?].
  apply preserves_bind; [apply keeps_preserves; keeps | intros ?].
  apply preserves_bind.
  { apply keeps_preserves. intros k0 h k0'. destruct (decide _); [|done].
    destruct (handlers k0 !! _); [|done]. by intros [= _ <-]. }
  intros h.
  apply preserves_bind; [apply preserves_run_handler | intros ?].
  apply keeps_preserves; keeps.
Qed.

Lemma preserves_serve r : preserves (serve L r).
Proof.
  destruct r; simpl; [|apply preserves_thread_intr].
  unfold kz_syscall.
  apply preserves_bind; [apply keeps_preserves; keeps | intros ?].
  apply preserves_bind; [apply keeps_preserves; keeps | intros ?].
  apply preserves_thread_intr.
Qed.

Lemma preserves_serve_all rs : preserves (serve_all L rs).
Proof.
  induction rs as [|r rs IH]; simpl.
  - apply keeps_preserves; keeps.
  - apply preserves_bind; [apply preserves_serve | intros; exact IH].
Qed.

Lemma kz_start_mailbox_inv func nm prio ss argc argv k0 sp k :
  kz_start L func nm prio ss argc argv k0 = Ret sp k → mailbox_inv k.
Proof.
  unfold kz_start. intros H.
  do 5 (apply bind_Ret_inv in H as (? & ? & _ & H)).
  apply bind_Ret_inv in H as (? & k6 & H6 & H). injection H6 as _ <-.
  assert (Hkeep : keeps_boxes
            (do _ <- thread_setintr (SOFTVEC_TYPE_SYSCALL L) H_syscall_intr;
             do _ <- thread_setintr (SOFTVEC_TYPE_SOFTERR L) H_softerr_intr;
             do r <- thread_run L func nm prio ss argc argv;
             do _ <- put (with_current r);
             dispatch)) by keeps.
  unfold mailbox_inv. rewrite (Hkeep _ _ _ H). ksimpl.
  apply Forall_replicate. simpl. tauto.
Qed.

(** C5. For every mailbox and every sequence of valid requests,
    immediately after any request returns it is never the case that the
    mailbox simultaneously has a non-null pending receiver and a non-empty
    message FIFO. *)
Theorem mailbox_never_has_receiver_and_messages
    (func : Z) (nm : string) (prio ss argc argv : Z) (k0 : kernel) (sp : Z)
    (k : kernel) (rs : list request) (k' : kernel) (id : nat) (b : kz_msgbox) :
  kz_start L func nm prio ss argc argv k0 = Ret sp k →
  serve_all L rs k = Ret tt k' →
  msgboxes k' !! id = Some b →
  ¬ (receiver b ≠ NULL ∧ mhead b ≠ NULL).
Proof.
  intros Hstart Hrun Hb.
  assert (Hinv : mailbox_inv k').
  { eapply preserves_serve_all; [|exact Hrun].
    eapply kz_start_mailbox_inv, Hstart. }
  unfold mailbox_inv in Hinv. rewrite Forall_lookup in Hinv. eauto.
Qed.

End Requests.

(** ** The scenario, step by step *)

(** Closed side conditions are decided by evaluation. *)
Ltac kcompute :=
  first [ apply (bool_decide_unpack _); vm_compute; exact I
        | vm_compute; reflexivity
        | vm_compute; lia ].

(** The scheduler on the scenario after the three requests of the idle
    thread. *)
Lemma schedule_selects_first_nonempty_witness :
  length (readyque ex_two) = Z.to_nat PRIORITY_NUM ∧
  ((∃ i q, readyque ex_two !! i = Some q ∧ head q ≠ NULL ∧
           (∀ j q', (j < i)%nat → readyque ex_two !! j = Some q' → head q' = NULL) ∧
           schedule ex_two = Ret tt (with_current (head q) ex_two))
   ∨ ((∀ j q', readyque ex_two !! j = Some q' → head q' = NULL) ∧
      schedule ex_two =
        Down (with_console (console ex_two ++ ["system error!" +:+ newline]) ex_two))).
Proof.
  split; [kcompute|]. apply (schedule_selects_first_nonempty ex_two). kcompute.
Defined.

(** The idle thread, detached, is attached once and left alone the second
    time. *)
Lemma putcurrent_idempotent_witness :
  ¬ is_ready (tcb ex_idle 0x1000) ∧
  ∃ k', putcurrent ex_idle = Ret 0 k' ∧
        ready_inv (readyque k') (threads k')
          (alter (λ l, l ++ [0x1000]) 0%nat no_queues) ∧
        putcurrent k' = Ret 1 k'.
Proof.
  split; [kcompute|].
  destruct (putcurrent_idempotent ex_idle no_queues (tcb ex_idle 0x1000))
    as [_ H]; [kcompute..|].
  destruct H as (k' & H1 & H2 & _ & _ & H3); [kcompute|].
  exists k'. split_and!; [exact H1|exact H2|exact H3].
Defined.

(** The idle thread moves from priority 0 to priority 15. *)
Lemma thread_chpri_returns_old_and_reattaches_witness :
  ∃ k' t',
    thread_chpri 15 ex_idle = Ret 0 k' ∧
    threads k' !! 0x1000 = Some t' ∧ priority t' = 15 ∧ is_ready t' ∧
    ready_inv (readyque k') (threads k') idle_queue.
Proof.
  destruct (thread_chpri_returns_old_and_reattaches
              ex_idle no_queues (tcb ex_idle 0x1000) 15)
    as (k' & t' & H1 & H2 & H3 & _ & H4 & H5); [kcompute..|].
  exists k', t'. rewrite (H3 ltac:(lia)) in H5.
  split_and!; [exact H1|exact H2|apply H3; lia|exact H4|exact H5].
Defined.

(** The idle thread asks for priority 16: the priority is stored and the
    queue access is out of bounds. *)
Lemma thread_chpri_unchecked_upper_bound_witness :
  thread_chpri 16 ex_idle =
    Fault OutOfBounds
      (with_threads (<[0x1000 := set_priority 16 (tcb ex_idle 0x1000)]> (threads ex_idle))
         ex_idle).
Proof.
  destruct (thread_chpri_unchecked_upper_bound
              ex_idle no_queues (tcb ex_idle 0x1000) 16)
    as [_ H]; [kcompute..|].
  apply H. kcompute.
Defined.

(** The idle thread creates the thread "recv" in the second slot. *)
Lemma thread_run_searches_free_slot_witness :
  ∃ k',
    thread_run L0 0x600 "recv" 1 0x100 0 0 ex_idle = Ret 0x1040 k' ∧
    threads k' !! 0x1040 =
      Some (mk_thread NULL "recv" 1 0x8200 KZ_THREAD_FLAG_READY 0x600 0 0
              KZ_SYSCALL_TYPE_RUN NULL 0x81dc) ∧
    frame_at (ustack k') 0x81dc 9 = map Some (initial_frame L0 0x1040 1) ∧
    ready_inv (readyque k') (threads k')
      ([[0x1000]; [0x1040]] ++ replicate 14 []).
Proof.
  destruct (thread_run_searches_free_slot L0 ex_idle no_queues 0x600 "recv"
              1 0x100 0 0 0x1000 (tcb ex_idle 0x1000))
    as [_ H]; [kcompute..|].
  destruct (H [0x1000] 0x1040 [0x1080; 0x10c0; 0x1100; 0x1140] (tcb ex_idle 0x1040))
    as (k' & H1 & H2 & _ & H4 & H5); [kcompute..|].
  exists k'. split_and!; [exact H1|exact H2|exact H4|exact H5].
Defined.

(** The idle thread, the only thread of priority 0, asks for a sixth
    thread while all six slots are in use: the request stores -1 and
    leaves the idle thread in no ready queue.  When the five threads it
    created have ended, the kernel goes down, the slot of the idle thread
    still in use. *)
Lemma run_request_with_full_table_leaves_caller_detached_witness :
  (Forall (occupied ex_six) (tcb_slots L0) ∧ is_ready (tcb ex_six 0x1000)) ∧
  (∃ k' t',
     syscall_proc L0 KZ_SYSCALL_TYPE_RUN 0x9000 ex_six = Ret tt k' ∧
     params k' !! 0x9000 = Some (un_run 0x600 "recv" 1 0x100 0 0 (-1)) ∧
     threads k' !! 0x1000 = Some t' ∧ ¬ is_ready t' ∧
     ready_inv (readyque k') (threads k')
       ([[]; [0x1040; 0x1080; 0x10c0; 0x1100; 0x1140]] ++ replicate 14 [])) ∧
  (∃ k, serve_all L0 ex_run_full ex_six = Down k ∧
        ¬ is_ready (tcb k 0x1000) ∧ init_func (tcb k 0x1000) = 0x500).
Proof.
  split; [split; kcompute|]. split.
  - destruct (run_request_with_full_table_leaves_caller_detached L0 ex_six
                ([[0x1000]; [0x1040; 0x1080; 0x10c0; 0x1100; 0x1140]]
                   ++ replicate 14 [])
                0x1000 (tcb ex_six 0x1000) [] 0x9000 0x600 "recv" 1 0x100 0 0 0x1140)
      as (k' & t' & H1 & H2 & H3 & H4 & H5 & _); [kcompute..|].
    exists k', t'. split_and!; [exact H1| |exact H3|exact H4|exact H5].
    rewrite H2. apply lookup_insert_eq.
  - exists (state_of (serve_all L0 ex_run_full ex_six)). split_and!; kcompute.
Defined.

(** Thread 0x1080 wakes the sleeping thread 0x1040 up. *)
Lemma run_and_wakeup_append_caller_before_target_witness :
  ∃ k',
    thread_wakeup 0x1040 ex_wakeup = Ret 0 k' ∧ current k' = 0x1040 ∧
    ready_inv (readyque k') (threads k')
      ([[]; [0x1080; 0x1040]] ++ replicate 13 [] ++ [[0x1000]]).
Proof.
  destruct (run_and_wakeup_append_caller_before_target L0 ex_wakeup
              ([[]; []] ++ replicate 13 [] ++ [[0x1000]]) 0x1080 (tcb ex_wakeup 0x1080))
    as (_ & H & _); [kcompute..|].
  destruct (H 0x1040 (tcb ex_wakeup 0x1040)) as (k' & qs' & H1 & H2 & H3 & -> & _);
    [kcompute..|].
  exists k'. split_and!; [exact H1|exact H2|exact H3].
Defined.

(** C9 as stated fails when the WAKEUP target is already READY: thread
    0x1040 runs at priority 1 with thread 0x1080 queued behind it at the
    same priority and wakes it up; afterwards the target 0x1080 precedes
    the caller 0x1040 in the queue of priority 1. *)
Lemma wakeup_of_ready_target_leaves_it_ahead_of_caller :
  current ex_wakeup_ready = 0x1040 ∧
  priority (tcb ex_wakeup_ready 0x1040) = priority (tcb ex_wakeup_ready 0x1080) ∧
  ∃ k',
    thread_wakeup 0x1080 ex_wakeup_ready = Ret 0 k' ∧ current k' = 0x1080 ∧
    ready_inv (readyque k') (threads k')
      ([[]; [0x1080; 0x1040]] ++ replicate 13 [] ++ [[0x1000]]).
Proof.
  split; [kcompute|]. split; [kcompute|].
  exists (state_of (thread_wakeup 0x1080 ex_wakeup_ready)). split_and!; kcompute.
Qed.

(** Thread 0x1040 sends to mailbox 0, on which thread 0x1080 is parked. *)
Lemma thread_send_appends_then_delivers_witness :
  receiver (mbox ex_send 0) = 0x1080 ∧
  ∃ k' b',
    thread_send L0 0 15 0x9200 ex_send = Ret 15 k' ∧
    msgboxes k' !! 0%nat = Some b' ∧ receiver b' = NULL ∧
    msgbox_rep (msgbufs k') b' [] ∧
    params k' !! 0x9040 = Some (un_recv 0 0x9100 0x9104 0x1040) ∧
    umem k' = deliver_umem 0x9100 0x9104 (mk_msgbuf NULL 0x1040 15 0x9200)
                (umem ex_send) ∧
    ready_inv (readyque k') (threads k')
      ([[]; [0x1040; 0x1080]] ++ replicate 13 [] ++ [[0x1000]]).
Proof.
  split; [kcompute|].
  destruct (thread_send_appends_then_delivers L0 ex_send
              ([[]; []] ++ replicate 13 [] ++ [[0x1000]]) 0 15 0x9200
              (mbox ex_send 0) [] 0x1040 (tcb ex_send 0x1040)
              (pool_alloc 16 (pool ex_send)).1 (pool_alloc 16 (pool ex_send)).2)
    as (_ & _ & H); [kcompute..|].
  destruct (H ltac:(kcompute) ltac:(kcompute)
              (tcb ex_send 0x1080) 0 0x9100 0x9104 (-1))
    as (k' & mh & b' & H1 & -> & H3 & H4 & H5 & _ & H7 & H8 & H9); [kcompute..|].
  exists k', b'. split_and!;
    [exact H1|exact H3|exact H4|exact H5|exact H7|exact H8|exact H9].
Defined.

(** C2 as stated fails when the pool is exhausted: SEND does not return and
    appends nothing. *)
Lemma send_with_exhausted_pool_enters_sysdown :
  pool_alloc (sizeof_kz_msgbuf L0) (pool ex_full) = (NULL, pool ex_full) ∧
  ∃ k', thread_send L0 0 15 0x9200 ex_full = Down k' ∧
        msgboxes k' = msgboxes ex_full ∧ msgbufs k' = msgbufs ex_full ∧
        console k' = console ex_full ++ ["system error!" +:+ newline].
Proof.
  split; [kcompute|].
  exists (state_of (thread_send L0 0 15 0x9200 ex_full)). split_and!; kcompute.
Qed.



(** Mailbox 0 after the whole scenario. *)
Lemma mailbox_never_has_receiver_and_messages_witness :
  serve_all L0 ex_requests ex_started =
    Ret tt (state_of (serve_all L0 ex_requests ex_started)) ∧
  ¬ (receiver (mbox (state_of (serve_all L0 ex_requests ex_started)) 0) ≠ NULL ∧
     mhead (mbox (state_of (serve_all L0 ex_requests ex_started)) 0) ≠ NULL).
Proof.
  split; [kcompute|].
  apply (mailbox_never_has_receiver_and_messages L0 0x500 "idle" 0 0x100 0 0
           ex_boot 0x80dc ex_started ex_requests
           (state_of (serve_all L0 ex_requests ex_started)) 0%nat); kcompute.
Defined.

(** * Further properties of the kernel *)

(** ** Further facts about the ready queues *)

Lemma ready_inv_update_frame rq ths qs a t t' :
  ready_inv rq ths qs → ths !! a = Some t →
  next t' = next t → flags t' = flags t → priority t' = priority t →
  ready_inv rq (<[a := t']> ths) qs.
Proof.
  intros (Hlen & Hlen' & Hq & Hnd & Hfl & Hpri)%ready_inv_lookup Ha Hn Hf Hp.
  apply ready_inv_lookup. split_and!; try done.
  - intros i q l Hi Hl. destruct (Hq _ _ _ Hi Hl) as (H1 & H2 & H3 & H4).
    split_and!; try done. eapply lseg_ext; [|exact H3].
    intros y Hy. destruct (decide (a = y)) as [->|Hne].
    + by rewrite lookup_insert_eq, Ha; simpl; rewrite Hn.
    + by rewrite lookup_insert_ne.
  - intros b tb. destruct (decide (a = b)) as [->|Hne].
    + rewrite lookup_insert_eq. intros [= <-].
      destruct (Hfl _ _ Ha) as [H1 H2]. unfold is_ready in *.
      rewrite Hf, Hn. done.
    + rewrite lookup_insert_ne by done. apply Hfl.
  - intros i l b Hl Hb. destruct (decide (a = b)) as [->|Hne].
    + rewrite lookup_insert_eq. simpl. rewrite Hp.
      specialize (Hpri _ _ _ Hl Hb). by rewrite Ha in Hpri.
    + rewrite lookup_insert_ne by done. eauto.
Qed.

(** The scheduler on the abstract queues: the first thread of the first
    non-empty queue is selected. *)
Lemma schedule_first k qs i a l :
  ready_inv (readyque k) (threads k) qs →
  qs !! i = Some (a :: l) → (∀ j, (j < i)%nat → qs !! j = Some []) →
  schedule k = Ret tt (with_current a k).
Proof.
  intros (Hlen & Hlen' & Hq & _)%ready_inv_lookup Hi Hlow.
  assert (Hil : (i < Z.to_nat PRIORITY_NUM)%nat).
  { apply lookup_lt_Some in Hi. lia. }
  destruct (lookup_lt_is_Some_2 (readyque k) i) as [qi Hqi]; [lia|].
  destruct (Hq _ _ _ Hqi Hi) as (Hhd & _ & Hseg & _). simpl in Hhd, Hseg.
  destruct (schedule_scan_spec (Z.to_nat PRIORITY_NUM) 0 k)
    as (r & Hr & Hrange & Hbelow & Hat); [lia|done|done|].
  assert (Hri : r = Z.of_nat i).
  { destruct (Z.lt_trichotomy r (Z.of_nat i)) as [Hlt|[Heq|Hgt]]; [|done|].
    - destruct Hat as (q & Hq' & Hh); [lia|].
      specialize (Hlow (Z.to_nat r) ltac:(lia)).
      destruct (Hq _ _ _ Hq' Hlow) as (Hhd' & _). simpl in Hhd'. done.
    - specialize (Hbelow (Z.of_nat i) qi ltac:(lia)).
      rewrite Nat2Z.id in Hbelow. specialize (Hbelow Hqi).
      rewrite Hhd in Hbelow. tauto. }
  subst r. unfold schedule. rewrite (bind_Ret _ _ _ _ _ Hr).
  rewrite decide_False by lia.
  erewrite bind_Ret; [|apply ret_ok].
  erewrite bind_Ret; [|eapply load_que_ok; [lia|by rewrite Nat2Z.id]].
  by rewrite put_ok, Hhd.
Qed.

(** X1. The scheduler never selects a thread that is not READY: when the
    ready queues are well formed and [schedule] returns, only the
    current-thread pointer has changed, the selected thread is linked in a
    ready queue with its READY flag set, and no linked thread has a
    smaller priority number than the selected one. *)
Theorem schedule_selects_ready_thread_of_top_priority
    (k k' : kernel) (qs : list (list Z)) :
  ready_inv (readyque k) (threads k) qs →
  schedule k = Ret tt k' →
  k' = with_current (current k') k ∧
  current k' ∈ concat qs ∧
  ∃ t, threads k !! current k' = Some t ∧ is_ready t ∧
       ∀ a ta, a ∈ concat qs → threads k !! a = Some ta →
               priority t ≤ priority ta.
Proof.
  intros Hinv Hrun.
  pose proof Hinv as (Hlen & Hlen' & Hq & Hnd & Hfl & Hpri)%ready_inv_lookup.
  destruct (schedule_scan_spec (Z.to_nat PRIORITY_NUM) 0 k)
    as (r & Hr & Hrange & Hbelow & Hat); [lia|done|done|].
  unfold schedule in Hrun. rewrite (bind_Ret _ _ _ _ _ Hr) in Hrun.
  destruct (decide (r = PRIORITY_NUM)) as [->|Hne]; [done|].
  destruct Hat as (q & Hq' & Hh); [lia|].
  erewrite bind_Ret in Hrun; [|apply ret_ok].
  erewrite bind_Ret in Hrun; [|eapply load_que_ok; [lia|done]].
  rewrite put_ok in Hrun. injection Hrun as <-. ksimpl.
  destruct (lookup_lt_is_Some_2 qs (Z.to_nat r)) as [l Hl]; [lia|].
  destruct (Hq _ _ _ Hq' Hl) as (Hhd & _ & Hseg & _).
  destruct l as [|x l]; [done|]. simpl in Hhd. rewrite Hhd.
  assert (Hx : x ∈ concat qs).
  { apply elem_of_concat. exists (Z.to_nat r), (x :: l). split; [done|left]. }
  split; [done|]. split; [done|].
  destruct (lseg_is_Some _ _ _ _ x Hseg) as [t Ht]; [left|].
  exists t. split; [done|]. split; [by apply (Hfl _ _ Ht)|].
  intros a ta [j [la [Hj Ha]]]%elem_of_concat Hta.
  pose proof (Hpri _ _ _ Hl ltac:(left)) as Hpx. rewrite Ht in Hpx.
  pose proof (Hpri _ _ _ Hj Ha) as Hpa. rewrite Hta in Hpa.
  injection Hpx as Hpx. injection Hpa as Hpa. rewrite Hpx, Hpa.
  destruct (decide (j < Z.to_nat r)%nat) as [Hlt|]; [|lia].
  destruct (lookup_lt_is_Some_2 (readyque k) j) as [qj Hqj]; [lia|].
  specialize (Hbelow (Z.of_nat j) qj ltac:(lia)).
  rewrite Nat2Z.id in Hbelow. specialize (Hbelow Hqj).
  destruct (Hq _ _ _ Hqj Hj) as (Hhdj & _ & Hsegj & _).
  destruct la as [|y la]; [by apply elem_of_nil in Ha|].
  simpl in Hhdj, Hsegj. destruct Hsegj as [Hy _]. congruence.
Qed.

(** X2. [getcurrent] takes the running thread off the head of its ready
    queue: with well-formed queues and the current thread READY and first
    in the queue of its priority, the call returns 0, the thread is
    unlinked with its READY flag clear and a null [next], the rest of that
    queue keeps its order and the other queues are untouched.  For a
    current thread that is not READY the call returns 1 and changes
    nothing. *)
Theorem getcurrent_unlinks_head_of_queue
    (k : kernel) (qs : list (list Z)) (t : kz_thread) :
  ready_inv (readyque k) (threads k) qs →
  current k ≠ NULL → threads k !! current k = Some t →
  (¬ is_ready t → getcurrent k = Ret 1 k) ∧
  (is_ready t → ∀ l, qs !! Z.to_nat (priority t) = Some (current k :: l) →
   ∃ k' t',
     getcurrent k = Ret 0 k' ∧ current k' = current k ∧
     threads k' !! current k = Some t' ∧ ¬ is_ready t' ∧ next t' = NULL ∧
     priority t' = priority t ∧
     (∀ a, a ≠ current k → threads k' !! a = threads k !! a) ∧
     ready_inv (readyque k') (threads k') (<[Z.to_nat (priority t) := l]> qs)).
Proof.
  intros Hinv Hn Ht. split.
  - intros Hr. by apply (getcurrent_detached k t).
  - intros Hr l Hl.
    destruct (getcurrent_detach k qs (current k) t l) as (rq' & Hrun & Hinv');
      try done.
    eexists _, _. split; [exact Hrun|]. ksimpl.
    split; [done|]. split; [apply lookup_insert_eq|]. ksimpl.
    split_and!; try done.
    + unfold is_ready. ksimpl. rewrite land_ready_clear. tauto.
    + intros a Ha. by rewrite lookup_insert_ne.
Qed.

(** ** System calls of the running thread *)

Lemma zero_thread_not_ready : ¬ is_ready zero_thread.
Proof. unfold is_ready, zero_thread, KZ_THREAD_FLAG_READY. simpl. tauto. Qed.

Lemma ready_inv_linked_range rq ths qs i l a t :
  ready_inv rq ths qs → qs !! i = Some l → a ∈ l → ths !! a = Some t →
  priority t = Z.of_nat i ∧ 0 ≤ priority t < PRIORITY_NUM.
Proof.
  intros (Hlen & _ & _ & _ & _ & Hpri)%ready_inv_lookup Hl Ha Ht.
  specialize (Hpri _ _ _ Hl Ha). rewrite Ht in Hpri. injection Hpri as Hp.
  apply lookup_lt_Some in Hl. lia.
Qed.

(** [getcurrent] followed by [putcurrent]: the running thread goes from
    the head of its queue to the tail. *)
Lemma getcurrent_putcurrent k qs c t l :
  ready_inv (readyque k) (threads k) qs →
  current k = c → c ≠ NULL → threads k !! c = Some t → is_ready t →
  qs !! Z.to_nat (priority t) = Some (c :: l) →
  ∃ rq1 rq2 ths2,
    getcurrent k =
      Ret 0 (with_threads
               (<[c := set_next NULL
                         (set_flags (Z.land (flags t) (Z.lnot KZ_THREAD_FLAG_READY)) t)]>
                  (threads k))
               (with_readyque rq1 k)) ∧
    ready_inv rq1
      (<[c := set_next NULL
                (set_flags (Z.land (flags t) (Z.lnot KZ_THREAD_FLAG_READY)) t)]>
         (threads k))
      (<[Z.to_nat (priority t) := l]> qs) ∧
    putcurrent
      (with_threads
         (<[c := set_next NULL
                   (set_flags (Z.land (flags t) (Z.lnot KZ_THREAD_FLAG_READY)) t)]>
            (threads k))
         (with_readyque rq1 k)) =
      Ret 0 (with_threads ths2 (with_readyque rq2 k)) ∧
    ready_inv rq2 ths2 (<[Z.to_nat (priority t) := l ++ [c]]> qs) ∧
    (∀ a ta, a ≠ c → threads k !! a = Some ta →
       ∃ n, ths2 !! a = Some (set_next n ta)) ∧
    (∃ n f, ths2 !! c = Some (set_next n (set_flags f t))).
Proof.
  intros Hinv Hcur Hn Ht Hr Hl.
  destruct (getcurrent_detach k qs c t l) as (rq1 & Hget & Hinv1); try done.
  assert (Hrange : 0 ≤ priority t < PRIORITY_NUM).
  { eapply (ready_inv_linked_range _ _ qs); [done|exact Hl|left|done]. }
  destruct (putcurrent_attach
              (with_threads
                 (<[c := set_next NULL
                           (set_flags (Z.land (flags t) (Z.lnot KZ_THREAD_FLAG_READY)) t)]>
                    (threads k))
                 (with_readyque rq1 k))
              (<[Z.to_nat (priority t) := l]> qs) c
              (set_next NULL
                 (set_flags (Z.land (flags t) (Z.lnot KZ_THREAD_FLAG_READY)) t)))
    as (rq2 & ths2 & Hput & Hinv2 & Hc2 & _ & Hframe); ksimpl; try done.
  { apply lookup_insert_eq. }
  { apply detached_not_ready. }
  exists rq1, rq2, ths2. split_and!; try done.
  - rewrite insert_alter_snoc in Hinv2; [done|].
    apply lookup_lt_Some in Hl. done.
  - intros a ta Ha Hta. apply Hframe; [done|]. by rewrite lookup_insert_ne.
  - eexists _, _. exact Hc2.
Qed.

Section Syscalls.
Variable L : layout.

(** X3. WAIT is a round-robin yield: issued by the running thread, first in
    the queue of its priority, it moves the caller to the tail of that
    queue, stores 0 in the result slot and leaves every other queue alone;
    when no queue of higher priority holds a thread, the scheduler then
    selects the thread that was queued behind the caller, or the caller
    itself if it was alone. *)
Theorem wait_moves_caller_to_tail_of_its_queue
    (k : kernel) (qs : list (list Z)) (c : Z) (t : kz_thread) (l : list Z)
    (p r0 : Z) :
  ready_inv (readyque k) (threads k) qs →
  current k = c → c ≠ NULL → threads k !! c = Some t → is_ready t →
  qs !! Z.to_nat (priority t) = Some (c :: l) →
  p ≠ NULL → params k !! p = Some (un_wait r0) →
  ∃ k',
    syscall_proc L KZ_SYSCALL_TYPE_WAIT p k = Ret tt k' ∧
    current k' = c ∧
    params k' = <[p := un_wait 0]> (params k) ∧
    ready_inv (readyque k') (threads k')
      (<[Z.to_nat (priority t) := l ++ [c]]> qs) ∧
    ((∀ j, (j < Z.to_nat (priority t))%nat → qs !! j = Some []) →
     schedule k' = Ret tt (with_current (hd c l) k')).
Proof.
  intros Hinv Hcur Hn Ht Hr Hl Hp Hprm.
  destruct (getcurrent_putcurrent k qs c t l)
    as (rq1 & rq2 & ths2 & Hget & _ & Hput & Hinv2 & _); try done.
  eexists. split.
  { unfold syscall_proc. rewrite (bind_Ret _ _ _ _ _ Hget).
    unfold call_functions. step_with load_param_ok.
    erewrite bind_Ret.
    2: { unfold thread_wait. rewrite (bind_Ret _ _ _ _ _ Hput). apply ret_ok. }
    by apply store_ret_ok. }
  ksimpl. split_and!; try done.
  intros Hlow.
  apply (schedule_first _ (<[Z.to_nat (priority t) := l ++ [c]]> qs)
           (Z.to_nat (priority t)) (hd c l) (drop 1 (l ++ [c]))); ksimpl.
  - done.
  - rewrite list_lookup_insert_eq by (by apply lookup_lt_Some in Hl).
    by destruct l.
  - intros j Hj. rewrite list_lookup_insert_ne by lia. auto.
Qed.

(** X4. SLEEP takes the caller off its ready queue and nothing puts it
    back: the result slot receives 0, the caller is left with its READY
    flag clear, the scheduler does not select it, and when it was the only
    linked thread the scheduler enters the system-down path. *)
Theorem sleep_leaves_caller_off_the_ready_queues
    (k : kernel) (qs : list (list Z)) (c : Z) (t : kz_thread) (l : list Z)
    (p r0 : Z) :
  ready_inv (readyque k) (threads k) qs →
  current k = c → c ≠ NULL → threads k !! c = Some t → is_ready t →
  qs !! Z.to_nat (priority t) = Some (c :: l) →
  p ≠ NULL → params k !! p = Some (un_sleep r0) →
  ∃ k' t',
    syscall_proc L KZ_SYSCALL_TYPE_SLEEP p k = Ret tt k' ∧
    params k' = <[p := un_sleep 0]> (params k) ∧
    threads k' !! c = Some t' ∧ ¬ is_ready t' ∧
    ready_inv (readyque k') (threads k') (<[Z.to_nat (priority t) := l]> qs) ∧
    (∀ k'', schedule k' = Ret tt k'' → current k'' ≠ c) ∧
    (concat (<[Z.to_nat (priority t) := l]> qs) = [] →
     schedule k' =
       Down (with_console (console k' ++ ["system error!" +:+ newline]) k')).
Proof.
  intros Hinv Hcur Hn Ht Hr Hl Hp Hprm.
  destruct (getcurrent_detach k qs c t l) as (rq1 & Hget & Hinv1); try done.
  eexists _, _. split.
  { unfold syscall_proc. rewrite (bind_Ret _ _ _ _ _ Hget).
    unfold call_functions. step_with load_param_ok.
    unfold thread_sleep. erewrite bind_Ret; [|apply ret_ok].
    by apply store_ret_ok. }
  split; [done|]. split; [ksimpl; apply lookup_insert_eq|].
  split; [apply detached_not_ready|]. split; [done|]. split.
  - intros k'' Hs. eapply schedule_skips_detached; [| |exact Hs]; ksimpl; [done|].
    eapply ready_inv_not_linked; [done|apply lookup_insert_eq|].
    apply detached_not_ready.
  - intros Hnil. eapply schedule_none; [|exact Hnil]. exact Hinv1.
Qed.

(** X5. GETID gives a thread its own TCB address: issued as a system call
    it stores the address of the caller in the result slot and moves the
    caller to the tail of its queue; issued as a service call, where there
    is no current thread, it stores null and touches no queue. *)
Theorem getid_returns_address_of_caller
    (k : kernel) (p r0 : Z) :
  p ≠ NULL → params k !! p = Some (un_getid r0) →
  (∀ qs c t l,
     ready_inv (readyque k) (threads k) qs →
     current k = c → c ≠ NULL → threads k !! c = Some t → is_ready t →
     qs !! Z.to_nat (priority t) = Some (c :: l) →
     ∃ k',
       syscall_proc L KZ_SYSCALL_TYPE_GETID p k = Ret tt k' ∧
       params k' = <[p := un_getid c]> (params k) ∧
       ready_inv (readyque k') (threads k')
         (<[Z.to_nat (priority t) := l ++ [c]]> qs)) ∧
  kz_srvcall L KZ_SYSCALL_TYPE_GETID p k =
    Ret tt (with_params (<[p := un_getid NULL]> (params k)) (with_current NULL k)).
Proof.
  intros Hp Hprm. split.
  - intros qs c t l Hinv Hcur Hn Ht Hr Hl.
    destruct (getcurrent_putcurrent k qs c t l)
      as (rq1 & rq2 & ths2 & Hget & _ & Hput & Hinv2 & _); try done.
    eexists. split.
    { unfold syscall_proc. rewrite (bind_Ret _ _ _ _ _ Hget).
      unfold call_functions. step_with load_param_ok.
      erewrite bind_Ret.
      2: { unfold thread_getid. rewrite (bind_Ret _ _ _ _ _ Hput). apply get_ok. }
      ksimpl. by apply store_ret_ok. }
    ksimpl. rewrite Hcur. done.
  - unfold kz_srvcall, srvcall_proc. erewrite bind_Ret; [|apply put_ok].
    unfold call_functions. step_with load_param_ok.
    unfold thread_getid. erewrite bind_Ret.
    2: { erewrite bind_Ret; [|by apply putcurrent_null]. apply get_ok. }
    ksimpl. by rewrite (store_ret_ok p NULL (un_getid r0)).
Qed.

(** X6. EXIT releases the TCB of the caller: the caller is unlinked from
    its ready queue, its name and the text EXIT are printed, its TCB is
    zeroed, so its slot is free again, and the parameter block is not
    written; the next search for a free slot finds it when the slots before
    it are in use. *)
Theorem exit_releases_slot_of_caller
    (k : kernel) (qs : list (list Z)) (c : Z) (t : kz_thread) (l : list Z) (p : Z) :
  ready_inv (readyque k) (threads k) qs →
  current k = c → c ≠ NULL → threads k !! c = Some t → is_ready t →
  qs !! Z.to_nat (priority t) = Some (c :: l) →
  ∃ k',
    syscall_proc L KZ_SYSCALL_TYPE_EXIT p k = Ret tt k' ∧
    threads k' = <[c := zero_thread]> (threads k) ∧
    console k' = console k ++ [name t; " EXIT." +:+ newline] ∧
    params k' = params k ∧
    ready_inv (readyque k') (threads k') (<[Z.to_nat (priority t) := l]> qs) ∧
    ¬ occupied k' c ∧
    (∀ s1 s2, tcb_slots L = s1 ++ c :: s2 → c ∉ s1 → Forall (occupied k) s1 →
              find_free (tcb_slots L) k' = Ret (Some c) k').
Proof.
  intros Hinv Hcur Hn Ht Hr Hl.
  destruct (getcurrent_detach k qs c t l) as (rq1 & Hget & Hinv1); try done.
  eexists. split.
  { unfold syscall_proc. rewrite (bind_Ret _ _ _ _ _ Hget).
    unfold call_functions.
    erewrite bind_Ret.
    2: { unfold thread_exit. step_with @get_ok. rewrite Hcur.
         erewrite bind_Ret;
           [|eapply load_thread_ok; [done|ksimpl; apply lookup_insert_eq]].
         ksimpl. erewrite bind_Ret; [|apply put_ok].
         erewrite bind_Ret; [|apply put_ok].
         erewrite bind_Ret;
           [|eapply update_thread_ok; [done|ksimpl; apply lookup_insert_eq]].
         apply ret_ok. }
    apply ret_ok. }
  ksimpl. rewrite insert_insert_eq.
  assert (Hfree : ¬ occupied
                      (with_threads (<[c := zero_thread]> (threads k))
                         (with_console ((console k ++ [name t]) ++ [" EXIT." +:+ newline])
                            (with_readyque rq1 k))) c).
  { intros (_ & _ & H). ksimpl. rewrite lookup_insert_eq in H. by apply H. }
  split_and!; try done.
  - by rewrite <- app_assoc.
  - rewrite <- (insert_insert_eq (threads k) c zero_thread
                  (set_next NULL
                     (set_flags (Z.land (flags t) (Z.lnot KZ_THREAD_FLAG_READY)) t))).
    apply ready_inv_update_detached; [done| |apply zero_thread_not_ready|done].
    eapply ready_inv_not_linked; [done|apply lookup_insert_eq|].
    apply detached_not_ready.
  - intros s1 s2 Hslots Hc1 Hocc. rewrite Hslots.
    apply (find_free_first s1 c s2 zero_thread); ksimpl; try done.
    + rewrite Forall_forall in Hocc |- *.
      intros a Ha. destruct (Hocc a Ha) as (H1 & H2 & H3).
      assert (a ≠ c) by (intros ->; done).
      unfold occupied. ksimpl. by rewrite lookup_insert_ne.
    + apply lookup_insert_eq.
Qed.

(** X7. The software-error handler ends the running thread: its name and
    the text DOWN are printed, it is unlinked from its ready queue and its
    TCB is released as by EXIT, so the scheduler cannot select it again. *)
Theorem softerr_intr_ends_running_thread
    (k : kernel) (qs : list (list Z)) (c : Z) (t : kz_thread) (l : list Z) :
  ready_inv (readyque k) (threads k) qs →
  current k = c → c ≠ NULL → threads k !! c = Some t → is_ready t →
  qs !! Z.to_nat (priority t) = Some (c :: l) →
  ∃ k',
    softerr_intr k = Ret tt k' ∧
    threads k' = <[c := zero_thread]> (threads k) ∧
    console k' =
      console k ++ [name t; " DOWN." +:+ newline; name t; " EXIT." +:+ newline] ∧
    ready_inv (readyque k') (threads k') (<[Z.to_nat (priority t) := l]> qs) ∧
    (∀ k'', schedule k' = Ret tt k'' → current k'' ≠ c).
Proof.
  intros Hinv Hcur Hn Ht Hr Hl.
  destruct (getcurrent_detach
              (with_console ((console k ++ [name t]) ++ [" DOWN." +:+ newline]) k)
              qs c t l) as (rq1 & Hget & Hinv1); try done.
  ksimpl.
  assert (Hinv2 : ready_inv rq1 (<[c := zero_thread]> (threads k))
                    (<[Z.to_nat (priority t) := l]> qs)).
  { rewrite <- (insert_insert_eq (threads k) c zero_thread
                  (set_next NULL
                     (set_flags (Z.land (flags t) (Z.lnot KZ_THREAD_FLAG_READY)) t))).
    apply ready_inv_update_detached; [done| |apply zero_thread_not_ready|done].
    eapply ready_inv_not_linked; [done|apply lookup_insert_eq|].
    apply detached_not_ready. }
  eexists. split.
  { unfold softerr_intr. step_with @get_ok. rewrite Hcur.
    step_with load_thread_ok.
    erewrite bind_Ret; [|apply put_ok].
    erewrite bind_Ret; [|apply put_ok].
    rewrite (bind_Ret _ _ _ _ _ Hget).
    erewrite bind_Ret.
    2: { unfold thread_exit. step_with @get_ok. rewrite Hcur.
         erewrite bind_Ret;
           [|eapply load_thread_ok; [done|ksimpl; apply lookup_insert_eq]].
         ksimpl. erewrite bind_Ret; [|apply put_ok].
         erewrite bind_Ret; [|apply put_ok].
         erewrite bind_Ret;
           [|eapply update_thread_ok; [done|ksimpl; apply lookup_insert_eq]].
         apply ret_ok. }
    apply ret_ok. }
  ksimpl. rewrite insert_insert_eq. split_and!; try done.
  - by rewrite <- !app_assoc.
  - intros k'' Hs. eapply schedule_skips_detached; [| |exact Hs]; ksimpl; [done|].
    eapply ready_inv_not_linked; [done|apply lookup_insert_eq|].
    apply zero_thread_not_ready.
Qed.

End Syscalls.

(** ** What a returning access tells *)

Lemma with_current_same k : with_current (current k) k = k.
Proof. by destruct k. Qed.

Lemma get_Ret {A} (f : kernel → A) k a k' : get f k = Ret a k' → a = f k ∧ k' = k.
Proof. by intros [= <- <-]. Qed.

Lemma load_thread_Ret p k t k' :
  load_thread p k = Ret t k' → k' = k ∧ p ≠ NULL ∧ threads k !! p = Some t.
Proof.
  unfold load_thread. destruct (decide (p = NULL)); [done|].
  destruct (threads k !! p); [|done]. by intros [= <- <-].
Qed.

Lemma update_thread_Ret p f k u k' :
  update_thread p f k = Ret u k' →
  ∃ t, p ≠ NULL ∧ threads k !! p = Some t ∧
       k' = with_threads (<[p := f t]> (threads k)) k.
Proof.
  unfold update_thread.
  intros (t & k1 & (-> & Hp & Ht)%load_thread_Ret & H)%bind_Ret_inv.
  injection H as _ <-. eauto.
Qed.

Lemma load_que_Ret i k q k' :
  load_que i k = Ret q k' →
  k' = k ∧ 0 ≤ i < PRIORITY_NUM ∧ readyque k !! Z.to_nat i = Some q.
Proof.
  unfold load_que. destruct (decide (0 ≤ i < PRIORITY_NUM)); [|done].
  destruct (readyque k !! Z.to_nat i); [|done]. by intros [= <- <-].
Qed.

Lemma update_que_Ret i f k u k' :
  update_que i f k = Ret u k' →
  ∃ q, k' = with_readyque (<[Z.to_nat i := f q]> (readyque k)) k.
Proof.
  unfold update_que.
  intros (q & k1 & (-> & Hi & Hq)%load_que_Ret & H)%bind_Ret_inv.
  injection H as _ <-. eauto.
Qed.

(** Whatever state [putcurrent] returns in, a second call returns in the
    same state: the current thread is null or READY by then. *)
Lemma putcurrent_again k r k1 :
  putcurrent k = Ret r k1 →
  current k1 = current k ∧ ∃ r', putcurrent k1 = Ret r' k1.
Proof.
  unfold putcurrent at 1.
  intros (cur & k0 & [-> ->]%get_Ret & H)%bind_Ret_inv.
  destruct (decide (current k = NULL)) as [Hnull|Hnn].
  { injection H as _ <-. split; [done|]. exists (-1). by apply putcurrent_null. }
  apply bind_Ret_inv in H as (t & k0 & (-> & _ & Ht)%load_thread_Ret & H).
  destruct (decide (Z.land (flags t) KZ_THREAD_FLAG_READY ≠ 0)) as [Hr|Hr].
  { injection H as _ <-. split; [done|]. exists 1. by apply (putcurrent_ready k t). }
  apply bind_Ret_inv in H as (q & k0 & (-> & _ & Hq)%load_que_Ret & H).
  apply bind_Ret_inv in H as (u1 & ka & Ha & H).
  apply bind_Ret_inv in H as (u2 & kb & (qb & ->)%update_que_Ret & H).
  apply bind_Ret_inv in H as (u3 & kc & (tc & _ & Htc & ->)%update_thread_Ret & H).
  injection H as _ <-.
  assert (Hcur : current ka = current k).
  { destruct (decide (tail q ≠ NULL)).
    - apply update_thread_Ret in Ha as (? & _ & _ & ->). done.
    - apply update_que_Ret in Ha as (? & ->). done. }
  ksimpl. split; [done|]. exists 1.
  eapply putcurrent_ready; ksimpl.
  - by rewrite Hcur.
  - rewrite Hcur. apply lookup_insert_eq.
  - apply land_ready_set.
Qed.

(** X8. Waking oneself up is a yield: for every kernel state, WAKEUP with
    the id of the current thread behaves exactly as WAIT, because the
    second attach finds the thread READY (or the current thread null) and
    does nothing. *)
Theorem thread_wakeup_of_current_is_thread_wait (k : kernel) :
  thread_wakeup (current k) k = thread_wait k.
Proof.
  unfold thread_wakeup, thread_wait.
  destruct (putcurrent k) as [r k1|k1|e k1] eqn:Hput.
  - rewrite !(bind_Ret _ _ _ _ _ Hput).
    destruct (putcurrent_again _ _ _ Hput) as (Hcur & r' & Hput').
    erewrite bind_Ret; [|apply put_ok].
    rewrite <- Hcur, with_current_same.
    by rewrite (bind_Ret _ _ _ _ _ Hput').
  - by rewrite !(bind_Down _ _ _ _ Hput).
  - by rewrite !(bind_Fault _ _ _ _ _ Hput).
Qed.

Section Interrupts.
Variable L : layout.

(** The lookup [handlers[type]] of [thread_intr]. *)
Lemma thread_intr_run k c t type sp h :
  current k = c → c ≠ NULL → threads k !! c = Some t →
  0 ≤ type → handlers k !! Z.to_nat type = Some h →
  thread_intr L type sp k =
    (do _ <- run_handler L h; do _ <- schedule; dispatch)
      (with_threads (<[c := set_context_sp sp t]> (threads k)) k).
Proof.
  intros Hcur Hn Ht Hty Hh. unfold thread_intr.
  step_with @get_ok. rewrite Hcur. step_with update_thread_ok.
  erewrite bind_Ret; [done|].
  ksimpl. by rewrite decide_True, Hh.
Qed.

(** X9. An interrupt for which no handler is registered only saves the
    stack pointer of the interrupted thread and resumes that thread: when
    the current thread is the first of the first non-empty ready queue,
    [thread_intr] returns the stack pointer it was given and the only change
    is the saved [context.sp]. *)
Theorem interrupt_without_handler_resumes_interrupted_thread
    (k : kernel) (qs : list (list Z)) (c : Z) (t : kz_thread) (l : list Z)
    (type sp : Z) :
  ready_inv (readyque k) (threads k) qs →
  current k = c → c ≠ NULL → threads k !! c = Some t →
  qs !! Z.to_nat (priority t) = Some (c :: l) →
  (∀ j, (j < Z.to_nat (priority t))%nat → qs !! j = Some []) →
  0 ≤ type → handlers k !! Z.to_nat type = Some H_NULL →
  thread_intr L type sp k =
    Ret sp (with_threads (<[c := set_context_sp sp t]> (threads k)) k).
Proof.
  intros Hinv Hcur Hn Ht Hl Hlow Hty Hh.
  rewrite (thread_intr_run k c t type sp H_NULL) by done.
  cbn [run_handler]. erewrite bind_Ret; [|apply ret_ok].
  erewrite bind_Ret.
  2: { apply (schedule_first _ qs (Z.to_nat (priority t)) c l); ksimpl; try done.
       by apply (ready_inv_update_frame _ _ _ _ t). }
  rewrite <- Hcur at 2. rewrite <- Hcur at 1.
  change (with_current (current k) ?x) with
    (with_current (current x) x) at 1.
  rewrite with_current_same. rewrite Hcur.
  unfold dispatch. step_with @get_ok. rewrite Hcur.
  erewrite bind_Ret; [|eapply load_thread_ok; [done|ksimpl; apply lookup_insert_eq]].
  done.
Qed.

(** X10. A service call issued by an interrupt handler does not detach the
    interrupted thread: when the handler of the interrupt wakes up a thread
    that is not READY and whose priority number is smaller than that of the
    interrupted thread, [thread_intr] resumes the woken thread (it returns
    its saved stack pointer with the current-thread pointer on it), while
    the interrupted thread keeps its place at the head of its ready queue
    with the interrupted stack pointer saved. *)
Theorem interrupt_handler_wakeup_preempts_interrupted_thread
    (k : kernel) (qs : list (list Z)) (c : Z) (t : kz_thread) (l : list Z)
    (type sp p id r0 : Z) (tid : kz_thread) :
  ready_inv (readyque k) (threads k) qs →
  current k = c → c ≠ NULL → threads k !! c = Some t → is_ready t →
  qs !! Z.to_nat (priority t) = Some (c :: l) →
  (∀ j, (j < Z.to_nat (priority t))%nat → qs !! j = Some []) →
  0 ≤ type →
  handlers k !! Z.to_nat type = Some (H_user [(KZ_SYSCALL_TYPE_WAKEUP, p)]) →
  p ≠ NULL → params k !! p = Some (un_wakeup id r0) →
  id ≠ NULL → threads k !! id = Some tid → ¬ is_ready tid →
  0 ≤ priority tid < priority t →
  ∃ k' tc',
    thread_intr L type sp k = Ret (context_sp tid) k' ∧
    current k' = id ∧
    params k' = <[p := un_wakeup id 0]> (params k) ∧
    threads k' !! c = Some tc' ∧ context_sp tc' = sp ∧ is_ready tc' ∧
    ready_inv (readyque k') (threads k')
      (alter (λ l, l ++ [id]) (Z.to_nat (priority tid)) qs) ∧
    alter (λ l, l ++ [id]) (Z.to_nat (priority tid)) qs
      !! Z.to_nat (priority t) = Some (c :: l).
Proof.
  intros Hinv Hcur Hn Ht Hr Hl Hlow Hty Hh Hp Hprm Hid Htid Hnr Hpri.
  assert (Hic : id ≠ c) by (intros ->; rewrite Ht in Htid; by injection Htid as ->).
  assert (Hrange : 0 ≤ priority t < PRIORITY_NUM).
  { eapply (ready_inv_linked_range _ _ qs); [done|exact Hl|left|done]. }
  rewrite (thread_intr_run k c t type sp _) by done.
  destruct (putcurrent_attach
              (with_current id
                 (with_threads (<[c := set_context_sp sp t]> (threads k)) k))
              qs id tid)
    as (rq' & ths' & Hput & Hinv' & Hid' & _ & Hframe); ksimpl; try done.
  { by apply (ready_inv_update_frame _ _ _ _ t). }
  { by rewrite lookup_insert_ne. }
  { lia. }
  destruct (Hframe c (set_context_sp sp t)) as (n & Hc'); [done|apply lookup_insert_eq|].
  eexists _, _. split.
  { cbn [run_handler foldr fst snd].
    erewrite bind_Ret.
    2: { erewrite bind_Ret; [apply ret_ok|].
         unfold kz_srvcall, srvcall_proc.
         erewrite bind_Ret; [|apply put_ok].
         unfold call_functions. step_with load_param_ok.
         erewrite bind_Ret.
         2: { unfold thread_wakeup.
              erewrite bind_Ret; [|by apply putcurrent_null].
              erewrite bind_Ret; [|apply put_ok].
              change (with_current id (with_current NULL ?x)) with (with_current id x).
              rewrite (bind_Ret _ _ _ _ _ Hput). apply ret_ok. }
         by apply store_ret_ok. }
    erewrite bind_Ret.
    2: { apply (schedule_first _ (alter (λ l, l ++ [id]) (Z.to_nat (priority tid)) qs)
                  (Z.to_nat (priority tid)) id []); ksimpl.
         - exact Hinv'.
         - rewrite list_lookup_alter_eq, Hlow by lia. done.
         - intros j Hj. rewrite list_lookup_alter_ne by lia. apply Hlow. lia. }
    unfold dispatch. step_with @get_ok.
    erewrite bind_Ret; [|eapply load_thread_ok; [done|ksimpl; exact Hid']].
    ksimpl. apply ret_ok. }
  ksimpl. split_and!; try done.
  rewrite list_lookup_alter_ne by lia. done.
Qed.

(** X11. SETINTR stores the handler in [handlers[type]] without checking
    [type] against the size of the table: for a type inside the table the
    entry is replaced and the others are kept, the caller goes to the tail
    of its queue and the result slot receives 0; for a type outside the
    table the store is an access outside the array. *)
Theorem setintr_registers_handler_without_bounds_check
    (k : kernel) (qs : list (list Z)) (c : Z) (t : kz_thread) (l : list Z)
    (p type r0 : Z) (h : kz_handler_t) :
  ready_inv (readyque k) (threads k) qs →
  current k = c → c ≠ NULL → threads k !! c = Some t → is_ready t →
  qs !! Z.to_nat (priority t) = Some (c :: l) →
  p ≠ NULL → params k !! p = Some (un_setintr type h r0) →
  (0 ≤ type ∧ (Z.to_nat type < length (handlers k))%nat →
   ∃ k',
     syscall_proc L KZ_SYSCALL_TYPE_SETINTR p k = Ret tt k' ∧
     handlers k' = <[Z.to_nat type := h]> (handlers k) ∧
     params k' = <[p := un_setintr type h 0]> (params k) ∧
     ready_inv (readyque k') (threads k')
       (<[Z.to_nat (priority t) := l ++ [c]]> qs)) ∧
  (¬ (0 ≤ type ∧ (Z.to_nat type < length (handlers k))%nat) →
   ∃ k', syscall_proc L KZ_SYSCALL_TYPE_SETINTR p k = Fault OutOfBounds k').
Proof.
  intros Hinv Hcur Hn Ht Hr Hl Hp Hprm.
  destruct (getcurrent_detach k qs c t l) as (rq1 & Hget & Hinv1); try done.
  assert (Hrange : 0 ≤ priority t < PRIORITY_NUM).
  { eapply (ready_inv_linked_range _ _ qs); [done|exact Hl|left|done]. }
  split.
  - intros Hin.
    destruct (putcurrent_attach
                (with_handlers (<[Z.to_nat type := h]> (handlers k))
                   (with_softvecs (type :: softvecs k)
                      (with_threads
                         (<[c := set_next NULL
                                   (set_flags (Z.land (flags t) (Z.lnot KZ_THREAD_FLAG_READY)) t)]>
                            (threads k))
                         (with_readyque rq1 k))))
                (<[Z.to_nat (priority t) := l]> qs) c
                (set_next NULL
                   (set_flags (Z.land (flags t) (Z.lnot KZ_THREAD_FLAG_READY)) t)))
      as (rq2 & ths2 & Hput & Hinv2 & _); ksimpl; try done.
    { apply lookup_insert_eq. }
    { apply detached_not_ready. }
    rewrite insert_alter_snoc in Hinv2 by (by apply lookup_lt_Some in Hl).
    eexists. split.
    { unfold syscall_proc. rewrite (bind_Ret _ _ _ _ _ Hget).
      unfold call_functions. step_with load_param_ok.
      erewrite bind_Ret.
      2: { unfold thread_setintr.
           erewrite bind_Ret; [|apply put_ok].
           erewrite bind_Ret.
           2: { ksimpl. rewrite decide_True by done. reflexivity. }
           ksimpl. rewrite (bind_Ret _ _ _ _ _ Hput). apply ret_ok. }
      by apply store_ret_ok. }
    ksimpl. done.
  - intros Hout. eexists.
    unfold syscall_proc. rewrite (bind_Ret _ _ _ _ _ Hget).
    unfold call_functions. step_with load_param_ok.
    apply bind_Fault. unfold thread_setintr.
    erewrite bind_Ret; [|apply put_ok].
    apply bind_Fault. ksimpl. rewrite decide_False by done. reflexivity.
Qed.

End Interrupts.

(** ** Creating threads *)

Lemma alter_snoc_insert (qs : list (list Z)) i l c :
  qs !! i = Some l → alter (λ l, l ++ [c]) i qs = <[i := l ++ [c]]> qs.
Proof.
  intros Hl. apply list_eq. intros j.
  destruct (decide (i = j)) as [->|Hne].
  - rewrite list_lookup_alter_eq, list_lookup_insert_eq, Hl;
      [done|by apply lookup_lt_Some in Hl].
  - rewrite list_lookup_alter_ne, list_lookup_insert_ne by done. done.
Qed.

(** With every TCB unlinked, the zeroed [readyque] is well formed. *)
Lemma ready_inv_empty (ths : gmap Z kz_thread) :
  (∀ a t, ths !! a = Some t → ¬ is_ready t ∧ next t = NULL) →
  ready_inv (replicate (Z.to_nat PRIORITY_NUM) (mk_que NULL NULL)) ths
    (replicate (Z.to_nat PRIORITY_NUM) []).
Proof.
  intros Hths. apply ready_inv_lookup. split_and!.
  - by rewrite length_replicate.
  - by rewrite length_replicate.
  - intros i q l [-> _]%lookup_replicate [-> _]%lookup_replicate.
    split_and!; try done. constructor.
  - vm_compute. constructor.
  - intros a t Ht. destruct (Hths _ _ Ht) as [H1 H2]. split; [|done].
    split; [done|]. intros Hin. vm_compute in Hin. by apply elem_of_nil in Hin.
  - intros i l a [-> _]%lookup_replicate Ha. by apply elem_of_nil in Ha.
Qed.

Section Start.
Variable L : layout.

(** [thread_run] up to its first [putcurrent]: the free slot is primed, the
    stack is carved and the initial frame laid out; nothing else has
    changed. *)
Lemma thread_run_prefix k func nm prio ss argc argv s1 thp s2 t0 :
  tcb_slots L = s1 ++ thp :: s2 → Forall (occupied k) s1 →
  thp ≠ NULL → threads k !! thp = Some t0 → init_func t0 = NULL →
  (String.length nm ≤ THREAD_NAME_SIZE)%nat →
  ∃ K,
    thread_run L func nm prio ss argc argv k =
      (do _ <- putcurrent;
       do _ <- put (with_current thp);
       do _ <- putcurrent;
       get current) K ∧
    threads K =
      <[thp := mk_thread NULL nm prio (thread_stack k + ss) 0 func argc argv
                 KZ_SYSCALL_TYPE_RUN NULL (thread_stack k + ss - 36)]> (threads k) ∧
    readyque K = readyque k ∧ current K = current k ∧
    thread_stack K = thread_stack k + ss ∧
    handlers K = handlers k ∧ msgboxes K = msgboxes k ∧ msgbufs K = msgbufs k ∧
    pool K = pool k ∧ params K = params k ∧ umem K = umem k ∧
    softvecs K = softvecs k ∧ console K = console k ∧
    frame_at (ustack K) (thread_stack k + ss - 36) 9 =
      map Some (initial_frame L thp prio).
Proof.
  intros Hslots Hocc Hn Ht0 Hf Hnm.
  unfold thread_run. rewrite Hslots.
  erewrite bind_Ret; [| by eapply find_free_first]. ksimpl.
  erewrite bind_Ret; [| by eapply update_thread_ok]. ksimpl.
  unfold strcpy_name. rewrite decide_True by done.
  repeat (erewrite bind_Ret;
          [| eapply update_thread_ok; [done | ksimpl; apply lookup_insert_eq]];
          ksimpl; rewrite insert_insert_eq).
  step_with @get_ok.
  erewrite bind_Ret; [|apply put_ok]. ksimpl.
  erewrite bind_Ret; [|apply put_ok]. ksimpl.
  step_with @get_ok.
  erewrite bind_Ret;
    [| eapply update_thread_ok; [done | ksimpl; apply lookup_insert_eq]].
  ksimpl. rewrite insert_insert_eq.
  erewrite bind_Ret;
    [| eapply load_thread_ok; [done | ksimpl; apply lookup_insert_eq]].
  ksimpl. unfold push.
  repeat (erewrite bind_Ret;
          [| erewrite bind_Ret; [|apply put_ok]; apply ret_ok]; ksimpl).
  erewrite bind_Ret;
    [| eapply update_thread_ok; [done | ksimpl; apply lookup_insert_eq]].
  ksimpl. rewrite insert_insert_eq.
  replace (thread_stack k + ss - 4 - 4 - 4 - 4 - 4 - 4 - 4 - 4 - 4)
    with (thread_stack k + ss - 36) by lia.
  eexists. split; [reflexivity|]. ksimpl.
  split_and!; try done.
  unfold frame_at, initial_frame. simpl.
  generalize (Z.lor (thread_init_addr L)
                (Z.shiftl (if decide (prio ≠ 0) then 0 else 192) 24)).
  intros pcv. repeat f_equal.
  all: repeat (rewrite lookup_insert;
               match goal with
               | |- context [decide (?a = ?b)] => destruct (decide (a = b))
               end;
               [first [reflexivity | exfalso; lia] | try (exfalso; lia)]).
Qed.

(** X12. [kz_start] builds the initial state whatever the memory held
    before: the first TCB slot holds the initial thread, READY, alone in
    the ready queue of its priority and current; the two kernel handlers
    are registered; every mailbox is empty; and the stack pointer
    dispatched is that of the initial frame, 36 bytes below the top of the
    stack carved for the thread. *)
Theorem kz_start_builds_initial_state
    (func : Z) (nm : string) (prio ss argc argv : Z) (k0 : kernel) :
  threads_base L ≠ NULL →
  0 ≤ prio < PRIORITY_NUM →
  (String.length nm ≤ THREAD_NAME_SIZE)%nat →
  0 ≤ SOFTVEC_TYPE_SYSCALL L →
  (Z.to_nat (SOFTVEC_TYPE_SYSCALL L) < SOFTVEC_TYPE_NUM L)%nat →
  0 ≤ SOFTVEC_TYPE_SOFTERR L →
  (Z.to_nat (SOFTVEC_TYPE_SOFTERR L) < SOFTVEC_TYPE_NUM L)%nat →
  SOFTVEC_TYPE_SYSCALL L ≠ SOFTVEC_TYPE_SOFTERR L →
  ∃ k,
    kz_start L func nm prio ss argc argv k0 = Ret (thread_stack k0 + ss - 36) k ∧
    current k = threads_base L ∧
    threads k !! threads_base L =
      Some (mk_thread NULL nm prio (thread_stack k0 + ss) KZ_THREAD_FLAG_READY
              func argc argv KZ_SYSCALL_TYPE_RUN NULL (thread_stack k0 + ss - 36)) ∧
    ready_inv (readyque k) (threads k)
      (<[Z.to_nat prio := [threads_base L]]> (replicate (Z.to_nat PRIORITY_NUM) [])) ∧
    handlers k !! Z.to_nat (SOFTVEC_TYPE_SYSCALL L) = Some H_syscall_intr ∧
    handlers k !! Z.to_nat (SOFTVEC_TYPE_SOFTERR L) = Some H_softerr_intr ∧
    msgboxes k = replicate (MSGBOX_ID_NUM L) (mk_msgbox NULL NULL NULL) ∧
    console k = console k0.
Proof.
  intros Hbase Hprio Hnm Hs1 Hs2 He1 He2 Hse.
  unfold kz_start, kzmem_init.
  do 6 (erewrite bind_Ret; [|apply put_ok]). ksimpl.
  erewrite bind_Ret.
  2: { unfold thread_setintr. erewrite bind_Ret; [|apply put_ok].
       erewrite bind_Ret.
       2: { ksimpl. rewrite decide_True; [reflexivity|].
            rewrite length_replicate. done. }
       erewrite bind_Ret; [|by apply putcurrent_null]. apply ret_ok. }
  erewrite bind_Ret.
  2: { unfold thread_setintr. erewrite bind_Ret; [|apply put_ok].
       erewrite bind_Ret.
       2: { ksimpl. rewrite decide_True; [reflexivity|].
            rewrite length_insert, length_replicate. done. }
       erewrite bind_Ret; [|by apply putcurrent_null]. apply ret_ok. }
  ksimpl.
  assert (Hslots : tcb_slots L = [] ++ threads_base L :: map (tcb_addr L) (seq 1 5)).
  { unfold tcb_slots, THREAD_NUM. simpl. f_equal. unfold tcb_addr. lia. }
  assert (Hthreads : ∀ a t,
            (list_to_map (map (λ a, (a, zero_thread)) (tcb_slots L))
               : gmap Z kz_thread) !! a = Some t → t = zero_thread).
  { intros a t Hat. apply elem_of_list_to_map_2 in Hat.
    apply list_elem_of_fmap in Hat as (b & [= _ ->] & _). done. }
  match goal with |- ∃ _, bind (thread_run _ _ _ _ _ _ _) _ ?K = _ ∧ _ =>
    destruct (thread_run_prefix K func nm prio ss argc argv [] (threads_base L)
                (map (tcb_addr L) (seq 1 5)) zero_thread)
      as (K1 & Hrun & Hths & Hrq & Hcur & Hts & Hh & Hmb & _ & _ & _ & _ & _ & Hcon & _)
  end; ksimpl; try done.
  { rewrite Hslots. simpl. apply lookup_insert_eq. }
  destruct (putcurrent_attach (with_current (threads_base L) K1)
              (replicate (Z.to_nat PRIORITY_NUM) []) (threads_base L)
              (mk_thread NULL nm prio (thread_stack k0 + ss) 0 func argc argv
                 KZ_SYSCALL_TYPE_RUN NULL (thread_stack k0 + ss - 36)))
    as (rq' & ths' & Hput & Hinv' & Hthp & _); ksimpl; try done.
  { rewrite Hrq, Hths. apply ready_inv_empty. intros a t.
    destruct (decide (threads_base L = a)) as [<-|Hne].
    - rewrite lookup_insert_eq. intros [= <-]. unfold is_ready. simpl. tauto.
    - rewrite lookup_insert_ne by done. intros ->%Hthreads.
      split; [apply zero_thread_not_ready|done]. }
  { rewrite Hths. apply lookup_insert_eq. }
  { unfold is_ready. simpl. tauto. }
  rewrite (alter_snoc_insert _ _ []) in Hinv'
    by (apply lookup_replicate; split; [done|lia]).
  eexists. split.
  { erewrite bind_Ret.
    2: { rewrite Hrun. erewrite bind_Ret; [|by apply putcurrent_null].
         erewrite bind_Ret; [|apply put_ok].
         rewrite (bind_Ret _ _ _ _ _ Hput). apply get_ok. }
    ksimpl. erewrite bind_Ret; [|apply put_ok].
    unfold dispatch. step_with @get_ok.
    erewrite bind_Ret; [|eapply load_thread_ok; [done|ksimpl; exact Hthp]].
    ksimpl. apply ret_ok. }
  ksimpl. rewrite Hh, Hmb, Hcon. ksimpl. split_and!; try done.
  - rewrite list_lookup_insert_ne by (intros Heq; apply Hse; lia).
    apply list_lookup_insert_eq. by rewrite length_replicate.
  - apply list_lookup_insert_eq. by rewrite length_insert, length_replicate.
Qed.

End Start.

(** ** Requests through the trap *)

Lemma set_flags_same t : set_flags (flags t) t = t.
Proof. by destruct t. Qed.

Section RunFull.
Variable L : layout.

(** [thread_run] from a detached caller, with what it leaves alone. *)
Lemma thread_run_full k qs func nm prio ss argc argv s1 thp s2 t0 c tc :
  tcb_slots L = s1 ++ thp :: s2 → Forall (occupied k) s1 →
  thp ≠ NULL → threads k !! thp = Some t0 → init_func t0 = NULL →
  ¬ is_ready t0 →
  (String.length nm ≤ THREAD_NAME_SIZE)%nat →
  0 ≤ prio < PRIORITY_NUM →
  ready_inv (readyque k) (threads k) qs →
  current k = c → c ≠ NULL → c ≠ thp → threads k !! c = Some tc →
  ¬ is_ready tc → 0 ≤ priority tc < PRIORITY_NUM →
  ∃ k',
    thread_run L func nm prio ss argc argv k = Ret thp k' ∧
    current k' = thp ∧
    threads k' !! thp =
      Some (mk_thread NULL nm prio (thread_stack k + ss) KZ_THREAD_FLAG_READY
              func argc argv KZ_SYSCALL_TYPE_RUN NULL (thread_stack k + ss - 36)) ∧
    (∀ a ta, a ≠ thp → threads k !! a = Some ta →
       ∃ n f, threads k' !! a = Some (set_next n (set_flags f ta))) ∧
    ready_inv (readyque k') (threads k')
      (alter (λ l, l ++ [thp]) (Z.to_nat prio)
         (alter (λ l, l ++ [c]) (Z.to_nat (priority tc)) qs)) ∧
    handlers k' = handlers k ∧ msgboxes k' = msgboxes k ∧ msgbufs k' = msgbufs k ∧
    pool k' = pool k ∧ params k' = params k ∧ umem k' = umem k ∧
    softvecs k' = softvecs k ∧ console k' = console k.
Proof.
  intros Hslots Hocc Hn Ht0 Hf Hnr0 Hnm Hprio Hinv Hcur Hcn Hct Hc Hnr Hpri.
  assert (Htq : thp ∉ concat qs) by (by eapply ready_inv_not_linked).
  destruct (thread_run_prefix L k func nm prio ss argc argv s1 thp s2 t0)
    as (K & Hrun & Hths & Hrq & HcurK & Hts & Hh & Hmb & Hbufs & Hpool & Hprm
        & Hum & Hsv & Hcon & _); try done.
  assert (HinvK : ready_inv (readyque K) (threads K) qs).
  { rewrite Hrq, Hths. apply ready_inv_update_detached; try done.
    unfold is_ready. simpl. tauto. }
  assert (HcK : threads K !! c = Some tc).
  { rewrite Hths. by rewrite lookup_insert_ne. }
  destruct (putcurrent_attach K qs c tc HinvK ltac:(congruence) HcK Hcn Hnr Hpri)
    as (rq1 & ths1 & Hput & Hinv1 & Hc1 & Hsame & Hframe1).
  destruct (putcurrent_attach (with_current thp (with_threads ths1 (with_readyque rq1 K)))
              (alter (λ l, l ++ [c]) (Z.to_nat (priority tc)) qs) thp
              (mk_thread NULL nm prio (thread_stack k + ss) 0 func argc argv
                 KZ_SYSCALL_TYPE_RUN NULL (thread_stack k + ss - 36)))
    as (rq2 & ths2 & Hput2 & Hinv2 & Hthp & _ & Hframe2); ksimpl; try done.
  { rewrite Hsame by done. rewrite Hths. apply lookup_insert_eq. }
  { unfold is_ready. simpl. tauto. }
  eexists. split.
  { rewrite Hrun. rewrite (bind_Ret _ _ _ _ _ Hput).
    erewrite bind_Ret; [|apply put_ok].
    rewrite (bind_Ret _ _ _ _ _ Hput2). apply get_ok. }
  ksimpl. split_and!; try done.
  intros a ta Ha Hta.
  destruct (decide (a = c)) as [->|Hac].
  - destruct (Hframe2 c _ Ha Hc1) as (n & Hn2).
    rewrite Hc in Hta. injection Hta as <-. eauto.
  - destruct (Hframe1 a ta Hac) as (n1 & Hn1).
    { rewrite Hths. by rewrite lookup_insert_ne. }
    destruct (Hframe2 a _ Ha Hn1) as (n2 & Hn2).
    exists n2, (flags ta). by rewrite Hn2.
Qed.

(** X13. RUN with a null entry function creates a thread whose slot is
    still free: the new thread is linked in the ready queue of its
    priority, but its [init.func] is null, so the search of the next RUN
    stops at the same slot. *)
Theorem run_with_null_function_leaves_slot_free
    (k : kernel) (qs : list (list Z)) (nm : string) (prio ss argc argv : Z)
    (s1 : list Z) (thp : Z) (s2 : list Z) (t0 : kz_thread) (c : Z) (tc : kz_thread) :
  tcb_slots L = s1 ++ thp :: s2 → Forall (occupied k) s1 →
  thp ≠ NULL → threads k !! thp = Some t0 → init_func t0 = NULL →
  ¬ is_ready t0 →
  (String.length nm ≤ THREAD_NAME_SIZE)%nat →
  0 ≤ prio < PRIORITY_NUM →
  ready_inv (readyque k) (threads k) qs →
  current k = c → c ≠ NULL → c ≠ thp → threads k !! c = Some tc →
  ¬ is_ready tc → 0 ≤ priority tc < PRIORITY_NUM →
  ∃ k' qs',
    thread_run L NULL nm prio ss argc argv k = Ret thp k' ∧
    ready_inv (readyque k') (threads k') qs' ∧ thp ∈ concat qs' ∧
    ¬ occupied k' thp ∧
    find_free (tcb_slots L) k' = Ret (Some thp) k'.
Proof.
  intros Hslots Hocc Hn Ht0 Hf Hnr0 Hnm Hprio Hinv Hcur Hcn Hct Hc Hnr Hpri.
  destruct (thread_run_full k qs NULL nm prio ss argc argv s1 thp s2 t0 c tc)
    as (k' & Hrun & _ & Hthp & Hframe & Hinv' & _); try done.
  exists k', (alter (λ l, l ++ [thp]) (Z.to_nat prio)
               (alter (λ l, l ++ [c]) (Z.to_nat (priority tc)) qs)).
  split_and!; try done.
  - pose proof Hinv' as (_ & _ & _ & _ & Hfl & _)%ready_inv_lookup.
    apply (Hfl _ _ Hthp). unfold is_ready, KZ_THREAD_FLAG_READY. simpl. done.
  - intros (_ & _ & H). rewrite Hthp in H. by apply H.
  - rewrite Hslots. eapply find_free_first; [|done|exact Hthp|done].
    rewrite Forall_forall in Hocc |- *. intros a Ha.
    apply (occupied_frame k); [by apply Hocc|].
    intros ta Hta.
    assert (a ≠ thp).
    { intros ->. destruct (Hocc thp Ha) as (_ & _ & H).
      rewrite Ht0 in H. apply H. simpl. by rewrite Hf. }
    destruct (Hframe a ta) as (n & f & Hta'); try done.
    eexists. split; [exact Hta'|done].
Qed.

(** [kz_syscall] through the trap: the request is recorded in the TCB of
    the caller, the stack pointer is saved, and the handler of the
    system-call vector serves exactly that request. *)
Lemma kz_syscall_trap k c t type param sp :
  current k = c → c ≠ NULL → threads k !! c = Some t →
  0 ≤ SOFTVEC_TYPE_SYSCALL L →
  handlers k !! Z.to_nat (SOFTVEC_TYPE_SYSCALL L) = Some H_syscall_intr →
  kz_syscall L type param sp k =
    (do _ <- syscall_proc L type param; do _ <- schedule; dispatch)
      (with_threads
         (<[c := set_context_sp sp (set_syscall type param t)]> (threads k)) k).
Proof.
  intros Hcur Hn Ht Hs Hh. unfold kz_syscall.
  step_with @get_ok. rewrite Hcur. step_with update_thread_ok.
  rewrite (thread_intr_run L _ c (set_syscall type param t) _ sp H_syscall_intr);
    ksimpl; try done; [|apply lookup_insert_eq].
  rewrite insert_insert_eq.
  cbn [run_handler]. unfold syscall_intr.
  unfold bind at 1. unfold bind at 1. rewrite get_ok. ksimpl. rewrite Hcur.
  unfold bind at 1. erewrite load_thread_ok; [|done|ksimpl; apply lookup_insert_eq].
  ksimpl. reflexivity.
Qed.

(** X14. Creating a thread of higher priority hands the processor over at
    once: when the running thread issues RUN through [kz_syscall] for a
    priority number smaller than its own and a slot is free, the call
    stores the id of the new thread in the result slot, the running thread
    goes to the tail of its queue with its stack pointer and request saved,
    and the thread dispatched is the new one, on its initial frame. *)
Theorem run_of_higher_priority_thread_preempts_caller
    (k : kernel) (qs : list (list Z)) (c : Z) (t : kz_thread) (l : list Z)
    (p sp func : Z) (nm : string) (prio ss argc argv r0 : Z)
    (s1 : list Z) (thp : Z) (s2 : list Z) (t0 : kz_thread) :
  ready_inv (readyque k) (threads k) qs →
  current k = c → c ≠ NULL → threads k !! c = Some t → is_ready t →
  qs !! Z.to_nat (priority t) = Some (c :: l) →
  (∀ j, (j < Z.to_nat (priority t))%nat → qs !! j = Some []) →
  0 ≤ SOFTVEC_TYPE_SYSCALL L →
  handlers k !! Z.to_nat (SOFTVEC_TYPE_SYSCALL L) = Some H_syscall_intr →
  p ≠ NULL → params k !! p = Some (un_run func nm prio ss argc argv r0) →
  (String.length nm ≤ THREAD_NAME_SIZE)%nat →
  0 ≤ prio < priority t →
  tcb_slots L = s1 ++ thp :: s2 → Forall (occupied k) s1 →
  thp ≠ NULL → threads k !! thp = Some t0 → init_func t0 = NULL →
  ¬ is_ready t0 →
  ∃ k' tc',
    kz_syscall L KZ_SYSCALL_TYPE_RUN p sp k = Ret (thread_stack k + ss - 36) k' ∧
    current k' = thp ∧
    params k' = <[p := un_run func nm prio ss argc argv thp]> (params k) ∧
    threads k' !! c = Some tc' ∧ context_sp tc' = sp ∧
    syscall_type tc' = KZ_SYSCALL_TYPE_RUN ∧ syscall_param tc' = p ∧
    ready_inv (readyque k') (threads k')
      (<[Z.to_nat prio := [thp]]> (<[Z.to_nat (priority t) := l ++ [c]]> qs)).
Proof.
  intros Hinv Hcur Hn Ht Hr Hl Hlow Hs Hh Hp Hprm Hnm Hprio Hslots Hocc Hthp Ht0 Hf Hnr0.
  assert (Hrange : 0 ≤ priority t < PRIORITY_NUM).
  { eapply (ready_inv_linked_range _ _ qs); [done|exact Hl|left|done]. }
  assert (Hct : c ≠ thp) by (intros ->; rewrite Ht in Ht0; by injection Ht0 as ->).
  rewrite (kz_syscall_trap k c t) by done.
  set (t1 := set_context_sp sp (set_syscall KZ_SYSCALL_TYPE_RUN p t)).
  destruct (getcurrent_detach
              (with_threads (<[c := t1]> (threads k)) k) qs c t1 l)
    as (rq1 & Hget & Hinv1); ksimpl; try done.
  { by apply (ready_inv_update_frame _ _ _ _ t). }
  { apply lookup_insert_eq. }
  rewrite insert_insert_eq in Hget, Hinv1.
  set (t2 := set_next NULL
               (set_flags (Z.land (flags t1) (Z.lnot KZ_THREAD_FLAG_READY)) t1))
    in Hget, Hinv1.
  destruct (thread_run_full
              (with_threads (<[c := t2]> (threads k))
                 (with_readyque rq1 (with_threads (<[c := t1]> (threads k)) k)))
              (<[Z.to_nat (priority t) := l]> qs)
              func nm prio ss argc argv s1 thp s2 t0 c t2)
    as (k3 & Hrun & Hcur3 & Hthp3 & Hframe & Hinv3 & _ & _ & _ & _ & Hprm3 & _);
    ksimpl; try done.
  { rewrite Forall_forall in Hocc |- *. intros a Ha.
    apply (occupied_frame k); [by apply Hocc|]. ksimpl.
    intros ta Hta. destruct (decide (a = c)) as [->|Hac].
    - rewrite lookup_insert_eq. rewrite Ht in Hta. injection Hta as <-. eauto.
    - rewrite lookup_insert_ne by done. eauto. }
  { by rewrite lookup_insert_ne. }
  { lia. }
  { apply lookup_insert_eq. }
  { apply detached_not_ready. }
  destruct (Hframe c t2) as (n & f & Hc3); [done|apply lookup_insert_eq|].
  assert (Hlen : (Z.to_nat (priority t) < length qs)%nat) by (by apply lookup_lt_Some in Hl).
  rewrite insert_alter_snoc in Hinv3 by done.
  rewrite (alter_snoc_insert _ _ []) in Hinv3.
  2: { rewrite list_lookup_insert_ne by lia. apply Hlow. lia. }
  eexists _, _. split.
  { erewrite bind_Ret.
    2: { unfold syscall_proc. rewrite (bind_Ret _ _ _ _ _ Hget).
         unfold call_functions. step_with load_param_ok.
         rewrite (bind_Ret _ _ _ _ _ Hrun).
         apply store_ret_ok; [done|]. rewrite Hprm3. ksimpl. exact Hprm. }
    erewrite bind_Ret.
    2: { eapply (schedule_first _ _ (Z.to_nat prio) thp []); ksimpl.
         - exact Hinv3.
         - apply list_lookup_insert_eq. rewrite length_insert. lia.
         - intros j Hj. rewrite !list_lookup_insert_ne by lia. apply Hlow. lia. }
    unfold dispatch. step_with @get_ok.
    erewrite bind_Ret; [|eapply load_thread_ok; [done|ksimpl; exact Hthp3]].
    ksimpl. apply ret_ok. }
  ksimpl. rewrite Hprm3. ksimpl. split_and!; try done.
Qed.

End RunFull.

(** ** Messages from one thread to the next *)

Lemma ready_inv_linked rq ths qs i l a :
  ready_inv rq ths qs → qs !! i = Some l → a ∈ l →
  a ≠ NULL ∧ ∃ ta, ths !! a = Some ta ∧ is_ready ta ∧ priority ta = Z.of_nat i.
Proof.
  intros Hinv Hl Ha.
  pose proof Hinv as (Hlen & Hlen' & Hq & _ & Hfl & _)%ready_inv_lookup.
  destruct (lookup_lt_is_Some_2 rq i) as [q Hqi].
  { apply lookup_lt_Some in Hl. lia. }
  destruct (Hq _ _ _ Hqi Hl) as (_ & _ & Hseg & _).
  split; [by eapply lseg_not_null|].
  destruct (lseg_is_Some _ _ _ _ a Hseg Ha) as [ta Hta].
  exists ta. split; [done|]. split.
  - apply (Hfl _ _ Hta). apply elem_of_concat. eauto.
  - by eapply ready_inv_linked_range.
Qed.

Lemma bufs_hdr_ok_dom p (bufs1 bufs2 : gmap Z kz_msgbuf) :
  bufs_hdr_ok p bufs1 →
  (∀ a, is_Some (bufs2 !! a) → is_Some (bufs1 !! a)) →
  bufs_hdr_ok p bufs2.
Proof.
  intros H1 Hdom a m Ha.
  destruct (Hdom a ltac:(eauto)) as [m1 Hm1]. eauto.
Qed.

Lemma msgbox_rep_nil bufs b :
  receiver b = NULL → msgbox_rep bufs b [] → b = mk_msgbox NULL NULL NULL.
Proof.
  destruct b as [r h tl]. simpl. intros -> (Hh & Ht & _). simpl in *. by subst.
Qed.

Section RoundTrip.
Variable L : layout.

(** SEND through [kz_syscall] on an empty mailbox on which nobody waits,
    from the running thread [c] with the thread [d] queued behind it. *)
Lemma kz_syscall_send_queues k qs c t d l ps sp id size q r0 mp p1 :
  ready_inv (readyque k) (threads k) qs →
  current k = c → c ≠ NULL → threads k !! c = Some t → is_ready t →
  qs !! Z.to_nat (priority t) = Some (c :: d :: l) →
  (∀ j, (j < Z.to_nat (priority t))%nat → qs !! j = Some []) →
  0 ≤ SOFTVEC_TYPE_SYSCALL L →
  handlers k !! Z.to_nat (SOFTVEC_TYPE_SYSCALL L) = Some H_syscall_intr →
  pool_inv (pool k) (msgbufs k) →
  0 ≤ id → msgboxes k !! Z.to_nat id = Some (mk_msgbox NULL NULL NULL) →
  pool_alloc (sizeof_kz_msgbuf L) (pool k) = (mp, p1) → mp ≠ NULL →
  ps ≠ NULL → params k !! ps = Some (un_send id size q r0) →
  ∃ k1 r td n,
    kz_syscall L KZ_SYSCALL_TYPE_SEND ps sp k = Ret r k1 ∧
    current k1 = d ∧ d ≠ c ∧
    threads k !! d = Some td ∧ threads k1 !! d = Some (set_next n td) ∧
    ready_inv (readyque k1) (threads k1)
      (<[Z.to_nat (priority t) := d :: l ++ [c]]> qs) ∧
    handlers k1 = handlers k ∧
    params k1 = <[ps := un_send id size q size]> (params k) ∧
    umem k1 = umem k ∧
    msgboxes k1 = <[Z.to_nat id := mk_msgbox NULL mp mp]> (msgboxes k) ∧
    msgbox_rep (msgbufs k1) (mk_msgbox NULL mp mp) [mp] ∧
    msgbufs k1 !! mp = Some (mk_msgbuf NULL c size q) ∧
    bufs_hdr_ok (pool k1) (msgbufs k1).
Proof.
  intros Hinv Hcur Hn Ht Hr Hl Hlow Hs Hh Hpool Hid Hb Halloc Hmp Hps Hprm.
  assert (Hrange : 0 ≤ priority t < PRIORITY_NUM).
  { eapply (ready_inv_linked_range _ _ qs); [done|exact Hl|left|done]. }
  assert (Hlen : (Z.to_nat (priority t) < length qs)%nat)
    by (by apply lookup_lt_Some in Hl).
  destruct (ready_inv_linked _ _ _ _ _ d Hinv Hl) as (Hdn & td & Htd & Hdr & Hdp).
  { right. left. }
  assert (Hdc : d ≠ c).
  { pose proof Hinv as (_ & _ & _ & Hnd & _)%ready_inv_lookup.
    pose proof (concat_lookup_NoDup _ _ _ Hnd Hl) as Hnd'.
    apply NoDup_cons in Hnd' as [Hnin _]. intros ->. apply Hnin. left. }
  rewrite (kz_syscall_trap L k c t) by done.
  set (t1 := set_context_sp sp (set_syscall KZ_SYSCALL_TYPE_SEND ps t)).
  destruct (getcurrent_detach
              (with_threads (<[c := t1]> (threads k)) k) qs c t1 (d :: l))
    as (rq1 & Hget & Hinv1); ksimpl; try done.
  { by apply (ready_inv_update_frame _ _ _ _ t). }
  { apply lookup_insert_eq. }
  rewrite insert_insert_eq in Hget, Hinv1.
  set (t2 := set_next NULL
               (set_flags (Z.land (flags t1) (Z.lnot KZ_THREAD_FLAG_READY)) t1))
    in Hget, Hinv1.
  destruct (putcurrent_attach
              (with_threads (<[c := t2]> (threads k))
                 (with_readyque rq1 (with_threads (<[c := t1]> (threads k)) k)))
              (<[Z.to_nat (priority t) := d :: l]> qs) c t2)
    as (rq2 & ths2 & Hput & Hinv2 & _ & _ & Hframe); ksimpl; try done.
  { apply lookup_insert_eq. }
  { apply detached_not_ready. }
  rewrite insert_alter_snoc in Hinv2 by done.
  destruct (pool_alloc_fresh _ _ _ _ _ (mk_msgbuf NULL c size q) Hpool Halloc Hmp)
    as (Hfresh & Hhdr).
  destruct (sendmsg_append L
              (with_threads ths2
                 (with_readyque rq2
                    (with_threads (<[c := t2]> (threads k))
                       (with_readyque rq1
                          (with_threads (<[c := t1]> (threads k)) k)))))
              id c size q (mk_msgbox NULL NULL NULL) [] mp p1)
    as (bufs' & Hsend & Hrep & Hbmp & _ & Hdom); ksimpl; try done.
  { split_and!; try done. constructor. }
  destruct (Hframe d td) as (n & Hd2); [done|by rewrite lookup_insert_ne|].
  exists (with_current d
            (with_params (<[ps := un_send id size q size]> (params k))
               (with_msgboxes (<[Z.to_nat id := mk_msgbox NULL mp mp]> (msgboxes k))
                  (with_msgbufs bufs'
                     (with_pool p1
                        (with_threads ths2
                           (with_readyque rq2
                              (with_threads (<[c := t2]> (threads k))
                                 (with_readyque rq1
                                    (with_threads (<[c := t1]> (threads k)) k)))))))))),
         (context_sp td), td, n.
  split.
  { erewrite bind_Ret.
    2: { unfold syscall_proc. rewrite (bind_Ret _ _ _ _ _ Hget).
         unfold call_functions. step_with load_param_ok.
         erewrite bind_Ret.
         2: { unfold thread_send. rewrite (bind_Ret _ _ _ _ _ Hput).
              step_with @get_ok. rewrite Hcur.
              rewrite (bind_Ret _ _ _ _ _ Hsend).
              erewrite bind_Ret.
              2: { apply load_msgbox_ok; [done|]. ksimpl.
                   apply list_lookup_insert_eq. by apply lookup_lt_Some in Hb. }
              ksimpl. rewrite decide_False by (intros H; by apply H).
              erewrite bind_Ret; [|apply ret_ok]. apply ret_ok. }
         apply store_ret_ok; [done|]. ksimpl. exact Hprm. }
    erewrite bind_Ret.
    2: { eapply (schedule_first _ _ (Z.to_nat (priority t)) d (l ++ [c])); ksimpl.
         - exact Hinv2.
         - by apply list_lookup_insert_eq.
         - intros j Hj. rewrite list_lookup_insert_ne by lia. by apply Hlow. }
    unfold dispatch. step_with @get_ok.
    erewrite bind_Ret; [|eapply load_thread_ok; [done|ksimpl; exact Hd2]].
    ksimpl. reflexivity. }
  ksimpl. split_and!; try done.
  eapply bufs_hdr_ok_dom; [exact Hhdr|].
  intros a Ha. apply Hdom in Ha as [->|Ha].
  - rewrite lookup_insert_eq. eauto.
  - destruct (decide (a = mp)) as [->|Hne].
    + rewrite lookup_insert_eq. eauto.
    + by rewrite lookup_insert_ne.
Qed.

(** X15. What is sent is what is received: the running thread sends a
    message to an empty mailbox on which nobody waits and the thread queued
    behind it then receives from that mailbox.  The receiver gets the
    address of the sender in its result slot and the size and pointer that
    were sent through its out-pointers; the sender gets the size as
    result; afterwards the mailbox is empty again and the buffer has gone
    back to the pool. *)
Theorem message_sent_is_message_received
    (k : kernel) (qs : list (list Z)) (c : Z) (t : kz_thread) (d : Z)
    (l : list Z) (ps pr sp1 sp2 id size q r0 sizep pp r1 mp : Z)
    (p1 : kzmem_pool) :
  ready_inv (readyque k) (threads k) qs →
  current k = c → c ≠ NULL → threads k !! c = Some t → is_ready t →
  qs !! Z.to_nat (priority t) = Some (c :: d :: l) →
  (∀ j, (j < Z.to_nat (priority t))%nat → qs !! j = Some []) →
  0 ≤ SOFTVEC_TYPE_SYSCALL L →
  handlers k !! Z.to_nat (SOFTVEC_TYPE_SYSCALL L) = Some H_syscall_intr →
  pool_inv (pool k) (msgbufs k) →
  0 ≤ id → msgboxes k !! Z.to_nat id = Some (mk_msgbox NULL NULL NULL) →
  pool_alloc (sizeof_kz_msgbuf L) (pool k) = (mp, p1) → mp ≠ NULL →
  ps ≠ NULL → params k !! ps = Some (un_send id size q r0) →
  pr ≠ NULL → params k !! pr = Some (un_recv id sizep pp r1) →
  ∃ k2,
    serve_all L [Syscall KZ_SYSCALL_TYPE_SEND ps sp1;
                 Syscall KZ_SYSCALL_TYPE_RECV pr sp2] k = Ret tt k2 ∧
    params k2 !! ps = Some (un_send id size q size) ∧
    params k2 !! pr = Some (un_recv id sizep pp c) ∧
    umem k2 = deliver_umem sizep pp (mk_msgbuf NULL c size q) (umem k) ∧
    msgboxes k2 !! Z.to_nat id = Some (mk_msgbox NULL NULL NULL) ∧
    msgbufs k2 !! mp = None ∧
    ready_inv (readyque k2) (threads k2)
      (<[Z.to_nat (priority t) := l ++ [c; d]]> qs) ∧
    current k2 = hd c l.
Proof.
  intros Hinv Hcur Hn Ht Hr Hl Hlow Hs Hh Hpool Hid Hb Halloc Hmp Hps Hprm Hpr Hrprm.
  assert (Hpp : pr ≠ ps).
  { intros ->. rewrite Hprm in Hrprm. discriminate. }
  assert (Hlen : (Z.to_nat (priority t) < length qs)%nat)
    by (by apply lookup_lt_Some in Hl).
  destruct (kz_syscall_send_queues k qs c t d l ps sp1 id size q r0 mp p1)
    as (k1 & r & td & n & Hsend & Hcur1 & Hdc & Htd & Htd1 & Hinv1 & Hh1 & Hprm1
        & Hum1 & Hmb1 & Hrep1 & Hbmp1 & Hhdr1); try done.
  destruct (ready_inv_linked _ _ _ _ _ d Hinv Hl) as (Hdn & td' & Htd' & Hdr & Hdp).
  { right. left. }
  rewrite Htd in Htd'. injection Htd' as <-.
  set (u1 := set_context_sp sp2 (set_syscall KZ_SYSCALL_TYPE_RECV pr (set_next n td))).
  assert (Hpd : Z.to_nat (priority u1) = Z.to_nat (priority t)).
  { unfold u1. ksimpl. rewrite Hdp. by rewrite Nat2Z.id. }
  assert (Hu1r : is_ready u1) by exact Hdr.
  assert (Hinv1' : ready_inv (readyque k1) (<[d := u1]> (threads k1))
                     (<[Z.to_nat (priority t) := d :: l ++ [c]]> qs)).
  { by apply (ready_inv_update_frame _ _ _ _ (set_next n td)). }
  assert (Hqd : <[Z.to_nat (priority t) := d :: l ++ [c]]> qs
                  !! Z.to_nat (priority u1) = Some (d :: l ++ [c])).
  { rewrite Hpd. by apply list_lookup_insert_eq. }
  destruct (getcurrent_detach
              (with_threads (<[d := u1]> (threads k1)) k1)
              (<[Z.to_nat (priority t) := d :: l ++ [c]]> qs) d u1 (l ++ [c])
              Hinv1' Hcur1 (lookup_insert_eq _ _ _) Hdn Hu1r Hqd)
    as (rq3 & Hget & Hinv3).
  ksimpl.
  rewrite insert_insert_eq in Hget, Hinv3.
  rewrite Hpd in Hinv3.
  rewrite list_insert_insert_eq in Hinv3.
  set (u2 := set_next NULL
               (set_flags (Z.land (flags u1) (Z.lnot KZ_THREAD_FLAG_READY)) u1))
    in Hget, Hinv3.
  assert (Hrange : 0 ≤ priority td < PRIORITY_NUM).
  { apply lookup_lt_Some in Hl.
    pose proof Hinv as (Hlen' & _)%ready_inv_lookup. lia. }
  destruct (thread_recv_ready
              (with_threads (<[d := u2]> (threads k1))
                 (with_readyque rq3 (with_threads (<[d := u1]> (threads k1)) k1)))
              (<[Z.to_nat (priority t) := l ++ [c]]> qs)
              id sizep pp (mk_msgbox NULL mp mp) mp [] (mk_msgbuf NULL c size q)
              d u2 id sizep pp r1)
    as (k' & b' & Hrecv & Hprm' & Hum' & Hb' & Hrb' & Hrep' & Hfree' & Hinv' & Hcur');
    ksimpl; try done.
  { rewrite Hmb1. apply list_lookup_insert_eq. by apply lookup_lt_Some in Hb. }
  { apply lookup_insert_eq. }
  { apply detached_not_ready. }
  { rewrite Hprm1. by rewrite lookup_insert_ne. }
  change (priority u2) with (priority u1) in Hinv'. rewrite Hpd in Hinv'.
  rewrite insert_alter_snoc in Hinv' by done.
  rewrite <- app_assoc in Hinv'. simpl in Hinv'.
  destruct (ready_inv_linked _ _ _ (Z.to_nat (priority t)) (l ++ [c; d]) (hd c l) Hinv')
    as (Hhn & th & Hth & _).
  { by apply list_lookup_insert_eq. }
  { destruct l; simpl; left. }
  eexists. split.
  { cbn [serve_all serve].
    rewrite (bind_Ret _ _ _ _ _ Hsend).
    erewrite bind_Ret; [apply ret_ok|].
    rewrite (kz_syscall_trap L k1 d (set_next n td)); try done; [|by rewrite Hh1].
    erewrite bind_Ret.
    2: { unfold syscall_proc. rewrite (bind_Ret _ _ _ _ _ Hget).
         unfold call_functions.
         erewrite bind_Ret.
         2: { apply load_param_ok; [done|]. ksimpl. rewrite Hprm1.
              by rewrite lookup_insert_ne. }
         ksimpl. rewrite (bind_Ret _ _ _ _ _ Hrecv).
         apply store_ret_ok; [done|]. rewrite Hprm'. apply lookup_insert_eq. }
    erewrite bind_Ret.
    2: { eapply (schedule_first _ _ (Z.to_nat (priority t)) (hd c l)
                   (drop 1 (l ++ [c; d]))); ksimpl.
         - exact Hinv'.
         - rewrite list_lookup_insert_eq by done. by destruct l.
         - intros j Hj. rewrite list_lookup_insert_ne by lia. by apply Hlow. }
    unfold dispatch. step_with @get_ok.
    erewrite bind_Ret; [|eapply load_thread_ok; [done|ksimpl; exact Hth]].
    reflexivity. }
  ksimpl. rewrite Hprm', Hum'. ksimpl. rewrite Hprm1, Hum1.
  split_and!; try done.
  - rewrite insert_insert_eq. change (syscall_param u2) with pr.
    rewrite lookup_insert_ne by done. apply lookup_insert_eq.
  - rewrite insert_insert_eq. apply lookup_insert_eq.
  - rewrite Hb'. f_equal. by eapply msgbox_rep_nil.
Qed.

End RoundTrip.

(** ** Priorities, mailboxes and context switches *)

Section More.
Variable L : layout.

(** X16. CHPRI moves the caller between ready queues: issued by the running
    thread, it takes the caller off the queue of its old priority and links
    it at the tail of the queue of the priority it ends with, so the caller
    is never linked twice; the result slot receives the old priority.
    After the caller has lowered its priority, the scheduler selects the
    thread that was queued behind it. *)
Theorem chpri_moves_caller_between_queues
    (k : kernel) (qs : list (list Z)) (c : Z) (t : kz_thread) (l : list Z)
    (p prio r0 : Z) :
  ready_inv (readyque k) (threads k) qs →
  current k = c → c ≠ NULL → threads k !! c = Some t → is_ready t →
  qs !! Z.to_nat (priority t) = Some (c :: l) →
  p ≠ NULL → params k !! p = Some (un_chpri prio r0) →
  prio < PRIORITY_NUM →
  ∃ k',
    syscall_proc L KZ_SYSCALL_TYPE_CHPRI p k = Ret tt k' ∧
    params k' = <[p := un_chpri prio (priority t)]> (params k) ∧
    ready_inv (readyque k') (threads k')
      (alter (λ l, l ++ [c])
         (Z.to_nat (if decide (prio >= 0) then prio else priority t))
         (<[Z.to_nat (priority t) := l]> qs)) ∧
    (priority t < prio →
     (∀ j, (j < Z.to_nat (priority t))%nat → qs !! j = Some []) →
     ∀ d l', l = d :: l' → schedule k' = Ret tt (with_current d k')).
Proof.
  intros Hinv Hcur Hn Ht Hr Hl Hp Hprm Hprio.
  assert (Hrange : 0 ≤ priority t < PRIORITY_NUM).
  { eapply (ready_inv_linked_range _ _ qs); [done|exact Hl|left|done]. }
  destruct (getcurrent_detach k qs c t l) as (rq1 & Hget & Hinv1); try done.
  destruct (thread_chpri_attach
              (with_threads
                 (<[c := set_next NULL
                           (set_flags (Z.land (flags t) (Z.lnot KZ_THREAD_FLAG_READY)) t)]>
                    (threads k))
                 (with_readyque rq1 k))
              (<[Z.to_nat (priority t) := l]> qs) c
              (set_next NULL
                 (set_flags (Z.land (flags t) (Z.lnot KZ_THREAD_FLAG_READY)) t))
              prio)
    as (rq2 & ths2 & Hch & Hinv2 & _); ksimpl; try done.
  { apply lookup_insert_eq. }
  { apply detached_not_ready. }
  { destruct (decide (prio >= 0)); lia. }
  eexists. split.
  { unfold syscall_proc. rewrite (bind_Ret _ _ _ _ _ Hget).
    unfold call_functions. step_with load_param_ok.
    rewrite (bind_Ret _ _ _ _ _ Hch). by apply store_ret_ok. }
  ksimpl. split_and!; try done.
  intros Hlt Hlow d l' ->.
  apply (schedule_first _
           (alter (λ l, l ++ [c])
              (Z.to_nat (if decide (prio >= 0) then prio else priority t))
              (<[Z.to_nat (priority t) := d :: l']> qs))
           (Z.to_nat (priority t)) d l'); ksimpl.
  - exact Hinv2.
  - rewrite decide_True by lia. rewrite list_lookup_alter_ne by lia.
    apply list_lookup_insert_eq. by apply lookup_lt_Some in Hl.
  - intros j Hj. rewrite decide_True by lia.
    rewrite list_lookup_alter_ne by lia.
    rewrite list_lookup_insert_ne by lia. by apply Hlow.
Qed.

(** X17. Only SEND and RECV touch the mailboxes: a request of any other
    type that returns, served as a system call or as a service call, leaves
    every mailbox as it was. *)
Theorem requests_other_than_send_and_recv_keep_mailboxes
    (type : kz_syscall_type_t) (p : Z) (k k' : kernel) :
  type ≠ KZ_SYSCALL_TYPE_SEND → type ≠ KZ_SYSCALL_TYPE_RECV →
  syscall_proc L type p k = Ret tt k' ∨ kz_srvcall L type p k = Ret tt k' →
  msgboxes k' = msgboxes k.
Proof.
  intros Hs Hr Hrun.
  assert (Hkeep : keeps_boxes (call_functions L type p)).
  { destruct type; try done; unfold call_functions; keeps. }
  destruct Hrun as [Hrun|Hrun].
  - unfold syscall_proc in Hrun.
    apply bind_Ret_inv in Hrun as (r & k1 & Hget & Hrun).
    rewrite (Hkeep _ _ _ Hrun). by apply (keeps_getcurrent _ _ _ Hget).
  - unfold kz_srvcall, srvcall_proc in Hrun.
    apply bind_Ret_inv in Hrun as (r & k1 & [= _ <-] & Hrun).
    by rewrite (Hkeep _ _ _ Hrun).
Qed.

(** WAIT through [kz_syscall], with the TCBs it leaves. *)
Lemma kz_syscall_wait k qs c t l p sp r0 :
  ready_inv (readyque k) (threads k) qs →
  current k = c → c ≠ NULL → threads k !! c = Some t → is_ready t →
  qs !! Z.to_nat (priority t) = Some (c :: l) →
  (∀ j, (j < Z.to_nat (priority t))%nat → qs !! j = Some []) →
  0 ≤ SOFTVEC_TYPE_SYSCALL L →
  handlers k !! Z.to_nat (SOFTVEC_TYPE_SYSCALL L) = Some H_syscall_intr →
  p ≠ NULL → params k !! p = Some (un_wait r0) →
  ∃ k1 tn tc1,
    threads k1 !! hd c l = Some tn ∧
    kz_syscall L KZ_SYSCALL_TYPE_WAIT p sp k = Ret (context_sp tn) k1 ∧
    current k1 = hd c l ∧
    ready_inv (readyque k1) (threads k1)
      (<[Z.to_nat (priority t) := l ++ [c]]> qs) ∧
    handlers k1 = handlers k ∧
    params k1 = <[p := un_wait 0]> (params k) ∧
    threads k1 !! c = Some tc1 ∧ context_sp tc1 = sp ∧ is_ready tc1 ∧
    priority tc1 = priority t ∧
    (∀ a ta, a ≠ c → threads k !! a = Some ta →
       ∃ n, threads k1 !! a = Some (set_next n ta)).
Proof.
  intros Hinv Hcur Hn Ht Hr Hl Hlow Hs Hh Hp Hprm.
  assert (Hlen : (Z.to_nat (priority t) < length qs)%nat)
    by (by apply lookup_lt_Some in Hl).
  rewrite (kz_syscall_trap L k c t) by done.
  set (t1 := set_context_sp sp (set_syscall KZ_SYSCALL_TYPE_WAIT p t)).
  assert (Hinv0 : ready_inv (readyque k) (<[c := t1]> (threads k)) qs).
  { by apply (ready_inv_update_frame _ _ _ _ t). }
  destruct (getcurrent_putcurrent
              (with_threads (<[c := t1]> (threads k)) k) qs c t1 l
              Hinv0 Hcur Hn (lookup_insert_eq _ _ _) Hr Hl)
    as (rq1 & rq2 & ths2 & Hget & _ & Hput & Hinv2 & Hframe & (n & f & Hc2)).
  ksimpl. change (priority t1) with (priority t) in *.
  destruct (ready_inv_linked _ _ _ (Z.to_nat (priority t)) (l ++ [c]) (hd c l) Hinv2)
    as (Hhn & tn & Htn & _).
  { by apply list_lookup_insert_eq. }
  { destruct l; simpl; left. }
  pose proof Hinv2 as (_ & _ & _ & _ & Hfl & _)%ready_inv_lookup.
  exists (with_current (hd c l)
            (with_params (<[p := un_wait 0]> (params k))
               (with_threads ths2
                  (with_readyque rq2 (with_threads (<[c := t1]> (threads k)) k))))),
         tn, (set_next n (set_flags f t1)).
  split; [exact Htn|]. split.
  { erewrite bind_Ret.
    2: { unfold syscall_proc. rewrite (bind_Ret _ _ _ _ _ Hget).
         unfold call_functions. step_with load_param_ok.
         erewrite bind_Ret.
         2: { unfold thread_wait. rewrite (bind_Ret _ _ _ _ _ Hput). apply ret_ok. }
         apply store_ret_ok; [done|]. ksimpl. exact Hprm. }
    erewrite bind_Ret.
    2: { eapply (schedule_first _ _ (Z.to_nat (priority t)) (hd c l)
                   (drop 1 (l ++ [c]))); ksimpl.
         - exact Hinv2.
         - rewrite list_lookup_insert_eq by done. by destruct l.
         - intros j Hj. rewrite list_lookup_insert_ne by lia. by apply Hlow. }
    unfold dispatch. step_with @get_ok.
    erewrite bind_Ret; [|eapply load_thread_ok; [done|ksimpl; exact Htn]].
    reflexivity. }
  ksimpl. split_and!; try done.
  - apply (Hfl _ _ Hc2). apply elem_of_concat.
    exists (Z.to_nat (priority t)), (l ++ [c]).
    split; [by apply list_lookup_insert_eq|]. apply elem_of_app. right. left.
  - intros a ta Ha Hta. destruct (Hframe a ta) as (n' & Hn'); [done| |eauto].
    ksimpl. by rewrite lookup_insert_ne.
Qed.

(** X18. A thread is resumed on the stack pointer it was suspended with:
    two threads share the highest priority in use; the running one yields
    with WAIT at stack pointer [sp1], the other one runs and yields in
    turn; the second [kz_syscall] dispatches the first thread again and
    the stack pointer it returns is [sp1]. *)
Theorem thread_resumes_on_saved_stack_pointer
    (k : kernel) (qs : list (list Z)) (c d : Z) (t : kz_thread)
    (p1 p2 sp1 sp2 r1 r2 : Z) :
  ready_inv (readyque k) (threads k) qs →
  current k = c → c ≠ NULL → threads k !! c = Some t → is_ready t →
  qs !! Z.to_nat (priority t) = Some [c; d] →
  (∀ j, (j < Z.to_nat (priority t))%nat → qs !! j = Some []) →
  0 ≤ SOFTVEC_TYPE_SYSCALL L →
  handlers k !! Z.to_nat (SOFTVEC_TYPE_SYSCALL L) = Some H_syscall_intr →
  p1 ≠ NULL → params k !! p1 = Some (un_wait r1) →
  p2 ≠ NULL → params k !! p2 = Some (un_wait r2) →
  ∃ k1 k2 spd,
    kz_syscall L KZ_SYSCALL_TYPE_WAIT p1 sp1 k = Ret spd k1 ∧
    current k1 = d ∧
    kz_syscall L KZ_SYSCALL_TYPE_WAIT p2 sp2 k1 = Ret sp1 k2 ∧
    current k2 = c ∧
    ready_inv (readyque k2) (threads k2) qs.
Proof.
  intros Hinv Hcur Hn Ht Hr Hl Hlow Hs Hh Hp1 Hprm1 Hp2 Hprm2.
  assert (Hlen : (Z.to_nat (priority t) < length qs)%nat)
    by (by apply lookup_lt_Some in Hl).
  destruct (kz_syscall_wait k qs c t [d] p1 sp1 r1)
    as (k1 & td1 & tc1 & Htd1 & Hrun1 & Hcur1 & Hinv1 & Hh1 & Hprmk1 & Hc1 & Hsp1
        & Hrc1 & Hpc1 & _); try done.
  simpl in Htd1, Hcur1, Hinv1, Hrun1.
  destruct (ready_inv_linked _ _ _ (Z.to_nat (priority t)) [d; c] d Hinv1)
    as (Hdn & td' & Htd' & Hdr & Hdp).
  { by apply list_lookup_insert_eq. }
  { left. }
  rewrite Htd1 in Htd'. injection Htd' as <-.
  assert (Hdc : d ≠ c).
  { pose proof Hinv as (_ & _ & _ & Hnd & _)%ready_inv_lookup.
    pose proof (concat_lookup_NoDup _ _ _ Hnd Hl) as Hnd'.
    apply NoDup_cons in Hnd' as [Hnin _]. intros ->. apply Hnin. left. }
  assert (Hpd : Z.to_nat (priority td1) = Z.to_nat (priority t)).
  { rewrite Hdp. by rewrite Nat2Z.id. }
  destruct (kz_syscall_wait k1 (<[Z.to_nat (priority t) := [d; c]]> qs)
              d td1 [c] p2 sp2 (if decide (p2 = p1) then 0 else r2))
    as (k2 & tc2 & td2 & Htc2 & Hrun2 & Hcur2 & Hinv2 & _ & _ & _ & _ & _ & _ & Hframe2);
    try done.
  { rewrite Hpd. by apply list_lookup_insert_eq. }
  { intros j Hj. rewrite list_lookup_insert_ne by lia. apply Hlow. lia. }
  { by rewrite Hh1. }
  { rewrite Hprmk1. destruct (decide (p2 = p1)) as [->|Hne].
    - by rewrite lookup_insert_eq.
    - by rewrite lookup_insert_ne. }
  simpl in Htc2, Hrun2, Hcur2.
  destruct (Hframe2 c tc1) as (n & Hc2); [done|done|].
  rewrite Hc2 in Htc2. injection Htc2 as <-. ksimpl.
  rewrite Hpd, list_insert_insert_eq in Hinv2. simpl in Hinv2.
  rewrite list_insert_id in Hinv2 by done.
  exists k1, k2, (context_sp td1). rewrite Hsp1 in Hrun2. done.
Qed.

End More.

(** ** Requests the kernel does not check *)

Section Edges.
Variable L : layout.

(** X19. EXIT and CHPRI need a current thread: issued as service calls,
    where the current-thread pointer has been set to null, both read a
    field of the current TCB and so dereference the null pointer. *)
Theorem exit_and_chpri_as_service_calls_dereference_null
    (k : kernel) (p : Z) :
  kz_srvcall L KZ_SYSCALL_TYPE_EXIT p k = Fault NullPointer (with_current NULL k) ∧
  (∀ prio r0,
     p ≠ NULL → params k !! p = Some (un_chpri prio r0) →
     kz_srvcall L KZ_SYSCALL_TYPE_CHPRI p k =
       Fault NullPointer (with_current NULL k)).
Proof.
  split.
  - unfold kz_srvcall, srvcall_proc. erewrite bind_Ret; [|apply put_ok].
    unfold call_functions. apply bind_Fault. unfold thread_exit.
    step_with @get_ok. apply bind_Fault. unfold load_thread.
    by rewrite decide_True.
  - intros prio r0 Hp Hprm.
    unfold kz_srvcall, srvcall_proc. erewrite bind_Ret; [|apply put_ok].
    unfold call_functions. step_with load_param_ok.
    apply bind_Fault. unfold thread_chpri.
    step_with @get_ok. apply bind_Fault. unfold load_thread.
    by rewrite decide_True.
Qed.

(** X20. RECV issued as a service call parks nobody: on an empty mailbox
    without receiver it stores -1 in the result slot and leaves the mailbox
    as it was; on a mailbox that holds a message the delivery reads the
    parameter block of the receiver, which is the null current thread. *)
Theorem recv_as_service_call_parks_nobody
    (k : kernel) (p id sizep pp r0 : Z) (b : kz_msgbox) :
  p ≠ NULL → params k !! p = Some (un_recv id sizep pp r0) →
  0 ≤ id → msgboxes k !! Z.to_nat id = Some b → receiver b = NULL →
  (mhead b = NULL →
   kz_srvcall L KZ_SYSCALL_TYPE_RECV p k =
     Ret tt (with_params (<[p := un_recv id sizep pp (-1)]> (params k))
               (with_msgboxes (msgboxes k) (with_current NULL k)))) ∧
  (∀ m, mhead b ≠ NULL → msgbufs k !! mhead b = Some m →
        ∃ k', kz_srvcall L KZ_SYSCALL_TYPE_RECV p k = Fault NullPointer k').
Proof.
  intros Hp Hprm Hid Hb Hrcv. split.
  - intros Hh.
    unfold kz_srvcall, srvcall_proc. erewrite bind_Ret; [|apply put_ok].
    unfold call_functions. step_with load_param_ok.
    erewrite bind_Ret; [|by apply (thread_recv_block _ id sizep pp b)].
    ksimpl.
    replace (set_receiver NULL b) with b by (destruct b; simpl in *; by subst).
    rewrite list_insert_id by done.
    by rewrite (store_ret_ok p (-1) (un_recv id sizep pp r0)).
  - intros m Hh Hm.
    assert (Hlt : (Z.to_nat id < length (msgboxes k))%nat)
      by (by apply lookup_lt_Some in Hb).
    destruct (decide (mnext m = NULL)) as [Hnx|Hnx]; eexists;
      unfold kz_srvcall, srvcall_proc;
      (erewrite bind_Ret; [|apply put_ok]);
      unfold call_functions; step_with load_param_ok;
      apply bind_Fault; unfold thread_recv;
      step_with load_msgbox_ok;
      rewrite decide_False by (intros H; by apply H);
      (erewrite bind_Ret; [|apply ret_ok]);
      step_with @get_ok; step_with update_msgbox_ok;
      (erewrite bind_Ret;
         [|apply load_msgbox_ok; [done|ksimpl; by apply list_lookup_insert_eq]]);
      ksimpl; rewrite decide_False by done;
      apply bind_Fault; unfold recvmsg;
      (erewrite bind_Ret;
         [|apply load_msgbox_ok; [done|ksimpl; by apply list_lookup_insert_eq]]);
      ksimpl; step_with load_msgbuf_ok;
      (erewrite bind_Ret;
         [|eapply update_msgbox_ok; [done|ksimpl; by apply list_lookup_insert_eq]]);
      ksimpl; rewrite list_insert_insert_eq;
      (erewrite bind_Ret;
         [|apply load_msgbox_ok; [done|ksimpl; by apply list_lookup_insert_eq]]);
      ksimpl.
    + rewrite decide_True by done.
      erewrite bind_Ret;
        [|eapply update_msgbox_ok; [done|ksimpl; by apply list_lookup_insert_eq]].
      ksimpl. rewrite list_insert_insert_eq.
      step_with update_msgbuf_ok.
      erewrite bind_Ret;
        [|apply load_msgbox_ok; [done|ksimpl; by apply list_lookup_insert_eq]].
      ksimpl. apply bind_Fault. unfold load_thread. by rewrite decide_True.
    + rewrite decide_False by done.
      erewrite bind_Ret; [|apply ret_ok].
      step_with update_msgbuf_ok.
      erewrite bind_Ret;
        [|apply load_msgbox_ok; [done|ksimpl; by apply list_lookup_insert_eq]].
      ksimpl. apply bind_Fault. unfold load_thread. by rewrite decide_True.
Qed.

(** X21. RUN checks neither the length of the name nor the priority: with
    a free slot, a name of more than [THREAD_NAME_SIZE] characters is copied
    past the end of the name field of the zeroed TCB, and a priority
    outside [0, PRIORITY_NUM) makes the attach of the new thread index
    [readyque] outside the array, after the caller has been attached. *)
Theorem run_checks_neither_name_length_nor_priority
    (k : kernel) (qs : list (list Z)) (func : Z) (nm : string)
    (prio ss argc argv : Z) (s1 : list Z) (thp : Z) (s2 : list Z)
    (t0 : kz_thread) (c : Z) (tc : kz_thread) :
  tcb_slots L = s1 ++ thp :: s2 → Forall (occupied k) s1 →
  thp ≠ NULL → threads k !! thp = Some t0 → init_func t0 = NULL →
  ¬ is_ready t0 →
  ready_inv (readyque k) (threads k) qs →
  current k = c → c ≠ NULL → c ≠ thp → threads k !! c = Some tc →
  ¬ is_ready tc → 0 ≤ priority tc < PRIORITY_NUM →
  ((THREAD_NAME_SIZE < String.length nm)%nat →
   thread_run L func nm prio ss argc argv k =
     Fault OutOfBounds (with_threads (<[thp := zero_thread]> (threads k)) k)) ∧
  ((String.length nm ≤ THREAD_NAME_SIZE)%nat → ¬ (0 ≤ prio < PRIORITY_NUM) →
   ∃ k', thread_run L func nm prio ss argc argv k = Fault OutOfBounds k' ∧
         current k' = thp ∧
         ready_inv (readyque k') (threads k')
           (alter (λ l, l ++ [c]) (Z.to_nat (priority tc)) qs)).
Proof.
  intros Hslots Hocc Hn Ht0 Hf Hnr0 Hinv Hcur Hcn Hct Hc Hnr Hpri. split.
  - intros Hlong. unfold thread_run. rewrite Hslots.
    erewrite bind_Ret; [| by eapply find_free_first]. ksimpl.
    erewrite bind_Ret; [| by eapply update_thread_ok]. ksimpl.
    apply bind_Fault. unfold strcpy_name. rewrite decide_False by lia. done.
  - intros Hnm Hprio.
    assert (Htq : thp ∉ concat qs) by (by eapply ready_inv_not_linked).
    destruct (thread_run_prefix L k func nm prio ss argc argv s1 thp s2 t0)
      as (K & Hrun & Hths & Hrq & HcurK & _); try done.
    assert (HinvK : ready_inv (readyque K) (threads K) qs).
    { rewrite Hrq, Hths. apply ready_inv_update_detached; try done.
      unfold is_ready. simpl. tauto. }
    assert (HcK : threads K !! c = Some tc).
    { rewrite Hths. by rewrite lookup_insert_ne. }
    destruct (putcurrent_attach K qs c tc HinvK ltac:(congruence) HcK Hcn Hnr Hpri)
      as (rq1 & ths1 & Hput & Hinv1 & _ & Hsame & _).
    eexists. split.
    { rewrite Hrun. rewrite (bind_Ret _ _ _ _ _ Hput).
      erewrite bind_Ret; [|apply put_ok].
      apply bind_Fault. unfold putcurrent.
      step_with @get_ok. rewrite decide_False by done.
      erewrite bind_Ret.
      2: { eapply load_thread_ok; [done|]. ksimpl.
           rewrite Hsame by done. rewrite Hths. apply lookup_insert_eq. }
      ksimpl. rewrite decide_False by (intros H; by apply H).
      apply bind_Fault. unfold load_que. by rewrite decide_False. }
    ksimpl. done.
Qed.

End Edges.

(** ** The further properties on the scenario *)

(** Decides that the queues below a priority given in closed form are
    empty. *)
Ltac klow :=
  let j := fresh "j" in
  let Hj := fresh "Hj" in
  intros j Hj; vm_compute in Hj;
  do 16 (try (destruct j as [|j]; [first [vm_compute; reflexivity | exfalso; lia]|]));
  exfalso; lia.

(** The scheduler after the three requests of the idle thread. *)
Lemma schedule_selects_ready_thread_of_top_priority_witness :
  schedule ex_two = Ret tt (state_of (schedule ex_two)) ∧
  current (state_of (schedule ex_two)) ∈ concat two_queues.
Proof.
  split; [kcompute|].
  apply (schedule_selects_ready_thread_of_top_priority
           ex_two (state_of (schedule ex_two)) two_queues); kcompute.
Defined.

(** The running thread "recv" is taken off the queue of priority 1. *)
Lemma getcurrent_unlinks_head_of_queue_witness :
  ∃ k' t',
    getcurrent ex_two = Ret 0 k' ∧ current k' = current ex_two ∧
    threads k' !! current ex_two = Some t' ∧ ¬ is_ready t' ∧ next t' = NULL ∧
    priority t' = priority (tcb ex_two 0x1040) ∧
    (∀ a, a ≠ current ex_two → threads k' !! a = threads ex_two !! a) ∧
    ready_inv (readyque k') (threads k')
      (<[Z.to_nat (priority (tcb ex_two 0x1040)) := [0x1080]]> two_queues).
Proof.
  destruct (getcurrent_unlinks_head_of_queue ex_two two_queues (tcb ex_two 0x1040))
    as [_ H]; [kcompute..|].
  apply H; kcompute.
Defined.

(** "recv" yields to "send". *)
Lemma wait_moves_caller_to_tail_of_its_queue_witness :
  ∃ k',
    syscall_proc L0 KZ_SYSCALL_TYPE_WAIT 0x9030 ex_two = Ret tt k' ∧
    current k' = 0x1040 ∧
    ready_inv (readyque k') (threads k')
      (<[Z.to_nat (priority (tcb ex_two 0x1040)) := [0x1080] ++ [0x1040]]> two_queues) ∧
    schedule k' = Ret tt (with_current 0x1080 k').
Proof.
  destruct (wait_moves_caller_to_tail_of_its_queue L0 ex_two two_queues 0x1040
              (tcb ex_two 0x1040) [0x1080] 0x9030 0)
    as (k' & H1 & H2 & _ & H4 & H5); [kcompute..|].
  exists k'. split_and!; [exact H1|exact H2|exact H4|apply H5; klow].
Defined.

(** "recv" goes to sleep. *)
Lemma sleep_leaves_caller_off_the_ready_queues_witness :
  ∃ k' t',
    syscall_proc L0 KZ_SYSCALL_TYPE_SLEEP 0x9060 ex_two = Ret tt k' ∧
    threads k' !! 0x1040 = Some t' ∧ ¬ is_ready t' ∧
    ready_inv (readyque k') (threads k')
      (<[Z.to_nat (priority (tcb ex_two 0x1040)) := [0x1080]]> two_queues).
Proof.
  destruct (sleep_leaves_caller_off_the_ready_queues L0 ex_two two_queues 0x1040
              (tcb ex_two 0x1040) [0x1080] 0x9060 0)
    as (k' & t' & H1 & _ & H3 & H4 & H5 & _); [kcompute..|].
  exists k', t'. split_and!; [exact H1|exact H3|exact H4|exact H5].
Defined.

(** GETID of "recv", and GETID as a service call. *)
Lemma getid_returns_address_of_caller_witness :
  (∃ k',
     syscall_proc L0 KZ_SYSCALL_TYPE_GETID 0x9070 ex_calls = Ret tt k' ∧
     params k' = <[0x9070 := un_getid 0x1040]> (params ex_calls)) ∧
  kz_srvcall L0 KZ_SYSCALL_TYPE_GETID 0x9070 ex_calls =
    Ret tt (with_params (<[0x9070 := un_getid NULL]> (params ex_calls))
              (with_current NULL ex_calls)).
Proof.
  destruct (getid_returns_address_of_caller L0 ex_calls 0x9070 0) as [H1 H2];
    [kcompute..|].
  split; [|exact H2].
  destruct (H1 two_queues 0x1040 (tcb ex_calls 0x1040) [0x1080])
    as (k' & Ha & Hb & _); [kcompute..|].
  exists k'. split; [exact Ha|exact Hb].
Defined.

(** "recv" exits; its slot is the first free one. *)
Lemma exit_releases_slot_of_caller_witness :
  ∃ k',
    syscall_proc L0 KZ_SYSCALL_TYPE_EXIT 0 ex_two = Ret tt k' ∧
    threads k' = <[0x1040 := zero_thread]> (threads ex_two) ∧
    console k' = console ex_two ++ [name (tcb ex_two 0x1040); " EXIT." +:+ newline] ∧
    ¬ occupied k' 0x1040 ∧
    find_free (tcb_slots L0) k' = Ret (Some 0x1040) k'.
Proof.
  destruct (exit_releases_slot_of_caller L0 ex_two two_queues 0x1040
              (tcb ex_two 0x1040) [0x1080] 0)
    as (k' & H1 & H2 & H3 & _ & _ & H6 & H7); [kcompute..|].
  exists k'. split_and!; [exact H1|exact H2|exact H3|exact H6|].
  apply (H7 [0x1000] [0x1080; 0x10c0; 0x1100; 0x1140]); kcompute.
Defined.

(** A software error while "recv" runs. *)
Lemma softerr_intr_ends_running_thread_witness :
  ∃ k',
    softerr_intr ex_two = Ret tt k' ∧
    threads k' = <[0x1040 := zero_thread]> (threads ex_two) ∧
    console k' =
      console ex_two ++ [name (tcb ex_two 0x1040); " DOWN." +:+ newline;
                         name (tcb ex_two 0x1040); " EXIT." +:+ newline].
Proof.
  destruct (softerr_intr_ends_running_thread ex_two two_queues 0x1040
              (tcb ex_two 0x1040) [0x1080])
    as (k' & H1 & H2 & H3 & _); [kcompute..|].
  exists k'. split_and!; [exact H1|exact H2|exact H3].
Defined.

(** Vector 2 has no handler: "recv" is resumed. *)
Lemma interrupt_without_handler_resumes_interrupted_thread_witness :
  handlers ex_two !! 2%nat = Some H_NULL ∧
  thread_intr L0 2 0x81c0 ex_two =
    Ret 0x81c0
      (with_threads
         (<[0x1040 := set_context_sp 0x81c0 (tcb ex_two 0x1040)]> (threads ex_two))
         ex_two).
Proof.
  split; [kcompute|].
  apply (interrupt_without_handler_resumes_interrupted_thread L0 ex_two two_queues
           0x1040 (tcb ex_two 0x1040) [0x1080] 2 0x81c0); first [klow | kcompute].
Defined.

(** The handler of vector 2 wakes "recv" up while the idle thread runs. *)
Lemma interrupt_handler_wakeup_preempts_interrupted_thread_witness :
  ¬ is_ready (tcb ex_handler 0x1040) ∧
  ∃ k' tc',
    thread_intr L0 2 0x80c0 ex_handler = Ret (context_sp (tcb ex_handler 0x1040)) k' ∧
    current k' = 0x1040 ∧
    threads k' !! 0x1000 = Some tc' ∧ context_sp tc' = 0x80c0 ∧ is_ready tc'.
Proof.
  split; [kcompute|].
  destruct (interrupt_handler_wakeup_preempts_interrupted_thread L0 ex_handler
              idle_queue 0x1000 (tcb ex_handler 0x1000) [] 2 0x80c0 0x9090 0x1040 0
              (tcb ex_handler 0x1040))
    as (k' & tc' & H1 & H2 & _ & H4 & H5 & H6 & _); [first [klow | kcompute]..|].
  exists k', tc'. split_and!; [exact H1|exact H2|exact H4|exact H5|exact H6].
Defined.

(** "recv" registers a handler for vector 2. *)
Lemma setintr_registers_handler_without_bounds_check_witness :
  ∃ k',
    syscall_proc L0 KZ_SYSCALL_TYPE_SETINTR 0x9080 ex_calls = Ret tt k' ∧
    handlers k' =
      <[Z.to_nat 2 := H_user [(KZ_SYSCALL_TYPE_WAKEUP, 0x9090)]]> (handlers ex_calls).
Proof.
  destruct (setintr_registers_handler_without_bounds_check L0 ex_calls two_queues
              0x1040 (tcb ex_calls 0x1040) [0x1080] 0x9080 2 0
              (H_user [(KZ_SYSCALL_TYPE_WAKEUP, 0x9090)]))
    as [H _]; [kcompute..|].
  destruct H as (k' & H1 & H2 & _); [kcompute|].
  exists k'. split_and!; [exact H1|exact H2].
Defined.

(** The start of the kernel on the scenario. *)
Lemma kz_start_builds_initial_state_witness :
  ∃ k,
    kz_start L0 0x500 "idle" 0 0x100 0 0 ex_boot =
      Ret (thread_stack ex_boot + 0x100 - 36) k ∧
    current k = threads_base L0 ∧
    ready_inv (readyque k) (threads k)
      (<[Z.to_nat 0 := [threads_base L0]]> (replicate (Z.to_nat PRIORITY_NUM) [])).
Proof.
  destruct (kz_start_builds_initial_state L0 0x500 "idle" 0 0x100 0 0 ex_boot)
    as (k & H1 & H2 & _ & H4 & _); [kcompute..|].
  exists k. split_and!; [exact H1|exact H2|exact H4].
Defined.

(** The idle thread creates a thread without entry function. *)
Lemma run_with_null_function_leaves_slot_free_witness :
  ∃ k' qs',
    thread_run L0 NULL "recv" 1 0x100 0 0 ex_idle = Ret 0x1040 k' ∧
    ready_inv (readyque k') (threads k') qs' ∧ 0x1040 ∈ concat qs' ∧
    ¬ occupied k' 0x1040 ∧
    find_free (tcb_slots L0) k' = Ret (Some 0x1040) k'.
Proof.
  apply (run_with_null_function_leaves_slot_free L0 ex_idle no_queues "recv" 1 0x100
           0 0 [0x1000] 0x1040 [0x1080; 0x10c0; 0x1100; 0x1140]
           (tcb ex_idle 0x1040) 0x1000 (tcb ex_idle 0x1000)); kcompute.
Defined.

(** "recv", of priority 1, creates a thread of priority 0. *)
Lemma run_of_higher_priority_thread_preempts_caller_witness :
  ∃ k' tc',
    kz_syscall L0 KZ_SYSCALL_TYPE_RUN 0x90a0 0x81c0 ex_calls =
      Ret (thread_stack ex_calls + 0x100 - 36) k' ∧
    current k' = 0x10c0 ∧
    params k' = <[0x90a0 := un_run 0x800 "high" 0 0x100 0 0 0x10c0]> (params ex_calls) ∧
    threads k' !! 0x1040 = Some tc' ∧ context_sp tc' = 0x81c0.
Proof.
  destruct (run_of_higher_priority_thread_preempts_caller L0 ex_calls two_queues
              0x1040 (tcb ex_calls 0x1040) [0x1080] 0x90a0 0x81c0 0x800 "high" 0
              0x100 0 0 0 [0x1000; 0x1040; 0x1080] 0x10c0 [0x1100; 0x1140]
              (tcb ex_calls 0x10c0))
    as (k' & tc' & H1 & H2 & H3 & H4 & H5 & _); [first [klow | kcompute]..|].
  exists k', tc'. split_and!; [exact H1|exact H2|exact H3|exact H4|exact H5].
Defined.

(** "recv" sends 15 bytes to mailbox 0 and "send" receives them. *)
Lemma message_sent_is_message_received_witness :
  ∃ k2,
    serve_all L0 [Syscall KZ_SYSCALL_TYPE_SEND 0x9050 0x81c0;
                  Syscall KZ_SYSCALL_TYPE_RECV 0x9040 0x82c0] ex_two = Ret tt k2 ∧
    params k2 !! 0x9050 = Some (un_send 0 15 0x9200 15) ∧
    params k2 !! 0x9040 = Some (un_recv 0 0x9100 0x9104 0x1040) ∧
    umem k2 = deliver_umem 0x9100 0x9104 (mk_msgbuf NULL 0x1040 15 0x9200) (umem ex_two) ∧
    msgboxes k2 !! Z.to_nat 0 = Some (mk_msgbox NULL NULL NULL).
Proof.
  destruct (message_sent_is_message_received L0 ex_two two_queues 0x1040
              (tcb ex_two 0x1040) 0x1080 [] 0x9050 0x9040 0x81c0 0x82c0 0 15 0x9200 0
              0x9100 0x9104 0 (pool_alloc 16 (pool ex_two)).1
              (pool_alloc 16 (pool ex_two)).2)
    as (k2 & H1 & H2 & H3 & H4 & H5 & _); [first [klow | kcompute]..|].
  exists k2. split_and!; [exact H1|exact H2|exact H3|exact H4|exact H5].
Defined.

(** "recv" lowers its priority to 15 and "send" is selected. *)
Lemma chpri_moves_caller_between_queues_witness :
  ∃ k',
    syscall_proc L0 KZ_SYSCALL_TYPE_CHPRI 0x9020 ex_two = Ret tt k' ∧
    params k' = <[0x9020 := un_chpri 15 (priority (tcb ex_two 0x1040))]> (params ex_two) ∧
    schedule k' = Ret tt (with_current 0x1080 k').
Proof.
  destruct (chpri_moves_caller_between_queues L0 ex_two two_queues 0x1040
              (tcb ex_two 0x1040) [0x1080] 0x9020 15 0)
    as (k' & H1 & H2 & _ & H4); [kcompute..|].
  exists k'. split_and!; [exact H1|exact H2|].
  apply (H4 ltac:(kcompute) ltac:(klow) 0x1080 []). reflexivity.
Defined.

(** A WAIT leaves the mailboxes alone. *)
Lemma requests_other_than_send_and_recv_keep_mailboxes_witness :
  msgboxes (state_of (syscall_proc L0 KZ_SYSCALL_TYPE_WAIT 0x9030 ex_two)) =
    msgboxes ex_two.
Proof.
  apply (requests_other_than_send_and_recv_keep_mailboxes L0 KZ_SYSCALL_TYPE_WAIT
           0x9030 ex_two); [discriminate|discriminate|].
  left. kcompute.
Defined.

(** "recv" and "send" yield in turn. *)
Lemma thread_resumes_on_saved_stack_pointer_witness :
  ∃ k1 k2 spd,
    kz_syscall L0 KZ_SYSCALL_TYPE_WAIT 0x9030 0x81c0 ex_two = Ret spd k1 ∧
    current k1 = 0x1080 ∧
    kz_syscall L0 KZ_SYSCALL_TYPE_WAIT 0x9030 0x82c0 k1 = Ret 0x81c0 k2 ∧
    current k2 = 0x1040 ∧
    ready_inv (readyque k2) (threads k2) two_queues.
Proof.
  apply (thread_resumes_on_saved_stack_pointer L0 ex_two two_queues 0x1040 0x1080
           (tcb ex_two 0x1040) 0x9030 0x9030 0x81c0 0x82c0 0 0);
    first [klow | kcompute].
Defined.

(** RECV as a service call on a mailbox that holds four messages. *)
Lemma recv_as_service_call_parks_nobody_witness :
  mhead (mbox ex_full 0) ≠ NULL ∧
  ∃ k', kz_srvcall L0 KZ_SYSCALL_TYPE_RECV 0x9040 ex_full = Fault NullPointer k'.
Proof.
  split; [kcompute|].
  destruct (recv_as_service_call_parks_nobody L0 ex_full 0x9040 0 0x9100 0x9104 0
              (mbox ex_full 0)) as [_ H]; [kcompute..|].
  apply (H (default (mk_msgbuf 0 0 0 0) (msgbufs ex_full !! mhead (mbox ex_full 0))));
    kcompute.
Defined.

(** A name of sixteen characters, and priority 16. *)
Lemma run_checks_neither_name_length_nor_priority_witness :
  thread_run L0 0x600 "sixteen letters." 1 0x100 0 0 ex_idle =
    Fault OutOfBounds
      (with_threads (<[0x1040 := zero_thread]> (threads ex_idle)) ex_idle) ∧
  ∃ k', thread_run L0 0x600 "recv" 16 0x100 0 0 ex_idle = Fault OutOfBounds k' ∧
        current k' = 0x1040.
Proof.
  split.
  - destruct (run_checks_neither_name_length_nor_priority L0 ex_idle no_queues 0x600
                "sixteen letters." 1 0x100 0 0 [0x1000] 0x1040
                [0x1080; 0x10c0; 0x1100; 0x1140]
                (tcb ex_idle 0x1040) 0x1000 (tcb ex_idle 0x1000)) as [H _];
      [kcompute..|].
    apply H. kcompute.
  - destruct (run_checks_neither_name_length_nor_priority L0 ex_idle no_queues 0x600
                "recv" 16 0x100 0 0 [0x1000] 0x1040
                [0x1080; 0x10c0; 0x1100; 0x1140]
                (tcb ex_idle 0x1040) 0x1000 (tcb ex_idle 0x1000)) as [_ H];
      [kcompute..|].
    destruct H as (k' & H1 & H2 & _); [kcompute| |].
    { intros [_ H]. revert H. kcompute. }
    exists k'. split; [exact H1|exact H2].
Defined.
